(** * The libde265 decode bridge of gst-plugins-good: parse cycle, length-field
    rewriting, flush, geometry tracking and plane assembly.

    Shallow embedding of [ext/libde265/libde265-dec.c] (and of the plane copy
    of [ext/vp8/gstvp8dec.c]).  Buffers are lists of bytes addressed by
    offsets relative to [frame_data]; C [int] values are integers with their
    32-bit wrap-around written out; the decoder engine and the GStreamer base
    class are consumed through the calls the element makes, which are logged
    in call order. *)

From Stdlib Require Import ZArith Lia List String.
From coqutil Require Import Byte.
From stdpp Require Import list.

Local Open Scope Z_scope.

(** ** Machine integers *)

Module CInt.

(** Conversion of a value to [int] (32 bits, two's complement). *)
Definition to_int (z : Z) : Z := (z + 2 ^ 31) mod 2 ^ 32 - 2 ^ 31.

(** Conversion of a value to [uint32_t] / [unsigned]. *)
Definition to_uint32 (z : Z) : Z := z mod 2 ^ 32.

(** [int] addition and multiplication. *)
Definition add (a b : Z) : Z := to_int (a + b).
Definition mul (a b : Z) : Z := to_int (a * b).

Definition INT_MAX : Z := 2 ^ 31 - 1.

End CInt.

(** ** Mapped buffers *)

(** [((const uint8_t* )(x))[i]]: one byte of the buffer, as an unsigned value.
    Every access the model performs is guarded to lie inside the buffer. *)
Definition load8 (buf : list byte) (i : Z) : Z :=
  match buf !! Z.to_nat i with
  | Some b => byte.unsigned b
  | None => 0
  end.

(** [((uint8_t* )(p))[i] = v]: the value is truncated to eight bits. *)
Definition store8 (buf : list byte) (i : Z) (v : Z) : list byte :=
  <[Z.to_nat i := byte.of_Z v]> buf.

(** [READ_BE32(x)], a [uint32_t]. *)
Definition READ_BE32 (buf : list byte) (x : Z) : Z :=
  Z.lor (Z.lor (Z.lor (CInt.to_uint32 (Z.shiftl (load8 buf x) 24))
                      (Z.shiftl (load8 buf (x + 1)) 16))
               (Z.shiftl (load8 buf (x + 2)) 8))
        (load8 buf (x + 3)).

(** [WRITE_BE32(p, darg)]. *)
Definition WRITE_BE32 (buf : list byte) (p : Z) (darg : Z) : list byte :=
  let d := CInt.to_uint32 darg in
  let buf := store8 buf (p + 3) d in
  let buf := store8 buf (p + 2) (Z.shiftr d 8) in
  let buf := store8 buf (p + 1) (Z.shiftr d 16) in
  store8 buf p (Z.shiftr d 24).

(** [gsize size]: the number of bytes of a buffer. *)
Definition size_of (buf : list byte) : Z := Z.of_nat (length buf).

(** ** Replacing the length fields by start codes (lines 373-378) *)

(** How the [while] loop of the packetized branch ends.  [start_data] is the
    offset of the walking pointer from [frame_data], so [end_data] is the
    size of the buffer.  [markers] lists, in order, the offsets at which a
    start code was written. *)
Inductive walk_result :=
| WalkExit (start_data : Z) (buf : list byte) (markers : list Z)
    (* the loop condition [start_data + 4 <= end_data] failed *)
| WalkOutOfBounds (start_data : Z) (buf : list byte) (markers : list Z)
    (* the loop condition holds with [start_data] before [frame_data]:
       the next [READ_BE32] and [WRITE_BE32] touch memory outside the buffer *)
| WalkOutOfFuel.

Fixpoint replace_length_fields (fuel : nat) (buf : list byte) (start_data : Z)
    (markers : list Z) : walk_result :=
  match fuel with
  | O => WalkOutOfFuel
  | S fuel' =>
      if start_data + 4 <=? size_of buf then
        if start_data <? 0 then WalkOutOfBounds start_data buf markers
        else
          let nal_size := CInt.to_int (READ_BE32 buf start_data) in
          let buf' := WRITE_BE32 buf start_data 1 in
          replace_length_fields fuel' buf' (start_data + CInt.add 4 nal_size)
            (markers ++ [start_data])
      else WalkExit start_data buf markers
  end.

(** Number of bytes of a buffer whose value is above 1.  A start code holds
    none, so every iteration that reads such a byte first removes one. *)
Definition heavy (buf : list byte) : nat :=
  length (filter (fun b => 1 < byte.unsigned b) buf).

(** A bound on the iterations the loop still makes from [start_data]: an
    iteration that reads a first byte above 1 lowers [heavy], any other
    moves the pointer forward by at least 4. *)
Definition walk_measure (buf : list byte) (start_data : Z) : nat :=
  (heavy buf * S (length buf)
   + Z.to_nat (Z.min (size_of buf) (size_of buf - start_data)))%nat.

(** Iterations granted to the loop on a buffer; [replace_length_fields_total]
    shows that it never runs out. *)
Definition walk_fuel (buf : list byte) : nat :=
  S (S (heavy buf) * S (length buf)).

(** ** The decoder engine and the calls the element makes *)

(** [de265_error]: the result codes the element tells apart; every other
    error or warning code of the engine is a [DE265_CODE]. *)
Inductive de265_error :=
| DE265_OK
| DE265_ERROR_IMAGE_BUFFER_FULL
| DE265_ERROR_WAITING_FOR_INPUT_DATA
| DE265_CODE (code : Z).

Definition is_DE265_OK (e : de265_error) : bool :=
  match e with DE265_OK => true | _ => false end.

(** The engine (libde265) behind the narrow interface the element uses.
    [Ctx] is the state behind a [de265_decoder_context*], [Image] what a
    [const struct de265_image*] points to.  A plane is returned as its
    memory together with its stride. *)
Class Engine (Ctx Image : Type) := {
  de265_peek_next_picture : Ctx -> option Image;
  de265_get_next_picture : Ctx -> option Image * Ctx;
  de265_push_data : Ctx -> list byte -> Z -> de265_error * Ctx;
  de265_decode : Ctx -> de265_error * Ctx;
  de265_get_warning : Ctx -> de265_error * Ctx;
  de265_get_image_width : Image -> Z -> Z;
  de265_get_image_height : Image -> Z -> Z;
  de265_get_image_plane : Image -> Z -> list byte * Z
}.

(** The two messages of [GST_ELEMENT_ERROR]. *)
Inductive stream_error :=
| Overflow_in_input_data
| Error_while_decoding (ret : de265_error).

(** Calls into the engine and into the base class, logged in call order. *)
Inductive call :=
| Peek_next_picture
| Get_next_picture
| Push_data (data : list byte) (length : Z)
| Decode
| Get_warning
| Take_buffer (size : Z)
| Element_error (e : stream_error)
| Element_warning (ret : de265_error)
| Set_output_state (width height : Z)
| Set_framerate (fps_n fps_d : Z)
| Negotiate
| Have_frame
| Allocate_output_frame
| Finish_frame (output : list byte).

(** How the parse and handle-frame functions return.  [GST_FLOW_OK],
    [GST_FLOW_ERROR] and [GST_VIDEO_DECODER_FLOW_NEED_DATA] stand for the
    [return] statements of the element that name these values.  The three
    [Return_] paths are tail calls into the base class, such as
    [return gst_video_decoder_have_frame (decoder)]: the call is the last
    one logged and the value returned is the base class's, which can be any
    [GstFlowReturn], an error included; [returned_value] gives it. *)
Inductive GstFlowReturn :=
| GST_FLOW_OK
| GST_FLOW_ERROR
| GST_VIDEO_DECODER_FLOW_NEED_DATA
| Return_have_frame
| Return_allocate_output_frame
| Return_finish_frame.

(** Behaviour the C standard leaves undefined. *)
Inductive undefined :=
| Null_context                      (* an engine call on [dec->ctx == NULL] *)
| Out_of_bounds (offset : Z)        (* access outside the mapped buffer *)
| Bad_memcpy (plane : Z).           (* a plane copy leaving its source or destination *)

Inductive outcome (A : Type) :=
| Returned (a : A)
| Out_of_fuel
| Undefined_behaviour (u : undefined).
Arguments Returned {A} a.
Arguments Out_of_fuel {A}.
Arguments Undefined_behaviour {A} u.

Inductive GstLibde265DecMode :=
| GST_TYPE_LIBDE265_DEC_PACKETIZED
| GST_TYPE_LIBDE265_DEC_RAW.

(** What the packetized branch of the parse function (lines 371-384) does to
    the mapped buffer. *)
Inductive reframed :=
| Reframed (buf : list byte) (markers : list Z)
| Overflow (buf : list byte) (start_data : Z)
| Reframe_undefined (offset : Z).

Definition reframe (mode : GstLibde265DecMode) (buf : list byte) : reframed :=
  match mode with
  | GST_TYPE_LIBDE265_DEC_PACKETIZED =>
      match replace_length_fields (walk_fuel buf) buf 0 [] with
      | WalkExit start_data buf' markers =>
          if size_of buf <? start_data then Overflow buf' start_data
          else Reframed buf' markers
      | WalkOutOfBounds start_data _ _ => Reframe_undefined start_data
      | WalkOutOfFuel => Reframe_undefined 0
      end
  | GST_TYPE_LIBDE265_DEC_RAW => Reframed buf []
  end.

Section Element.

Context {Ctx Image : Type} `{Engine Ctx Image}.

(** Whether [HAVE_DE265_ERROR_WAITING_FOR_INPUT_DATA] is defined, which
    depends on the version of the engine's headers. *)
Variable HAVE_DE265_ERROR_WAITING_FOR_INPUT_DATA : bool.

(** The fields of [GstLibde265Dec] the decode loop uses.  [buffer_full]
    only ever holds 0 or 1; the reference-counted [input_state] is passed
    through to the base class and left out. *)
Record GstLibde265Dec := {
  ctx : option Ctx;
  width : Z;
  height : Z;
  buffer_full : bool;
  mode : GstLibde265DecMode;
  fps_n : Z;
  fps_d : Z
}.

Definition set_ctx (dec : GstLibde265Dec) (c : option Ctx) :=
  {| ctx := c; width := width dec; height := height dec;
     buffer_full := buffer_full dec; mode := mode dec;
     fps_n := fps_n dec; fps_d := fps_d dec |}.

Definition set_buffer_full (dec : GstLibde265Dec) (b : bool) :=
  {| ctx := ctx dec; width := width dec; height := height dec;
     buffer_full := b; mode := mode dec;
     fps_n := fps_n dec; fps_d := fps_d dec |}.

Definition set_geometry (dec : GstLibde265Dec) (w h : Z) :=
  {| ctx := ctx dec; width := w; height := h;
     buffer_full := buffer_full dec; mode := mode dec;
     fps_n := fps_n dec; fps_d := fps_d dec |}.

(** [_gst_libde265_dec_reset_decoder] *)
Definition _gst_libde265_dec_reset_decoder (dec : GstLibde265Dec) :=
  {| ctx := None; width := -1; height := -1; buffer_full := false;
     mode := mode dec; fps_n := fps_n dec; fps_d := fps_d dec |}.

(** An engine call dereferences [dec->ctx]. *)
Definition with_ctx {A} (dec : GstLibde265Dec) (k : Ctx -> outcome A) : outcome A :=
  match ctx dec with
  | Some c => k c
  | None => Undefined_behaviour Null_context
  end.

(** [gst_libde265_dec_flush]: the loop, then the flag.  The loop is a
    [do ... while], so the engine is asked at least once. *)
Fixpoint flush_pictures (fuel : nat) (c : Ctx) : option (Ctx * list call) :=
  match fuel with
  | O => None
  | S fuel' =>
      let '(img, c') := de265_get_next_picture c in
      match img with
      | Some _ =>
          match flush_pictures fuel' c' with
          | Some (c'', calls) => Some (c'', Get_next_picture :: calls)
          | None => None
          end
      | None => Some (c', [Get_next_picture])
      end
  end.

Definition gst_libde265_dec_flush (fuel : nat) (dec : GstLibde265Dec)
    : outcome (GstLibde265Dec * list call) :=
  with_ctx dec (fun c =>
    match flush_pictures fuel c with
    | Some (c', calls) =>
        Returned (set_buffer_full (set_ctx dec (Some c')) false, calls)
    | None => Out_of_fuel
    end).

(** [_gst_libde265_image_available].  The [g_assert] on the state returned
    by [gst_video_decoder_set_output_state] is taken to hold. *)
Definition _gst_libde265_image_available (dec : GstLibde265Dec) (image : Image)
    : GstLibde265Dec * list call :=
  let width' := de265_get_image_width image 0 in
  let height' := de265_get_image_height image 0 in
  if negb (width' =? width dec) || negb (height' =? height dec) then
    (set_geometry dec width' height',
     Set_output_state width' height'
       :: (if 0 <? fps_n dec then [Set_framerate (fps_n dec) (fps_d dec)] else [])
       ++ [Negotiate; Have_frame])
  else (dec, [Have_frame]).

(** The result of one parse cycle: the value returned, the element
    afterwards, what is left in the adapter, and the calls made. *)
Record parsed := {
  flow : GstFlowReturn;
  dec_after : GstLibde265Dec;
  adapter_after : list byte;
  calls : list call
}.

(** The [while] loop over [de265_get_warning] (lines 413-416). *)
Fixpoint get_warnings (fuel : nat) (c : Ctx) : option (Ctx * list call) :=
  match fuel with
  | O => None
  | S fuel' =>
      let '(ret, c') := de265_get_warning c in
      if is_DE265_OK ret then Some (c', [Get_warning])
      else
        match get_warnings fuel' c' with
        | Some (c'', calls) =>
            Some (c'', Get_warning :: Element_warning ret :: calls)
        | None => None
        end
  end.

(** Lines 418-423, also the tail of the buffer-full case. *)
Definition peek_and_return (dec : GstLibde265Dec) (c : Ctx) (log : list call)
    : parsed :=
  match de265_peek_next_picture c with
  | None =>
      {| flow := GST_VIDEO_DECODER_FLOW_NEED_DATA; dec_after := dec;
         adapter_after := []; calls := log ++ [Peek_next_picture] |}
  | Some img =>
      let '(dec', calls') := _gst_libde265_image_available dec img in
      {| flow := Return_have_frame; dec_after := dec';
         adapter_after := [];
         calls := log ++ Peek_next_picture :: calls' |}
  end.

(** Lines 386-391: push the buffer, then decode if the push was accepted.
    The length [end_data - frame_data], which is [size], reaches the engine
    through the [int length] parameter of [de265_push_data]. *)
Definition push_and_decode (c : Ctx) (frame_data : list byte) (size : Z)
    : de265_error * Ctx * list call :=
  let length := CInt.to_int size in
  let '(ret, c) := de265_push_data c frame_data length in
  if is_DE265_OK ret then
    let '(ret, c) := de265_decode c in
    (ret, c, [Push_data frame_data length; Decode])
  else (ret, c, [Push_data frame_data length]).

(** Lines 358-423: the cycle from [gst_adapter_available] on.  [log] holds
    the calls made so far; [map_ok] is whether [gst_buffer_map] succeeds. *)
Definition parse_feed (fuel : nat) (dec : GstLibde265Dec) (adapter : list byte)
    (map_ok : bool) (log : list call) : outcome parsed :=
  let size := size_of adapter in
  if size =? 0 then
    Returned {| flow := GST_VIDEO_DECODER_FLOW_NEED_DATA; dec_after := dec;
                adapter_after := adapter; calls := log |}
  else
    let log := log ++ [Take_buffer size] in
    if negb map_ok then
      Returned {| flow := GST_FLOW_ERROR; dec_after := dec;
                  adapter_after := []; calls := log |}
    else
      match reframe (mode dec) adapter with
      | Reframe_undefined offset => Undefined_behaviour (Out_of_bounds offset)
      | Overflow _ _ =>
          Returned {| flow := GST_FLOW_ERROR; dec_after := dec;
                      adapter_after := [];
                      calls := log ++ [Element_error Overflow_in_input_data] |}
      | Reframed frame_data _ =>
          with_ctx dec (fun c =>
            let '(ret, c, calls') := push_and_decode c frame_data size in
            let log := log ++ calls' in
            let dec := set_ctx dec (Some c) in
            match ret with
            | DE265_OK =>
                match get_warnings fuel c with
                | None => Out_of_fuel
                | Some (c, calls') =>
                    Returned (peek_and_return (set_ctx dec (Some c)) c (log ++ calls'))
                end
            | DE265_ERROR_IMAGE_BUFFER_FULL =>
                Returned (peek_and_return (set_buffer_full dec true) c log)
            | DE265_ERROR_WAITING_FOR_INPUT_DATA =>
                if HAVE_DE265_ERROR_WAITING_FOR_INPUT_DATA then
                  Returned {| flow := GST_VIDEO_DECODER_FLOW_NEED_DATA;
                              dec_after := dec; adapter_after := [];
                              calls := log |}
                else
                  Returned {| flow := GST_FLOW_ERROR; dec_after := dec;
                              adapter_after := [];
                              calls := log ++ [Element_error (Error_while_decoding ret)] |}
            | DE265_CODE _ =>
                Returned {| flow := GST_FLOW_ERROR; dec_after := dec;
                            adapter_after := [];
                            calls := log ++ [Element_error (Error_while_decoding ret)] |}
            end)
      end.

(** [gst_libde265_dec_parse] *)
Definition gst_libde265_dec_parse (fuel : nat) (dec : GstLibde265Dec)
    (adapter : list byte) (map_ok : bool) : outcome parsed :=
  if buffer_full dec then
    with_ctx dec (fun c =>
      match de265_peek_next_picture c with
      | Some img =>
          let '(dec', calls') := _gst_libde265_image_available dec img in
          Returned {| flow := Return_have_frame; dec_after := dec';
                      adapter_after := adapter;
                      calls := Peek_next_picture :: calls' |}
      | None =>
          parse_feed fuel (set_buffer_full dec false) adapter map_ok
            [Peek_next_picture]
      end)
  else parse_feed fuel dec adapter map_ok [].

(** [memcpy (dest + doff, src + soff, n)] with [n] a [size_t]; nothing is
    returned when the copy would leave the source or the destination. *)
Definition memcpy (dest : list byte) (doff : Z) (src : list byte) (soff : Z)
    (n : Z) : option (list byte) :=
  if (0 <=? n) && (0 <=? soff) && (soff + n <=? size_of src)
     && (0 <=? doff) && (doff + n <=? size_of dest)
  then Some (take (Z.to_nat doff) dest
             ++ take (Z.to_nat n) (drop (Z.to_nat soff) src)
             ++ drop (Z.to_nat (doff + n)) dest)
  else None.

(** The [for] loop of [gst_libde265_dec_handle_frame] (lines 470-476) over
    the planes still to copy; [dest] is the offset of the write pointer in
    the mapped output buffer [out]. *)
Fixpoint copy_planes (planes : list Z) (img : Image) (out : list byte)
    (dest : Z) : outcome (list byte * Z) :=
  match planes with
  | [] => Returned (out, dest)
  | plane :: planes' =>
      let height := de265_get_image_height img plane in
      let '(src, stride) := de265_get_image_plane img plane in
      match memcpy out dest src 0 (CInt.mul height stride) with
      | Some out' => copy_planes planes' img out' (dest + CInt.mul height stride)
      | None => Undefined_behaviour (Bad_memcpy plane)
      end
  end.

(** The result of [gst_libde265_dec_handle_frame]. *)
Record handled := {
  handle_flow : GstFlowReturn;
  handle_dec : GstLibde265Dec;
  handle_calls : list call
}.

(** [gst_libde265_dec_handle_frame].  [output_buffer] is the buffer that
    [gst_video_decoder_allocate_output_frame] provides ([None] when it does
    not return [GST_FLOW_OK]); [map_ok] is whether [gst_buffer_map] succeeds. *)
Definition gst_libde265_dec_handle_frame (dec : GstLibde265Dec)
    (output_buffer : option (list byte)) (map_ok : bool) : outcome handled :=
  with_ctx dec (fun c =>
    let '(img, c) := de265_get_next_picture c in
    let dec := set_ctx dec (Some c) in
    match img with
    | None =>
        Returned {| handle_flow := GST_FLOW_OK; handle_dec := dec;
                    handle_calls := [Get_next_picture] |}
    | Some img =>
        match output_buffer with
        | None =>
            Returned {| handle_flow := Return_allocate_output_frame;
                        handle_dec := dec;
                        handle_calls := [Get_next_picture; Allocate_output_frame] |}
        | Some out =>
            if negb map_ok then
              Returned {| handle_flow := GST_FLOW_ERROR; handle_dec := dec;
                          handle_calls := [Get_next_picture; Allocate_output_frame] |}
            else
              match copy_planes [0; 1; 2] img out 0 with
              | Returned (out', _) =>
                  Returned {| handle_flow := Return_finish_frame;
                              handle_dec := dec;
                              handle_calls := [Get_next_picture; Allocate_output_frame;
                                               Finish_frame out'] |}
              | Out_of_fuel => Out_of_fuel
              | Undefined_behaviour u => Undefined_behaviour u
              end
        end
    end).

End Element.


(** ** The plane copy of the VP8 element *)

(** The three row loops of [gst_vp8_dec_handle_frame] ([gstvp8dec.c], lines
    368-389).  The width and height are those of [decoder->state], [int]s
    like the loop counter and the strides. *)
Module VP8.

(** The fields of [vpx_image_t] the copy reads, by plane index. *)
Record vpx_image_t := {
  planes : Z -> list byte;
  stride : Z -> Z
}.

(** [for (i = ...; i < bound; i++) memcpy (dst + offset(i), src + i * stride, n)]
    with [rows] iterations left; [offset] is the [int] expression of the
    destination offset. *)
Fixpoint copy_rows (rows : nat) (i : Z) (out : list byte) (offset : Z -> Z)
    (src : list byte) (src_stride n : Z) : option (list byte) :=
  match rows with
  | O => Some out
  | S rows' =>
      match memcpy out (offset i) src (CInt.mul i src_stride) n with
      | Some out' => copy_rows rows' (i + 1) out' offset src src_stride n
      | None => None
      end
  end.

(** The body of the [while] loop over the decoded images: luma rows, then
    the rows of the two chroma planes.  [/] on [int]s truncates; the sums
    are pointer additions. *)
Definition copy_image (width height : Z) (img : vpx_image_t) (out : list byte)
    : option (list byte) :=
  match copy_rows (Z.to_nat height) 0 out
          (fun i => CInt.mul i width)
          (planes img 0) (stride img 0) width with
  | None => None
  | Some out =>
      match copy_rows (Z.to_nat (Z.quot height 2)) 0 out
              (fun i => CInt.mul width height + Z.quot (CInt.mul i width) 2)
              (planes img 1) (stride img 1) (Z.quot width 2) with
      | None => None
      | Some out =>
          copy_rows (Z.to_nat (Z.quot height 2)) 0 out
            (fun i => CInt.mul width height + Z.quot (CInt.mul width height) 4
                      + Z.quot (CInt.mul i width) 2)
            (planes img 2) (stride img 2) (Z.quot width 2)
      end
  end.

End VP8.

(** ** The engine's queues *)

(** Modelled from the spec: the engine itself (libde265) is not part of the
    repository.  Section 4.2 describes [peekPicture] and [pullPicture] as the
    non-destructive and the destructive read of the oldest decoded picture of
    the engine's internal queue, and [drainWarnings] as retrieving diagnostic
    codes until none remain.  [pending] and [queued_warnings] are these two
    queues; a warning is never [DE265_OK]. *)
Class EngineQueues {Ctx Image : Type} `{Engine Ctx Image} := {
  pending : Ctx -> list Image;
  queued_warnings : Ctx -> list de265_error;
  peek_pending : forall c, de265_peek_next_picture c = head (pending c);
  get_next_head : forall c, fst (de265_get_next_picture c) = head (pending c);
  get_next_tail : forall c, pending (snd (de265_get_next_picture c)) = tail (pending c);
  get_warning_head : forall c,
    fst (de265_get_warning c) = default DE265_OK (head (queued_warnings c));
  get_warning_tail : forall c,
    queued_warnings (snd (de265_get_warning c)) = tail (queued_warnings c);
  warnings_not_ok : forall c, Forall (fun e => is_DE265_OK e = false) (queued_warnings c)
}.

(** ** A scripted engine *)

(** An engine stub: pictures and warnings sit in two queues, pushed bytes
    are recorded, and every [de265_decode] plays the next step of a script,
    which returns a code and queues pictures and warnings. *)
Module Stub.

Record plane := {
  plane_width : Z;
  plane_height : Z;
  plane_stride : Z;
  plane_memory : list byte
}.

Record image := { luma : plane; chroma_b : plane; chroma_r : plane }.

Definition plane_of (img : image) (p : Z) : plane :=
  if p =? 0 then luma img else if p =? 1 then chroma_b img else chroma_r img.

Record step := {
  step_result : de265_error;
  step_pictures : list image;
  step_warnings : list Z
}.

(** Warnings are kept as their numeric codes. *)
Record context := {
  pictures : list image;
  warnings : list Z;
  script : list step;
  input : list byte
}.

Definition peek_next_picture (c : context) : option image := head (pictures c).

Definition get_next_picture (c : context) : option image * context :=
  (head (pictures c),
   {| pictures := tail (pictures c); warnings := warnings c;
      script := script c; input := input c |}).

Definition push_data (c : context) (data : list byte) (length : Z)
    : de265_error * context :=
  (DE265_OK,
   {| pictures := pictures c; warnings := warnings c; script := script c;
      input := input c ++ take (Z.to_nat length) data |}).

Definition decode (c : context) : de265_error * context :=
  match script c with
  | [] => (DE265_ERROR_WAITING_FOR_INPUT_DATA, c)
  | s :: rest =>
      (step_result s,
       {| pictures := pictures c ++ step_pictures s;
          warnings := warnings c ++ step_warnings s;
          script := rest; input := input c |})
  end.

Definition get_warning (c : context) : de265_error * context :=
  (default DE265_OK (head (map DE265_CODE (warnings c))),
   {| pictures := pictures c; warnings := tail (warnings c);
      script := script c; input := input c |}).

#[global] Instance engine : Engine context image := {|
  de265_peek_next_picture := peek_next_picture;
  de265_get_next_picture := get_next_picture;
  de265_push_data := push_data;
  de265_decode := decode;
  de265_get_warning := get_warning;
  de265_get_image_width := fun img p => plane_width (plane_of img p);
  de265_get_image_height := fun img p => plane_height (plane_of img p);
  de265_get_image_plane := fun img p =>
    (plane_memory (plane_of img p), plane_stride (plane_of img p))
|}.

#[global, refine] Instance queues : EngineQueues := {|
  pending := pictures;
  queued_warnings := fun c => map DE265_CODE (warnings c)
|}.
Proof.
  - reflexivity.
  - reflexivity.
  - reflexivity.
  - reflexivity.
  - intros c. simpl. destruct (warnings c); reflexivity.
  - intros c. simpl. induction (warnings c); constructor; auto.
Defined.

(** A [w] x [h] plane with the given stride, every row filled with [fill]
    and padded with [pad]. *)
Definition make_plane (w h stride : Z) (fill pad : byte) : plane :=
  {| plane_width := w; plane_height := h; plane_stride := stride;
     plane_memory :=
       mjoin (replicate (Z.to_nat h)
                (replicate (Z.to_nat w) fill ++ replicate (Z.to_nat (stride - w)) pad)) |}.

(** A 4:2:0 picture of the given luma size whose luma rows are [stride]
    bytes apart and whose chroma rows half as many. *)
Definition make_image (w h stride : Z) : image :=
  {| luma := make_plane w h stride Byte.x10 Byte.xee;
     chroma_b := make_plane (w / 2) (h / 2) (stride / 2) Byte.x80 Byte.xee;
     chroma_r := make_plane (w / 2) (h / 2) (stride / 2) Byte.x90 Byte.xee |}.

Definition empty : context :=
  {| pictures := []; warnings := []; script := []; input := [] |}.

End Stub.

(** ** The packetized format and the planar frame, as the spec words them *)

(** Section 6: a record is a 4-byte big-endian unsigned length [L] followed
    by [L] bytes of payload. *)
Definition be32 (n : Z) : list byte :=
  [byte.of_Z (Z.shiftr n 24); byte.of_Z (Z.shiftr n 16);
   byte.of_Z (Z.shiftr n 8); byte.of_Z n].

Definition record (payload : list byte) : list byte :=
  be32 (size_of payload) ++ payload.

(** A buffer that exactly tiles into the records of the given payloads. *)
Definition packetized (payloads : list (list byte)) : list byte :=
  mjoin (map record payloads).

(** The fixed start-code marker. *)
Definition start_code : list byte := [Byte.x00; Byte.x00; Byte.x00; Byte.x01].

(** The same payloads, start-code delimited. *)
Definition start_coded (payloads : list (list byte)) : list byte :=
  mjoin (map (fun payload => start_code ++ payload) payloads).

(** The offsets of the records of a buffer that begins at offset [from]. *)
Fixpoint record_offsets (from : Z) (payloads : list (list byte)) : list Z :=
  match payloads with
  | [] => []
  | payload :: rest => from :: record_offsets (from + 4 + size_of payload) rest
  end.

(** A length field fits the 4 bytes of its record. *)
Definition fits_length_field (payload : list byte) : Prop :=
  size_of payload < 2 ^ 32.

(** A length field the element's [int nal_size] holds and can add 4 to. *)
Definition fits_int (payload : list byte) : Prop :=
  4 + size_of payload <= CInt.INT_MAX.

(** Section 7 and 8: the records overrun the buffer when, after some complete
    records, a length field announces more payload than the buffer has left. *)
Definition records_overrun (buf : list byte) : Prop :=
  exists payloads L rest,
    Forall fits_length_field payloads /\
    0 <= L < 2 ^ 32 /\
    buf = packetized payloads ++ be32 L ++ rest /\
    size_of rest < L.

(** Sections 4.3 and 8: the tightly packed plane, [height] rows of [width]
    bytes each, taken from plane memory whose rows are [stride] bytes apart. *)
Definition packed_plane (memory : list byte) (stride width height : Z) : list byte :=
  mjoin (map (fun row : nat =>
                take (Z.to_nat width) (drop (Z.to_nat (Z.of_nat row * stride)) memory))
             (seq 0 (Z.to_nat height))).

(** The tightly packed planar frame of a picture: luma, then the two chroma
    planes. *)
Definition packed_frame {Ctx Image : Type} `{Engine Ctx Image} (img : Image)
    : list byte :=
  mjoin (map (fun plane =>
                packed_plane (fst (de265_get_image_plane img plane))
                  (snd (de265_get_image_plane img plane))
                  (de265_get_image_width img plane)
                  (de265_get_image_height img plane))
             [0; 1; 2]).

(** ** Reading the call log *)

Definition is_Push_data (c : call) : bool :=
  match c with Push_data _ _ => true | _ => false end.

Definition is_Get_warning (c : call) : bool :=
  match c with Get_warning => true | _ => false end.

Definition is_Negotiate (c : call) : bool :=
  match c with Negotiate => true | _ => false end.

(** A frame reaches the base class through [gst_video_decoder_have_frame]
    or [gst_video_decoder_finish_frame]. *)
Definition is_frame (c : call) : bool :=
  match c with Have_frame | Finish_frame _ => true | _ => false end.

Definition is_overflow_error (c : call) : bool :=
  match c with Element_error Overflow_in_input_data => true | _ => false end.

Definition count (p : call -> bool) (log : list call) : nat :=
  length (filter (fun c => p c = true) log).

(** The calls of the warning loop on a queue of warnings: each warning is
    fetched and reported, and a last fetch finds the queue empty. *)
Definition warning_calls (queue : list de265_error) : list call :=
  flat_map (fun w => [Get_warning; Element_warning w]) queue ++ [Get_warning].

(** The element afterwards has fetched warnings and left none queued. *)
Definition drained_warnings {Ctx Image : Type} `{EngineQueues Ctx Image}
    (log : list call) (dec : @GstLibde265Dec Ctx) : Prop :=
  (0 < count is_Get_warning log)%nat /\
  forall c, ctx dec = Some c -> queued_warnings c = [].

(** The renegotiation request for a new geometry: the output state with the
    new width and height, the configured frame rate if it is positive, and
    the negotiation with downstream. *)
Definition renegotiation (w h fps_n fps_d : Z) : list call :=
  Set_output_state w h
    :: (if 0 <? fps_n then [Set_framerate fps_n fps_d] else [])
    ++ [Negotiate].

(** Calls that neither negotiate nor hand over a frame. *)
Definition quiet (log : list call) : Prop :=
  Forall (fun c => is_Negotiate c = false /\ is_frame c = false) log.

(** The same outcome with [log] in front of its calls. *)
Definition with_calls_before {Ctx : Type} (log : list call)
    (o : outcome (@parsed Ctx)) : outcome (@parsed Ctx) :=
  match o with
  | Returned out =>
      Returned {| flow := flow out; dec_after := dec_after out;
                  adapter_after := adapter_after out;
                  calls := log ++ calls out |}
  | Out_of_fuel => Out_of_fuel
  | Undefined_behaviour u => Undefined_behaviour u
  end.

(** ** The reframing properties as the spec states them *)

(** Reframing keeps the size of a buffer of records and writes one marker
    per record. *)
Definition reframed_in_place (payloads : list (list byte)) : Prop :=
  exists out markers,
    reframe GST_TYPE_LIBDE265_DEC_PACKETIZED (packetized payloads)
      = Reframed out markers /\
    length out = length (packetized payloads) /\
    length markers = length payloads.

(** The walk over a buffer stops strictly inside it, with fewer than 4
    bytes remaining. *)
Definition stops_inside (buf : list byte) : Prop :=
  exists start_data out markers,
    replace_length_fields (walk_fuel buf) buf 0 [] = WalkExit start_data out markers /\
    size_of buf - 4 < start_data < size_of buf.

(** No overflow is found, and the buffer handed on has the size of the
    original and its bytes from where the walk stopped. *)
Definition fed_with_tail_untouched (buf : list byte) : Prop :=
  exists start_data out markers,
    replace_length_fields (walk_fuel buf) buf 0 [] = WalkExit start_data out markers /\
    reframe GST_TYPE_LIBDE265_DEC_PACKETIZED buf = Reframed out markers /\
    length out = length buf /\
    drop (Z.to_nat start_data) out = drop (Z.to_nat start_data) buf.

(** The buffer is made of complete records followed by 1 to 3 more bytes. *)
Definition ends_with_leftover (buf : list byte) : Prop :=
  exists payloads tail,
    Forall fits_length_field payloads /\
    1 <= size_of tail <= 3 /\
    buf = packetized payloads ++ tail.

(** The walk ends where fewer than 4 bytes remain, or past the buffer end. *)
Definition walk_reaches_the_end (buf : list byte) : Prop :=
  exists start_data out markers,
    replace_length_fields (walk_fuel buf) buf 0 [] = WalkExit start_data out markers /\
    size_of buf < start_data + 4.

(** A payload of 2 GiB, whose length field has the top bit set. *)
Definition huge_payload : list byte := replicate (Z.to_nat (2 ^ 31)) Byte.x00.

(** The record of that payload followed by one more byte. *)
Definition huge_with_leftover : list byte :=
  packetized [huge_payload] ++ [Byte.x42].

(** A length field of 4294967292 in a buffer of five bytes. *)
Definition wrapped_length_buffer : list byte :=
  [Byte.xff; Byte.xff; Byte.xff; Byte.xfc; Byte.x41].

(** A length field of 4294967280 in a buffer of four bytes. *)
Definition negative_length_buffer : list byte :=
  [Byte.xff; Byte.xff; Byte.xff; Byte.xf0].

(** Sixteen bytes: a record of 8 bytes, in whose payload the bytes 4 to 7
    read as the length 6, and at offset 12 the length field 4294967284. *)
Definition backward_buffer : list byte :=
  [Byte.x00; Byte.x00; Byte.x00; Byte.x08;
   Byte.x00; Byte.x00; Byte.x00; Byte.x06;
   Byte.xaa; Byte.xbb; Byte.xcc; Byte.xdd;
   Byte.xff; Byte.xff; Byte.xff; Byte.xf4].

(** A record of one payload byte. *)
Definition one_record : list byte :=
  [Byte.x00; Byte.x00; Byte.x00; Byte.x01; Byte.x41].

(** An engine whose next [de265_decode] reports a full picture buffer,
    with a 2 x 2 picture decoded and the warning 1000 raised. *)
Definition backlogging : Stub.context :=
  {| Stub.pictures := []; Stub.warnings := [];
     Stub.script :=
       [{| Stub.step_result := DE265_ERROR_IMAGE_BUFFER_FULL;
           Stub.step_pictures := [Stub.make_image 2 2 2];
           Stub.step_warnings := [1000] |}];
     Stub.input := [] |}.

(** An engine whose next [de265_decode] succeeds, with a 2 x 2 picture
    decoded and two warnings raised. *)
Definition warning_twice : Stub.context :=
  {| Stub.pictures := []; Stub.warnings := [];
     Stub.script :=
       [{| Stub.step_result := DE265_OK;
           Stub.step_pictures := [Stub.make_image 2 2 2];
           Stub.step_warnings := [1000; 1001] |}];
     Stub.input := [] |}.

(** An engine that holds two decoded pictures. *)
Definition two_pending : Stub.context :=
  {| Stub.pictures := [Stub.make_image 2 2 2; Stub.make_image 4 2 4];
     Stub.warnings := []; Stub.script := []; Stub.input := [] |}.

(** The engine [warning_twice] after the five bytes of [one_record] have
    been pushed and decoded. *)
Definition warned_twice : Stub.context :=
  {| Stub.pictures := [Stub.make_image 2 2 2]; Stub.warnings := [1000; 1001];
     Stub.script := []; Stub.input := one_record |}.

(** The engine [two_pending] after its first picture has been pulled. *)
Definition one_pending : Stub.context :=
  {| Stub.pictures := [Stub.make_image 4 2 4];
     Stub.warnings := []; Stub.script := []; Stub.input := [] |}.

(** Two records, of two payload bytes and of one. *)
Definition two_payloads : list (list byte) :=
  [[Byte.xaa; Byte.xbb]; [Byte.xcc]].

(** An element in packetized mode on a started stub engine. *)
Definition stub_dec (c : Stub.context) : @GstLibde265Dec Stub.context :=
  {| ctx := Some c; width := -1; height := -1; buffer_full := false;
     mode := GST_TYPE_LIBDE265_DEC_PACKETIZED; fps_n := 0; fps_d := 1 |}.

(** ** The plane assembly as the spec states it *)

(** The bytes written into the output buffer are the tightly packed frame
    of the picture. *)
Definition assembled_tightly {Ctx Image : Type} `{Engine Ctx Image}
    (img : Image) (out : list byte) : Prop :=
  exists out' dest,
    copy_planes [0; 1; 2] img out 0 = Returned (out', dest) /\
    take (Z.to_nat dest) out' = packed_frame img.

(** The number of bytes the element copies of a plane: [height * stride],
    an [int]. *)
Definition plane_bytes {Ctx Image : Type} `{Engine Ctx Image}
    (img : Image) (plane : Z) : Z :=
  CInt.mul (de265_get_image_height img plane)
    (snd (de265_get_image_plane img plane)).

(** The first [height * stride] bytes of the memory of a plane. *)
Definition whole_plane {Ctx Image : Type} `{Engine Ctx Image}
    (img : Image) (plane : Z) : list byte :=
  take (Z.to_nat (plane_bytes img plane)) (fst (de265_get_image_plane img plane)).

(** The same element with the backlog flag set. *)
Definition stub_backlogged (c : Stub.context) : @GstLibde265Dec Stub.context :=
  set_buffer_full (stub_dec c) true.

(** ** Lifecycle, properties and input format of the element *)

(** A [GstVideoCodecState*], by its address. *)
Definition codec_state := nat.

(** The calls of the lifecycle functions into the engine and the base
    class.  [New_decoder] carries whether [de265_new_decoder] returned a
    context. *)
Inductive lifecycle_call :=
| Free_decoder
| New_decoder (created : bool)
| Start_worker_threads (threads : Z)
| Codec_state_ref (s : codec_state)
| Codec_state_unref (s : codec_state)
| Set_packetized (packetized : bool)
| Parent_finalize.

(** [DEFAULT_THREAD_COUNT], [DEFAULT_MODE], [DEFAULT_FPS_N], [DEFAULT_FPS_D]
    and the property ids of the [enum]. *)
Definition DEFAULT_THREAD_COUNT : Z := 2.
Definition DEFAULT_MODE : GstLibde265DecMode := GST_TYPE_LIBDE265_DEC_PACKETIZED.
Definition DEFAULT_FPS_N : Z := 0.
Definition DEFAULT_FPS_D : Z := 1.
Definition PROP_0 : Z := 0.
Definition PROP_MODE : Z := 1.
Definition PROP_FRAMERATE : Z := 2.
Definition PROP_LAST : Z := 3.

(** A [GValue] as the property functions use it: what [g_value_get_enum],
    [gst_value_get_fraction_numerator] and
    [gst_value_get_fraction_denominator] read from it, and what
    [g_value_set_enum] and [gst_value_set_fraction] write. *)
Record GValue := {
  g_value_get_enum : GstLibde265DecMode;
  gst_value_get_fraction_numerator : Z;
  gst_value_get_fraction_denominator : Z
}.

Definition g_value_set_enum (value : GValue) (v : GstLibde265DecMode) : GValue :=
  {| g_value_get_enum := v;
     gst_value_get_fraction_numerator := gst_value_get_fraction_numerator value;
     gst_value_get_fraction_denominator := gst_value_get_fraction_denominator value |}.

Definition gst_value_set_fraction (value : GValue) (n d : Z) : GValue :=
  {| g_value_get_enum := g_value_get_enum value;
     gst_value_get_fraction_numerator := n;
     gst_value_get_fraction_denominator := d |}.

Section Lifecycle.

Context {Ctx Image : Type} `{Engine Ctx Image}.

(** [de265_start_worker_threads], which the decode loop never calls. *)
Variable de265_start_worker_threads : Ctx -> Z -> Ctx.

(** The element with the field the decode loop leaves alone. *)
Record Libde265Dec := {
  decoder : @GstLibde265Dec Ctx;
  input_state : option codec_state
}.

Definition set_mode (dec : @GstLibde265Dec Ctx) (m : GstLibde265DecMode) :=
  {| ctx := ctx dec; width := width dec; height := height dec;
     buffer_full := buffer_full dec; mode := m;
     fps_n := fps_n dec; fps_d := fps_d dec |}.

Definition set_fps (dec : @GstLibde265Dec Ctx) (n d : Z) :=
  {| ctx := ctx dec; width := width dec; height := height dec;
     buffer_full := buffer_full dec; mode := mode dec;
     fps_n := n; fps_d := d |}.

(** [_gst_libde265_dec_reset_decoder], with [dec->input_state = NULL]. *)
Definition reset_decoder (e : Libde265Dec) : Libde265Dec :=
  {| decoder := _gst_libde265_dec_reset_decoder (decoder e); input_state := None |}.

(** [gst_libde265_dec_init] *)
Definition gst_libde265_dec_init (e : Libde265Dec)
    : Libde265Dec * list lifecycle_call :=
  let dec := set_fps (set_mode (decoder e) DEFAULT_MODE) DEFAULT_FPS_N DEFAULT_FPS_D in
  (reset_decoder {| decoder := dec; input_state := input_state e |},
   [Set_packetized false]).

(** [_gst_libde265_dec_free_decoder] *)
Definition _gst_libde265_dec_free_decoder (e : Libde265Dec)
    : Libde265Dec * list lifecycle_call :=
  (reset_decoder e,
   (match ctx (decoder e) with Some _ => [Free_decoder] | None => [] end)
   ++ (match input_state e with Some s => [Codec_state_unref s] | None => [] end)).

(** [gst_libde265_dec_finalize] *)
Definition gst_libde265_dec_finalize (e : Libde265Dec)
    : Libde265Dec * list lifecycle_call :=
  let '(e, log) := _gst_libde265_dec_free_decoder e in
  (e, log ++ [Parent_finalize]).

(** [gst_libde265_dec_set_property] *)
Definition gst_libde265_dec_set_property (e : Libde265Dec) (prop_id : Z)
    (value : GValue) : Libde265Dec :=
  if prop_id =? PROP_MODE then
    {| decoder := set_mode (decoder e) (g_value_get_enum value);
       input_state := input_state e |}
  else if prop_id =? PROP_FRAMERATE then
    {| decoder := set_fps (decoder e) (gst_value_get_fraction_numerator value)
                    (gst_value_get_fraction_denominator value);
       input_state := input_state e |}
  else e.

(** [gst_libde265_dec_get_property]: the [GValue] after the call. *)
Definition gst_libde265_dec_get_property (e : Libde265Dec) (prop_id : Z)
    (value : GValue) : GValue :=
  if prop_id =? PROP_MODE then g_value_set_enum value (mode (decoder e))
  else if prop_id =? PROP_FRAMERATE then
    gst_value_set_fraction value (fps_n (decoder e)) (fps_d (decoder e))
  else value.

(** [gst_libde265_dec_start].  [created] is what [de265_new_decoder]
    returns; [online] is the value of [sysconf], or nothing when neither
    [_SC_NPROC_ONLN] nor [_SC_NPROCESSORS_ONLN] is defined. *)
Definition gst_libde265_dec_start (e : Libde265Dec) (created : option Ctx)
    (online : option Z) : bool * Libde265Dec * list lifecycle_call :=
  let '(e, log) := _gst_libde265_dec_free_decoder e in
  match created with
  | None => (false, e, log ++ [New_decoder false])
  | Some c =>
      let threads :=
        match online with
        | Some n => CInt.to_int n
        | None => DEFAULT_THREAD_COUNT
        end in
      let threads := if threads <=? 0 then DEFAULT_THREAD_COUNT else threads in
      (true,
       {| decoder := set_ctx (decoder e) (Some (de265_start_worker_threads c threads));
          input_state := input_state e |},
       log ++ [New_decoder true; Start_worker_threads threads])
  end.

(** [gst_libde265_dec_stop] *)
Definition gst_libde265_dec_stop (e : Libde265Dec)
    : bool * Libde265Dec * list lifecycle_call :=
  let '(e, log) := _gst_libde265_dec_free_decoder e in (true, e, log).

(** [gst_libde265_dec_set_format] *)
Definition gst_libde265_dec_set_format (e : Libde265Dec)
    (state : option codec_state) : bool * Libde265Dec * list lifecycle_call :=
  (true,
   {| decoder := decoder e; input_state := state |},
   (match input_state e with Some s => [Codec_state_unref s] | None => [] end)
   ++ (match state with Some s => [Codec_state_ref s] | None => [] end)).

(** The calls the framework makes on an element outside the decode loop. *)
Inductive lifecycle_op :=
| Op_start (created : option Ctx) (online : option Z)
| Op_stop
| Op_set_format (state : option codec_state)
| Op_set_property (prop_id : Z) (value : GValue).

Definition run_op (e : Libde265Dec) (op : lifecycle_op)
    : Libde265Dec * list lifecycle_call :=
  match op with
  | Op_start created online =>
      let '(_, e, log) := gst_libde265_dec_start e created online in (e, log)
  | Op_stop => let '(_, e, log) := gst_libde265_dec_stop e in (e, log)
  | Op_set_format state =>
      let '(_, e, log) := gst_libde265_dec_set_format e state in (e, log)
  | Op_set_property prop_id value =>
      (gst_libde265_dec_set_property e prop_id value, [])
  end.

Fixpoint run_ops (e : Libde265Dec) (ops : list lifecycle_op)
    : Libde265Dec * list lifecycle_call :=
  match ops with
  | [] => (e, [])
  | op :: ops' =>
      let '(e1, log1) := run_op e op in
      let '(e2, log2) := run_ops e1 ops' in
      (e2, log1 ++ log2)
  end.

End Lifecycle.

(** Decoder contexts created and not yet freed, and references to a codec
    state taken and not yet given back, by a log of lifecycle calls. *)
Fixpoint live_contexts (log : list lifecycle_call) : Z :=
  match log with
  | [] => 0
  | New_decoder true :: log' => live_contexts log' + 1
  | Free_decoder :: log' => live_contexts log' - 1
  | _ :: log' => live_contexts log'
  end.

Fixpoint held_references (s : codec_state) (log : list lifecycle_call) : Z :=
  match log with
  | [] => 0
  | Codec_state_ref s' :: log' =>
      held_references s log' + (if Nat.eqb s s' then 1 else 0)
  | Codec_state_unref s' :: log' =>
      held_references s log' - (if Nat.eqb s s' then 1 else 0)
  | _ :: log' => held_references s log'
  end.

(** ** The VP8 element *)

(** [gst_vp8_dec_scan_for_sync], [gst_vp8_dec_reset] and
    [gst_vp8_dec_handle_frame] of [gstvp8dec.c]. *)
Module VP8Dec.

Inductive GstVideoFormat :=
| GST_VIDEO_FORMAT_UNKNOWN
| GST_VIDEO_FORMAT_I420.

(** The fields of [decoder->state] the element reads or writes. *)
Record GstVideoState := {
  format : GstVideoFormat;
  width : Z;
  height : Z;
  fps_n : Z;
  fps_d : Z;
  par_n : Z;
  par_d : Z
}.

(** The arguments of [gst_video_format_new_caps]. *)
Record GstCaps := {
  caps_format : GstVideoFormat;
  caps_width : Z;
  caps_height : Z;
  caps_fps_n : Z;
  caps_fps_d : Z;
  caps_par_n : Z;
  caps_par_d : Z
}.

Definition gst_video_format_new_caps (state : GstVideoState) : GstCaps :=
  {| caps_format := format state;
     caps_width := width state; caps_height := height state;
     caps_fps_n := fps_n state; caps_fps_d := fps_d state;
     caps_par_n := par_n state; caps_par_d := par_d state |}.

(** [GstVP8Dec] with the [state] of its base class. *)
Record GstVP8Dec := {
  state : GstVideoState;
  decoder_inited : bool;
  have_video_info : bool
}.

(** Calls into the codec and the base class, in call order. *)
Inductive call :=
| Set_sync_point
| Send_tags
| Pad_set_caps (caps : GstCaps)
| Alloc_src_frame
| Codec_decode (data : list byte) (size : Z)
| Codec_get_frame
| Img_free
| Finish_frame (src_buffer : list byte)
| Masked_scan (offset size : Z).

(** [gst_vp8_dec_reset] *)
Definition gst_vp8_dec_reset (dec : GstVP8Dec) : bool * GstVP8Dec :=
  (true,
   {| state := state dec; decoder_inited := false; have_video_info := false |}).

(** [gst_vp8_dec_scan_for_sync].  [available] is the [guint] that
    [gst_adapter_available] returns; [masked_scan] is
    [gst_adapter_masked_scan_uint32_compat] on the input adapter with the
    fixed mask and pattern, from its [guint] offset and size to its [guint]
    result. *)
Definition gst_vp8_dec_scan_for_sync (available : Z) (masked_scan : Z -> Z -> Z)
    (at_eos : bool) (offset n : Z) : Z * list call :=
  let n_available := CInt.to_int (CInt.to_uint32 (available - offset)) in
  if n_available <? 4 then
    if at_eos then (n_available, []) else (0, [])
  else
    let n_available := CInt.add n_available (-3) in
    let size := CInt.to_uint32 (Z.min n (CInt.add n_available (-3))) in
    (CInt.to_int (masked_scan (CInt.to_uint32 offset) size),
     [Masked_scan (CInt.to_uint32 offset) size]).

(** The [while] loop over [vpx_codec_get_frame]: every image the codec
    yields is copied into the same output buffer and freed. *)
Fixpoint copy_images (width height : Z) (images : list VP8.vpx_image_t)
    (out : list byte) : option (list byte * list call) :=
  match images with
  | [] => Some (out, [Codec_get_frame])
  | img :: images' =>
      match VP8.copy_image width height img out with
      | None => None
      | Some out' =>
          match copy_images width height images' out' with
          | None => None
          | Some (out'', log) => Some (out'', Codec_get_frame :: Img_free :: log)
          end
      end
  end.

(** What the framework and the codec hand to one call of
    [gst_vp8_dec_handle_frame]: the input buffer, what [GST_PAD_CAPS] reads
    on the source pad, the buffer of [gst_base_video_decoder_alloc_src_frame]
    (nothing when it does not return [GST_FLOW_OK]), the status of
    [vpx_codec_decode] and the images [vpx_codec_get_frame] then yields. *)
Record frame_input := {
  sink_buffer : list byte;
  pad_caps : option GstCaps;
  src_buffer : option (list byte);
  status : Z;
  images : list VP8.vpx_image_t
}.

Record handled := {
  handle_flow : GstFlowReturn;
  handle_dec : GstVP8Dec;
  handle_calls : list call
}.

(** [gst_vp8_dec_handle_frame]; nothing is returned when a row copy leaves
    its source or the output buffer. *)
Definition gst_vp8_dec_handle_frame (dec : GstVP8Dec) (frame : frame_input)
    : option handled :=
  let log := [Set_sync_point] in
  let '(dec, log) :=
    if negb (decoder_inited dec) then
      ({| state := state dec; decoder_inited := true;
          have_video_info := have_video_info dec |}, log ++ [Send_tags])
    else (dec, log) in
  let dec :=
    if negb (have_video_info dec) then
      {| state := {| format := GST_VIDEO_FORMAT_I420;
                     width := width (state dec); height := height (state dec);
                     fps_n := 30; fps_d := 1; par_n := 1; par_d := 1 |};
         decoder_inited := decoder_inited dec; have_video_info := true |}
    else dec in
  let log :=
    match pad_caps frame with
    | None => log ++ [Pad_set_caps (gst_video_format_new_caps (state dec))]
    | Some _ => log
    end in
  let log := log ++ [Alloc_src_frame] in
  match src_buffer frame with
  | None =>
      Some {| handle_flow := Return_allocate_output_frame; handle_dec := dec;
              handle_calls := log |}
  | Some out =>
      let log := log ++ [Codec_decode (sink_buffer frame) (size_of (sink_buffer frame))] in
      if negb (status frame =? 0) then
        Some {| handle_flow := GST_FLOW_ERROR; handle_dec := dec;
                handle_calls := log |}
      else
        match copy_images (width (state dec)) (height (state dec)) (images frame) out with
        | None => None
        | Some (out', log') =>
            Some {| handle_flow := GST_FLOW_OK; handle_dec := dec;
                    handle_calls := log ++ log' ++ [Finish_frame out'] |}
        end
  end.

(** Consecutive calls of [gst_vp8_dec_handle_frame]. *)
Fixpoint handle_frames (dec : GstVP8Dec) (frames : list frame_input)
    : option (GstVP8Dec * list call) :=
  match frames with
  | [] => Some (dec, [])
  | frame :: frames' =>
      match gst_vp8_dec_handle_frame dec frame with
      | None => None
      | Some h =>
          match handle_frames (handle_dec h) frames' with
          | None => None
          | Some (dec', log) => Some (dec', handle_calls h ++ log)
          end
      end
  end.

Definition is_Send_tags (c : call) : bool :=
  match c with Send_tags => true | _ => false end.

Definition is_Finish_frame (c : call) : bool :=
  match c with Finish_frame _ => true | _ => false end.

Definition is_Codec_decode (c : call) : bool :=
  match c with Codec_decode _ _ => true | _ => false end.

(** The caps the element sets itself: I420 at 30/1 with square pixels, of
    the given size. *)
Definition fixed_caps (w h : Z) (c : call) : Prop :=
  match c with
  | Pad_set_caps caps =>
      caps = {| caps_format := GST_VIDEO_FORMAT_I420;
                caps_width := w; caps_height := h;
                caps_fps_n := 30; caps_fps_d := 1;
                caps_par_n := 1; caps_par_d := 1 |}
  | _ => True
  end.

(** The tightly packed I420 frame of an image. *)
Definition packed_image (w h : Z) (img : VP8.vpx_image_t) : list byte :=
  packed_plane (VP8.planes img 0) (VP8.stride img 0) w h
  ++ packed_plane (VP8.planes img 1) (VP8.stride img 1) (w / 2) (h / 2)
  ++ packed_plane (VP8.planes img 2) (VP8.stride img 2) (w / 2) (h / 2).

(** An image whose rows the copy can read. *)
Definition readable (w h : Z) (img : VP8.vpx_image_t) : Prop :=
  w <= VP8.stride img 0 /\ w / 2 <= VP8.stride img 1 /\ w / 2 <= VP8.stride img 2 /\
  h * VP8.stride img 0 <= CInt.INT_MAX /\
  h / 2 * VP8.stride img 1 <= CInt.INT_MAX /\
  h / 2 * VP8.stride img 2 <= CInt.INT_MAX /\
  h * VP8.stride img 0 <= size_of (VP8.planes img 0) /\
  h / 2 * VP8.stride img 1 <= size_of (VP8.planes img 1) /\
  h / 2 * VP8.stride img 2 <= size_of (VP8.planes img 2).

End VP8Dec.

(** ** Reading the walk and the logs, for the further properties *)

(** The byte at index [i] lies in the 4-byte field at offset [m]. *)
Definition in_window (i : nat) (m : Z) : Prop := m <= Z.of_nat i < m + 4.

(** The 4-byte field at offset [m] lies inside the buffer. *)
Definition length_field_of (buf : list byte) (m : Z) : Prop :=
  0 <= m /\ m + 4 <= size_of buf.

(** What the loop has written into [out] when it has visited the fields at
    [markers] of the buffer [buf] it started from: every visited field lies
    inside the buffer, a byte outside all of them is the byte of [buf], and
    a byte inside one of them is 0 or 1. *)
Definition only_fields_written (buf out : list byte) (markers : list Z) : Prop :=
  Forall (length_field_of buf) markers /\
  forall i b, out !! i = Some b ->
    (Exists (in_window i) markers /\ (b = Byte.x00 \/ b = Byte.x01)) \/
    (Forall (fun m => ~ in_window i m) markers /\ buf !! i = Some b).

(** The value a function returns that ends on the return path [r], when the
    call into the base class that a [Return_] path ends with returns
    [base]. *)
Definition returned_value (base r : GstFlowReturn) : GstFlowReturn :=
  match r with
  | Return_have_frame | Return_allocate_output_frame | Return_finish_frame => base
  | _ => r
  end.

Definition is_Decode (c : call) : bool :=
  match c with Decode => true | _ => false end.

Definition is_Take_buffer (c : call) : bool :=
  match c with Take_buffer _ => true | _ => false end.

(** The calls of a log that take the chunk, push it or ask for decoding,
    in their order. *)
Definition feeding_calls (log : list call) : list call :=
  filter (fun c => (is_Take_buffer c || is_Push_data c || is_Decode c) = true) log.

Definition is_Return_have_frame (r : GstFlowReturn) : bool :=
  match r with Return_have_frame => true | _ => false end.

Definition is_Return_finish_frame (r : GstFlowReturn) : bool :=
  match r with Return_finish_frame => true | _ => false end.

Definition is_IMAGE_BUFFER_FULL (e : de265_error) : bool :=
  match e with DE265_ERROR_IMAGE_BUFFER_FULL => true | _ => false end.

(** How a cycle ends once the engine has been fed (lines 392-423): [ret]
    is the result of the push and the decode, [c2] the engine afterwards,
    [before] the calls made so far. *)
Definition feed_ends {Ctx Image : Type} `{Engine Ctx Image} (have_waiting : bool)
    (fuel : nat) (dec0 : @GstLibde265Dec Ctx) (ret : de265_error) (c2 : Ctx)
    (before : list call) (out : @parsed Ctx) : Prop :=
  match ret with
  | DE265_OK =>
      exists c3 log3,
        get_warnings fuel c2 = Some (c3, log3) /\
        out = peek_and_return (set_ctx (set_ctx dec0 (Some c2)) (Some c3)) c3
                (before ++ log3)
  | DE265_ERROR_IMAGE_BUFFER_FULL =>
      out = peek_and_return (set_buffer_full (set_ctx dec0 (Some c2)) true) c2 before
  | DE265_ERROR_WAITING_FOR_INPUT_DATA =>
      if have_waiting then
        out = {| flow := GST_VIDEO_DECODER_FLOW_NEED_DATA;
                 dec_after := set_ctx dec0 (Some c2); adapter_after := [];
                 calls := before |}
      else
        out = {| flow := GST_FLOW_ERROR; dec_after := set_ctx dec0 (Some c2);
                 adapter_after := [];
                 calls := before ++ [Element_error (Error_while_decoding ret)] |}
  | DE265_CODE _ =>
      out = {| flow := GST_FLOW_ERROR; dec_after := set_ctx dec0 (Some c2);
               adapter_after := [];
               calls := before ++ [Element_error (Error_while_decoding ret)] |}
  end.

(** Whether the element holds a decoder context, and whether it holds a
    reference to the codec state [s], as 0 or 1. *)
Definition has_context {Ctx : Type} (e : @Libde265Dec Ctx) : Z :=
  match ctx (decoder e) with Some _ => 1 | None => 0 end.

Definition holds_state {Ctx : Type} (e : @Libde265Dec Ctx) (s : codec_state) : Z :=
  match input_state e with
  | Some s' => if Nat.eqb s s' then 1 else 0
  | None => 0
  end.

(** Calls of the VP8 element that satisfy [p]. *)
Definition count_calls (p : VP8Dec.call -> bool) (log : list VP8Dec.call) : nat :=
  length (filter (fun c => p c = true) log).

(** ** Inputs of the further properties *)

(** An element in raw mode on a started stub engine. *)
Definition stub_raw (c : Stub.context) : @GstLibde265Dec Stub.context :=
  {| ctx := Some c; width := -1; height := -1; buffer_full := false;
     mode := GST_TYPE_LIBDE265_DEC_RAW; fps_n := 0; fps_d := 1 |}.

(** An engine that accepts no data: every push is refused with the code 7. *)
Definition refusing : Engine unit unit :=
  {| de265_peek_next_picture := fun _ => None;
     de265_get_next_picture := fun c => (None, c);
     de265_push_data := fun c _ _ => (DE265_CODE 7, c);
     de265_decode := fun c => (DE265_OK, c);
     de265_get_warning := fun c => (DE265_OK, c);
     de265_get_image_width := fun _ _ => 0;
     de265_get_image_height := fun _ _ => 0;
     de265_get_image_plane := fun _ _ => ([], 0) |}.

(** An element in raw mode on that engine. *)
Definition refused_dec : @GstLibde265Dec unit :=
  {| ctx := Some tt; width := -1; height := -1; buffer_full := false;
     mode := GST_TYPE_LIBDE265_DEC_RAW; fps_n := 0; fps_d := 1 |}.

(** [backward_buffer] after the walk: start codes at the offsets 0, 4 and
    12, the last of which covers the two trailing bytes. *)
Definition backward_rewritten : list byte :=
  [Byte.x00; Byte.x00; Byte.x00; Byte.x01;
   Byte.x00; Byte.x00; Byte.x00; Byte.x01;
   Byte.xaa; Byte.xbb; Byte.xcc; Byte.xdd;
   Byte.x00; Byte.x00; Byte.x00; Byte.x01].

(** An engine that holds one decoded 2 x 2 picture whose luma rows are 4
    bytes apart and whose chroma rows 2, and the engine after the pull. *)
Definition padded_pending : Stub.context :=
  {| Stub.pictures := [Stub.make_image 2 2 4];
     Stub.warnings := []; Stub.script := []; Stub.input := [] |}.

(** The 12 bytes of the planes of that picture, padding included. *)
Definition padded_planes : list byte :=
  [Byte.x10; Byte.x10; Byte.xee; Byte.xee;
   Byte.x10; Byte.x10; Byte.xee; Byte.xee;
   Byte.x80; Byte.xee;
   Byte.x90; Byte.xee].

(** An element that streams 2 x 2 pictures at 25/1 and holds the codec
    state 1. *)
Definition streaming : @Libde265Dec Stub.context :=
  {| decoder := {| ctx := Some two_pending; width := 2; height := 2;
                   buffer_full := false;
                   mode := GST_TYPE_LIBDE265_DEC_RAW; fps_n := 25; fps_d := 1 |};
     input_state := Some 1%nat |}.

(** [de265_start_worker_threads] on the stub, which has no threads. *)
Definition stub_start_worker_threads (c : Stub.context) (threads : Z)
    : Stub.context := c.

(** A [GValue] that holds the fraction 50/1. *)
Definition fifty : GValue :=
  {| g_value_get_enum := GST_TYPE_LIBDE265_DEC_PACKETIZED;
     gst_value_get_fraction_numerator := 50;
     gst_value_get_fraction_denominator := 1 |}.

(** The planes of a stub picture as a [vpx_image_t]. *)
Definition vpx_image_of (img : Stub.image) : VP8.vpx_image_t :=
  {| VP8.planes := fun p => Stub.plane_memory (Stub.plane_of img p);
     VP8.stride := fun p => Stub.plane_stride (Stub.plane_of img p) |}.

(** A VP8 element whose state is 2 x 2, with tags sent and video info set
    by an earlier frame. *)
Definition vp8_dec : VP8Dec.GstVP8Dec :=
  {| VP8Dec.state :=
       {| VP8Dec.format := VP8Dec.GST_VIDEO_FORMAT_I420;
          VP8Dec.width := 2; VP8Dec.height := 2;
          VP8Dec.fps_n := 30; VP8Dec.fps_d := 1;
          VP8Dec.par_n := 1; VP8Dec.par_d := 1 |};
     VP8Dec.decoder_inited := true; VP8Dec.have_video_info := true |}.

(** An input for which the codec yields two 2 x 2 images, the first with
    rows 4 bytes apart, into an output buffer of 8 bytes. *)
Definition vp8_frame : VP8Dec.frame_input :=
  {| VP8Dec.sink_buffer := [Byte.x01];
     VP8Dec.pad_caps := None;
     VP8Dec.src_buffer := Some (replicate 8 Byte.x00);
     VP8Dec.status := 0;
     VP8Dec.images := [vpx_image_of (Stub.make_image 2 2 4);
                       vpx_image_of (Stub.make_image 2 2 2)] |}.

(** An input whose decode fails with status 1. *)
Definition vp8_bad_frame : VP8Dec.frame_input :=
  {| VP8Dec.sink_buffer := [Byte.x02];
     VP8Dec.pad_caps := None;
     VP8Dec.src_buffer := Some (replicate 8 Byte.x00);
     VP8Dec.status := 1;
     VP8Dec.images := [] |}.

(** * Properties *)

(** ** The rewriting loop on three small buffers *)

Example walk_two_records :
  replace_length_fields 10
    [Byte.x00; Byte.x00; Byte.x00; Byte.x02; Byte.xaa; Byte.xbb;
     Byte.x00; Byte.x00; Byte.x00; Byte.x01; Byte.xcc] 0 [] =
  WalkExit 11
    [Byte.x00; Byte.x00; Byte.x00; Byte.x01; Byte.xaa; Byte.xbb;
     Byte.x00; Byte.x00; Byte.x00; Byte.x01; Byte.xcc] [0; 6].
Proof. vm_compute. reflexivity. Qed.

Example walk_minus_four :
  replace_length_fields 10
    [Byte.xff; Byte.xff; Byte.xff; Byte.xfc; Byte.x41] 0 [] =
  WalkExit 5 [Byte.x00; Byte.x00; Byte.x00; Byte.x01; Byte.x41] [0; 0].
Proof. vm_compute. reflexivity. Qed.

Example walk_minus_sixteen :
  replace_length_fields 10
    [Byte.xff; Byte.xff; Byte.xff; Byte.xf0] 0 [] =
  WalkOutOfBounds (-12) [Byte.x00; Byte.x00; Byte.x00; Byte.x01] [0].
Proof. vm_compute. reflexivity. Qed.

(** ** Bytes and length fields *)

Lemma size_of_app (a b : list byte) : size_of (a ++ b) = size_of a + size_of b.
Proof. unfold size_of. rewrite length_app. lia. Qed.

Lemma size_of_nonneg (a : list byte) : 0 <= size_of a.
Proof. unfold size_of. lia. Qed.

Lemma load8_app_r (pre rest : list byte) (i : Z) :
  0 <= i -> load8 (pre ++ rest) (size_of pre + i) = load8 rest i.
Proof.
  intros Hi. unfold load8, size_of.
  replace (Z.to_nat (Z.of_nat (length pre) + i)) with (length pre + Z.to_nat i)%nat by lia.
  rewrite lookup_app_r by lia.
  replace (length pre + Z.to_nat i - length pre)%nat with (Z.to_nat i) by lia.
  reflexivity.
Qed.

Lemma READ_BE32_app_r (pre rest : list byte) (i : Z) :
  0 <= i -> READ_BE32 (pre ++ rest) (size_of pre + i) = READ_BE32 rest i.
Proof.
  intros Hi. unfold READ_BE32.
  rewrite <- !Z.add_assoc. rewrite !load8_app_r by lia. reflexivity.
Qed.

Lemma lor_shifted (a b n : Z) :
  0 <= n -> 0 <= b < 2 ^ n -> Z.lor (a * 2 ^ n) b = a * 2 ^ n + b.
Proof.
  intros Hn Hb.
  rewrite Z.add_nocarry_lxor, Z.lxor_lor; try reflexivity.
  all: apply Z.bits_inj'; intros i Hi; rewrite Z.land_spec, Z.bits_0.
  all: destruct (Z.lt_ge_cases i n).
  all: try (rewrite Z.mul_pow2_bits_low by lia; reflexivity).
  all: rewrite <- (Z.mod_small b (2 ^ n)) by lia.
  all: rewrite Z.mod_pow2_bits_high by lia; apply andb_false_r.
Qed.

Lemma READ_BE32_cons4 (b0 b1 b2 b3 : byte) (rest : list byte) :
  READ_BE32 (b0 :: b1 :: b2 :: b3 :: rest) 0 =
  byte.unsigned b0 * 2 ^ 24 + byte.unsigned b1 * 2 ^ 16
  + byte.unsigned b2 * 2 ^ 8 + byte.unsigned b3.
Proof.
  unfold READ_BE32, load8. simpl.
  pose proof (byte.unsigned_range b0). pose proof (byte.unsigned_range b1).
  pose proof (byte.unsigned_range b2). pose proof (byte.unsigned_range b3).
  unfold CInt.to_uint32. rewrite !Z.shiftl_mul_pow2 by lia.
  rewrite (Z.mod_small (byte.unsigned b0 * 2 ^ 24)) by lia.
  rewrite (lor_shifted (byte.unsigned b0) _ 24) by lia.
  replace (byte.unsigned b0 * 2 ^ 24 + byte.unsigned b1 * 2 ^ 16)
    with ((byte.unsigned b0 * 2 ^ 8 + byte.unsigned b1) * 2 ^ 16) by lia.
  rewrite (lor_shifted _ _ 16) by lia.
  replace ((byte.unsigned b0 * 2 ^ 8 + byte.unsigned b1) * 2 ^ 16 + byte.unsigned b2 * 2 ^ 8)
    with (((byte.unsigned b0 * 2 ^ 8 + byte.unsigned b1) * 2 ^ 8 + byte.unsigned b2) * 2 ^ 8) by lia.
  rewrite (lor_shifted _ _ 8) by lia. lia.
Qed.

Lemma READ_BE32_be32 (n : Z) (rest : list byte) :
  0 <= n < 2 ^ 32 ->
  READ_BE32 (be32 n ++ rest) 0 = n.
Proof.
  intros Hn. unfold be32. simpl app. rewrite READ_BE32_cons4.
  rewrite !byte.unsigned_of_Z. unfold byte.wrap.
  rewrite !Z.shiftr_div_pow2 by lia.
  change (2 ^ 8) with 256. change (2 ^ 16) with 65536. change (2 ^ 24) with 16777216.
  change (2 ^ 32) with 4294967296 in Hn.
  pose proof (Z.div_mod n 256).
  pose proof (Z.mod_pos_bound n 256).
  pose proof (Z.mod_pos_bound (n / 256) 256).
  pose proof (Z.mod_pos_bound (n / 65536) 256).
  rewrite (Z.mod_small (n / 16777216) 256) by (split; [apply Z.div_pos; lia | apply Z.div_lt_upper_bound; lia]).
  replace (n / 65536) with (n / 256 / 256) in * by (rewrite Z.div_div by lia; reflexivity).
  replace (n / 16777216) with (n / 256 / 256 / 256) by (rewrite !Z.div_div by lia; reflexivity).
  pose proof (Z.div_mod (n / 256) 256). pose proof (Z.div_mod (n / 256 / 256) 256).
  lia.
Qed.

Lemma WRITE_BE32_app (pre rest : list byte) (b0 b1 b2 b3 : byte) :
  WRITE_BE32 (pre ++ b0 :: b1 :: b2 :: b3 :: rest) (size_of pre) 1 =
  pre ++ start_code ++ rest.
Proof.
  unfold WRITE_BE32, store8, size_of.
  replace (Z.to_nat (Z.of_nat (length pre) + 3)) with (length pre + 3)%nat by lia.
  replace (Z.to_nat (Z.of_nat (length pre) + 2)) with (length pre + 2)%nat by lia.
  replace (Z.to_nat (Z.of_nat (length pre) + 1)) with (length pre + 1)%nat by lia.
  rewrite Nat2Z.id.
  rewrite insert_app_r. simpl.
  rewrite insert_app_r. simpl.
  rewrite insert_app_r. simpl.
  rewrite <- (Nat.add_0_r (length pre)) at 1. rewrite insert_app_r. simpl.
  reflexivity.
Qed.

Lemma split_at (buf : list byte) (p : Z) :
  0 <= p -> p + 4 <= size_of buf ->
  exists pre b0 b1 b2 b3 rest,
    buf = pre ++ b0 :: b1 :: b2 :: b3 :: rest /\ size_of pre = p.
Proof.
  unfold size_of. intros Hp Hlen.
  exists (take (Z.to_nat p) buf).
  pose proof (take_drop (Z.to_nat p) buf) as Hsplit.
  assert (Hd : (4 <= length (drop (Z.to_nat p) buf))%nat) by (rewrite length_drop; lia).
  destruct (drop (Z.to_nat p) buf) as [|b0 [|b1 [|b2 [|b3 rest]]]]; simpl in Hd; try lia.
  exists b0, b1, b2, b3, rest. split; [congruence|].
  rewrite length_take. lia.
Qed.

Lemma heavy_app (a b : list byte) : heavy (a ++ b) = (heavy a + heavy b)%nat.
Proof. unfold heavy. rewrite filter_app, length_app. reflexivity. Qed.

Lemma heavy_cons (b : byte) (l : list byte) :
  heavy (b :: l) = ((if Z_lt_dec 1 (byte.unsigned b) then 1 else 0) + heavy l)%nat.
Proof.
  unfold heavy. rewrite filter_cons.
  destruct (decide (1 < byte.unsigned b)); destruct (Z_lt_dec 1 (byte.unsigned b)); simpl; lia.
Qed.

Lemma to_int_small (z : Z) : - 2 ^ 31 <= z < 2 ^ 31 -> CInt.to_int z = z.
Proof.
  intros Hz. unfold CInt.to_int. rewrite Z.mod_small by lia. lia.
Qed.

Lemma READ_BE32_prefix (pre rest : list byte) :
  READ_BE32 (pre ++ rest) (size_of pre) = READ_BE32 rest 0.
Proof.
  rewrite <- (Z.add_0_r (size_of pre)). apply READ_BE32_app_r. lia.
Qed.

Lemma READ_BE32_at (pre rest : list byte) (b0 b1 b2 b3 : byte) :
  READ_BE32 (pre ++ b0 :: b1 :: b2 :: b3 :: rest) (size_of pre) =
  byte.unsigned b0 * 2 ^ 24 + byte.unsigned b1 * 2 ^ 16
  + byte.unsigned b2 * 2 ^ 8 + byte.unsigned b3.
Proof.
  rewrite <- (Z.add_0_r (size_of pre)).
  rewrite READ_BE32_app_r by lia. apply READ_BE32_cons4.
Qed.

(** ** The rewriting loop ends *)

Lemma walk_step_measure (pre rest : list byte) (b0 b1 b2 b3 : byte) :
  let buf := pre ++ b0 :: b1 :: b2 :: b3 :: rest in
  let p := size_of pre in
  (walk_measure (WRITE_BE32 buf p 1)
     (p + CInt.add 4 (CInt.to_int (READ_BE32 buf p)))
   < walk_measure buf p)%nat.
Proof.
  intros buf p. subst buf p.
  rewrite WRITE_BE32_app, READ_BE32_at.
  unfold walk_measure.
  pose proof (byte.unsigned_range b0) as R0. pose proof (byte.unsigned_range b1) as R1.
  pose proof (byte.unsigned_range b2) as R2. pose proof (byte.unsigned_range b3) as R3.
  assert (Hlen : length (pre ++ start_code ++ rest) = length (pre ++ b0 :: b1 :: b2 :: b3 :: rest)).
  { rewrite !length_app. reflexivity. }
  assert (Hsize : size_of (pre ++ start_code ++ rest) = size_of (pre ++ b0 :: b1 :: b2 :: b3 :: rest)).
  { unfold size_of. rewrite Hlen. reflexivity. }
  rewrite Hlen, Hsize.
  assert (Hfull : size_of (pre ++ b0 :: b1 :: b2 :: b3 :: rest) = size_of pre + 4 + size_of rest).
  { unfold size_of. rewrite length_app. simpl. lia. }
  pose proof (size_of_nonneg pre). pose proof (size_of_nonneg rest).
  set (len := length (pre ++ b0 :: b1 :: b2 :: b3 :: rest)) in *.
  assert (Hlen' : size_of (pre ++ b0 :: b1 :: b2 :: b3 :: rest) = Z.of_nat len) by reflexivity.
  rewrite !heavy_app, !heavy_cons. change (heavy start_code) with 0%nat.
  set (hp := heavy pre). set (hr := heavy rest).
  destruct (Z_lt_dec 1 (byte.unsigned b0)) as [Hb0|Hb0].
  - (* a byte above 1 disappears *)
    set (k := (((if Z_lt_dec 1 (byte.unsigned b1) then 1 else 0) +
               ((if Z_lt_dec 1 (byte.unsigned b2) then 1 else 0) +
                ((if Z_lt_dec 1 (byte.unsigned b3) then 1 else 0) + hr))))%nat).
    assert (hr <= k)%nat by (subst k; lia).
    set (d := Z.to_nat (Z.min (size_of (pre ++ b0 :: b1 :: b2 :: b3 :: rest))
               (size_of (pre ++ b0 :: b1 :: b2 :: b3 :: rest) -
                (size_of pre + CInt.add 4 (CInt.to_int
                   (byte.unsigned b0 * 2 ^ 24 + byte.unsigned b1 * 2 ^ 16 +
                    byte.unsigned b2 * 2 ^ 8 + byte.unsigned b3)))))).
    assert (d <= len)%nat by (subst d; lia).
    nia.
  - (* the walk moves forward *)
    rewrite to_int_small by lia. unfold CInt.add. rewrite to_int_small by lia.
    set (k := (((if Z_lt_dec 1 (byte.unsigned b1) then 1 else 0) +
               ((if Z_lt_dec 1 (byte.unsigned b2) then 1 else 0) +
                ((if Z_lt_dec 1 (byte.unsigned b3) then 1 else 0) + hr))))%nat).
    assert (hr <= k)%nat by (subst k; lia).
    set (v := byte.unsigned b0 * 2 ^ 24 + byte.unsigned b1 * 2 ^ 16 +
                    byte.unsigned b2 * 2 ^ 8 + byte.unsigned b3) in *.
    assert (0 <= v) by (subst v; lia).
    rewrite Hlen'. 
    assert (Z.to_nat (Z.min (Z.of_nat len) (Z.of_nat len - (size_of pre + (4 + v))))
            < Z.to_nat (Z.min (Z.of_nat len) (Z.of_nat len - size_of pre)))%nat by lia.
    nia.
Qed.

Lemma replace_length_fields_fuel (fuel : nat) :
  forall buf start_data markers,
    (walk_measure buf start_data < fuel)%nat ->
    replace_length_fields fuel buf start_data markers <> WalkOutOfFuel.
Proof.
  induction fuel as [|fuel IH]; intros buf start_data markers Hfuel; [lia|].
  simpl.
  destruct (start_data + 4 <=? size_of buf) eqn:Hguard; [|discriminate].
  destruct (start_data <? 0) eqn:Hneg; [discriminate|].
  apply Z.leb_le in Hguard. apply Z.ltb_ge in Hneg.
  destruct (split_at buf start_data Hneg Hguard)
    as (pre & b0 & b1 & b2 & b3 & rest & -> & <-).
  apply IH.
  pose proof (walk_step_measure pre rest b0 b1 b2 b3) as Hstep. simpl in Hstep.
  lia.
Qed.

Lemma replace_length_fields_total (buf : list byte) :
  replace_length_fields (walk_fuel buf) buf 0 [] <> WalkOutOfFuel.
Proof.
  apply replace_length_fields_fuel. unfold walk_fuel, walk_measure.
  assert (Z.to_nat (Z.min (size_of buf) (size_of buf - 0)) <= length buf)%nat
    by (unfold size_of; lia).
  lia.
Qed.

Lemma size_of_record (payload : list byte) :
  size_of (record payload) = 4 + size_of payload.
Proof. unfold record. rewrite size_of_app. reflexivity. Qed.

Lemma size_of_packetized_cons (payload : list byte) (rest : list (list byte)) :
  size_of (packetized (payload :: rest)) =
  4 + size_of payload + size_of (packetized rest).
Proof.
  change (packetized (payload :: rest)) with (record payload ++ packetized rest).
  rewrite size_of_app, size_of_record. reflexivity.
Qed.

Lemma size_of_start_coded (payloads : list (list byte)) :
  size_of (start_coded payloads) = size_of (packetized payloads).
Proof.
  induction payloads as [|payload rest IH]; [reflexivity|].
  rewrite size_of_packetized_cons.
  change (start_coded (payload :: rest))
    with ((start_code ++ payload) ++ start_coded rest).
  rewrite !size_of_app, IH. change (size_of start_code) with 4. lia.
Qed.

Lemma records_take_four_bytes (payloads : list (list byte)) :
  4 * Z.of_nat (length payloads) <= size_of (packetized payloads).
Proof.
  induction payloads as [|payload rest IH]; [reflexivity|].
  rewrite size_of_packetized_cons. pose proof (size_of_nonneg payload).
  simpl length. lia.
Qed.

Lemma length_record_offsets (payloads : list (list byte)) :
  forall from, length (record_offsets from payloads) = length payloads.
Proof. induction payloads; intros; simpl; auto. Qed.

(** The loop steps over complete records one iteration each, whatever
    follows them. *)
Lemma walk_records (payloads : list (list byte)) :
  forall fuel pre suffix markers,
    Forall fits_int payloads ->
    replace_length_fields (length payloads + fuel)
      (pre ++ packetized payloads ++ suffix) (size_of pre) markers =
    replace_length_fields fuel
      (pre ++ start_coded payloads ++ suffix)
      (size_of pre + size_of (packetized payloads))
      (markers ++ record_offsets (size_of pre) payloads).
Proof.
  induction payloads as [|payload rest IH]; intros fuel pre suffix markers Hfit.
  - simpl. rewrite Z.add_0_r, app_nil_r. reflexivity.
  - inversion Hfit as [|? ? Hp Hrest]; subst.
    unfold fits_int, CInt.INT_MAX in Hp. pose proof (size_of_nonneg payload) as Hnn.
    change (length (payload :: rest) + fuel)%nat with (S (length rest + fuel)).
    cbn [replace_length_fields].
    assert (Hbuf : pre ++ packetized (payload :: rest) ++ suffix =
                   pre ++ be32 (size_of payload) ++ payload ++ packetized rest ++ suffix).
    { change (packetized (payload :: rest)) with (record payload ++ packetized rest).
      unfold record. rewrite <- !app_assoc. reflexivity. }
    rewrite Hbuf.
    assert (Hguard : (size_of pre + 4 <=?
              size_of (pre ++ be32 (size_of payload) ++ payload ++ packetized rest ++ suffix)) = true).
    { apply Z.leb_le. rewrite !size_of_app.
      pose proof (size_of_nonneg (packetized rest)). pose proof (size_of_nonneg suffix).
      change (size_of (be32 (size_of payload))) with 4. lia. }
    rewrite Hguard.
    pose proof (size_of_nonneg pre) as Hpre.
    destruct (size_of pre <? 0) eqn:Hneg; [apply Z.ltb_lt in Hneg; lia|].
    rewrite READ_BE32_prefix, READ_BE32_be32 by lia.
    rewrite to_int_small by lia. unfold CInt.add. rewrite to_int_small by lia.
    unfold be32 at 1. cbn [app]. rewrite WRITE_BE32_app.
    specialize (IH fuel (pre ++ start_code ++ payload) suffix (markers ++ [size_of pre]) Hrest).
    assert (Hpos : size_of (pre ++ start_code ++ payload) = size_of pre + (4 + size_of payload)).
    { rewrite !size_of_app. reflexivity. }
    rewrite Hpos in IH. rewrite <- !app_assoc in IH. rewrite IH.
    rewrite size_of_packetized_cons. cbn [record_offsets].
    replace (pre ++ start_coded (payload :: rest) ++ suffix)
      with (pre ++ start_code ++ payload ++ start_coded rest ++ suffix).
    2:{ change (start_coded (payload :: rest))
          with ((start_code ++ payload) ++ start_coded rest).
        rewrite <- !app_assoc. reflexivity. }
    f_equal; [lia|].
    simpl. do 3 f_equal. lia.
Qed.

(** ** Reframing buffers made of records *)

Lemma walk_fuel_records (payloads : list (list byte)) (suffix : list byte) :
  exists k, walk_fuel (packetized payloads ++ suffix) = (length payloads + S (S k))%nat.
Proof.
  pose proof (records_take_four_bytes payloads) as Hfour.
  unfold walk_fuel. rewrite length_app. unfold size_of in Hfour.
  exists (S (heavy (packetized payloads ++ suffix)) 
            * S (length (packetized payloads) + length suffix)
          - length payloads - 1)%nat.
  nia.
Qed.

Lemma walk_exit (fuel : nat) (buf : list byte) (start_data : Z) (markers : list Z) :
  size_of buf < start_data + 4 ->
  replace_length_fields (S fuel) buf start_data markers =
  WalkExit start_data buf markers.
Proof.
  intros Hend. simpl.
  destruct (start_data + 4 <=? size_of buf) eqn:Hguard; [|reflexivity].
  apply Z.leb_le in Hguard. lia.
Qed.

Lemma walk_step (fuel : nat) (buf : list byte) (start_data : Z) (markers : list Z) :
  0 <= start_data -> start_data + 4 <= size_of buf ->
  replace_length_fields (S fuel) buf start_data markers =
  replace_length_fields fuel (WRITE_BE32 buf start_data 1)
    (start_data + CInt.add 4 (CInt.to_int (READ_BE32 buf start_data)))
    (markers ++ [start_data]).
Proof.
  intros Hpos Hguard. cbn [replace_length_fields].
  destruct (start_data + 4 <=? size_of buf) eqn:Hg; [|apply Z.leb_gt in Hg; lia].
  destruct (start_data <? 0) eqn:Hneg; [apply Z.ltb_lt in Hneg; lia|].
  reflexivity.
Qed.

Lemma walk_over_records (payloads : list (list byte)) (tail : list byte) :
  Forall fits_int payloads ->
  size_of tail < 4 ->
  replace_length_fields (walk_fuel (packetized payloads ++ tail))
    (packetized payloads ++ tail) 0 [] =
  WalkExit (size_of (packetized payloads)) (start_coded payloads ++ tail)
    (record_offsets 0 payloads).
Proof.
  intros Hfit Htail.
  destruct (walk_fuel_records payloads tail) as [k ->].
  pose proof (walk_records payloads (S (S k)) [] tail [] Hfit) as Hwalk.
  simpl app in Hwalk. change (size_of []) with 0 in Hwalk.
  rewrite Hwalk, Z.add_0_l.
  apply walk_exit. rewrite size_of_app, size_of_start_coded. lia.
Qed.

Lemma reframe_records (payloads : list (list byte)) (tail : list byte) :
  Forall fits_int payloads ->
  size_of tail < 4 ->
  reframe GST_TYPE_LIBDE265_DEC_PACKETIZED (packetized payloads ++ tail) =
  Reframed (start_coded payloads ++ tail) (record_offsets 0 payloads).
Proof.
  intros Hfit Htail. unfold reframe.
  rewrite walk_over_records by assumption.
  rewrite size_of_app. pose proof (size_of_nonneg tail).
  destruct (size_of (packetized payloads) + size_of tail <? size_of (packetized payloads)) eqn:Hcmp;
    [apply Z.ltb_lt in Hcmp; lia | reflexivity].
Qed.

(** A record that announces more than the buffer has left, after complete
    records, with every length in the range of [int]: the pointer ends past
    [end_data]. *)
Lemma reframe_overrun (payloads : list (list byte)) (L : Z) (rest : list byte) :
  Forall fits_int payloads ->
  0 <= L -> 4 + L <= CInt.INT_MAX ->
  size_of rest < L ->
  exists buf',
    reframe GST_TYPE_LIBDE265_DEC_PACKETIZED (packetized payloads ++ be32 L ++ rest) =
    Overflow buf' (size_of (packetized payloads) + 4 + L).
Proof.
  intros Hfit HL0 HL Hrest. unfold reframe, CInt.INT_MAX in *.
  destruct (walk_fuel_records payloads (be32 L ++ rest)) as [k ->].
  pose proof (walk_records payloads (S (S k)) [] (be32 L ++ rest) [] Hfit) as Hwalk.
  rewrite !app_nil_l in Hwalk. change (size_of []) with 0 in Hwalk.
  rewrite Hwalk, Z.add_0_l. clear Hwalk.
  pose proof (size_of_nonneg rest) as Hnn.
  pose proof (size_of_nonneg (start_coded payloads)) as Hnn'.
  assert (Hsize : size_of (start_coded payloads ++ be32 L ++ rest)
                  = size_of (packetized payloads) + 4 + size_of rest).
  { rewrite !size_of_app, size_of_start_coded. change (size_of (be32 L)) with 4. lia. }
  rewrite <- size_of_start_coded in *.
  rewrite walk_step by lia.
  rewrite READ_BE32_prefix, READ_BE32_be32 by lia.
  rewrite to_int_small by lia. unfold CInt.add. rewrite to_int_small by lia.
  unfold be32 at 1. cbn [app]. rewrite WRITE_BE32_app.
  rewrite walk_exit.
  2:{ rewrite !size_of_app. change (size_of start_code) with 4. lia. }
  rewrite !size_of_app, <- size_of_start_coded. change (size_of (be32 L)) with 4.
  match goal with
  | |- context [?a <? ?b] =>
      destruct (a <? b) eqn:Hcmp; [|apply Z.ltb_ge in Hcmp; lia]
  end.
  eexists. f_equal. lia.
Qed.

(** ** The claims on reframing *)

Lemma walk_fuel_two (buf : list byte) : exists k, walk_fuel buf = S (S k).
Proof.
  unfold walk_fuel. exists (length buf + heavy buf * S (length buf))%nat. lia.
Qed.

(** A first length field with the top bit set sends the pointer before the
    buffer. *)
Lemma reframe_first_length_negative (buf : list byte) :
  4 <= size_of buf ->
  2 ^ 31 <= READ_BE32 buf 0 < 2 ^ 32 - 4 ->
  reframe GST_TYPE_LIBDE265_DEC_PACKETIZED buf =
  Reframe_undefined (4 + (READ_BE32 buf 0 - 2 ^ 32)).
Proof.
  intros Hsize Hread. unfold reframe.
  destruct (walk_fuel_two buf) as [k ->].
  rewrite walk_step by lia.
  assert (Hint : CInt.to_int (READ_BE32 buf 0) = READ_BE32 buf 0 - 2 ^ 32).
  { unfold CInt.to_int.
    replace (READ_BE32 buf 0 + 2 ^ 31)
      with (READ_BE32 buf 0 - 2 ^ 31 + 1 * 2 ^ 32) by lia.
    rewrite Z.mod_add by lia. rewrite Z.mod_small by lia. lia. }
  rewrite Hint. unfold CInt.add. rewrite to_int_small by lia.
  cbn [replace_length_fields].
  assert (Hlen : size_of (WRITE_BE32 buf 0 1) = size_of buf).
  { unfold size_of, WRITE_BE32, store8. rewrite !length_insert. reflexivity. }
  rewrite Hlen.
  destruct (0 + (4 + (READ_BE32 buf 0 - 2 ^ 32)) + 4 <=? size_of buf) eqn:Hguard;
    [|apply Z.leb_gt in Hguard; lia].
  destruct (0 + (4 + (READ_BE32 buf 0 - 2 ^ 32)) <? 0) eqn:Hneg;
    [|apply Z.ltb_ge in Hneg; lia].
  reflexivity.
Qed.

Lemma huge_record_leaves_buffer (payload tail : list byte) :
  size_of payload = 2 ^ 31 ->
  reframe GST_TYPE_LIBDE265_DEC_PACKETIZED (packetized [payload] ++ tail) =
  Reframe_undefined (4 - 2 ^ 31).
Proof.
  intros Hsize.
  assert (Hbuf : packetized [payload] ++ tail = be32 (2 ^ 31) ++ payload ++ tail).
  { change (packetized [payload]) with (record payload ++ []).
    rewrite app_nil_r. unfold record. rewrite Hsize, <- app_assoc. reflexivity. }
  rewrite Hbuf.
  assert (Hread : READ_BE32 (be32 (2 ^ 31) ++ payload ++ tail) 0 = 2 ^ 31)
    by (apply READ_BE32_be32; lia).
  rewrite reframe_first_length_negative.
  - rewrite Hread. f_equal.
  - rewrite size_of_app. change (size_of (be32 (2 ^ 31))) with 4.
    pose proof (size_of_nonneg (payload ++ tail)). lia.
  - rewrite Hread. lia.
Qed.

Lemma huge_record_alone (payload : list byte) :
  size_of payload = 2 ^ 31 ->
  reframe GST_TYPE_LIBDE265_DEC_PACKETIZED (packetized [payload]) =
  Reframe_undefined (4 - 2 ^ 31).
Proof.
  intros Hsize.
  pose proof (huge_record_leaves_buffer payload [] Hsize) as Hleave.
  rewrite app_nil_r in Hleave. exact Hleave.
Qed.

Lemma size_of_huge_payload : size_of huge_payload = 2 ^ 31.
Proof. unfold size_of, huge_payload. rewrite length_replicate. lia. Qed.

(** Where the loop ends: at an exit fewer than 4 bytes remain from the
    pointer on, and the pointer is only ever found outside the buffer before
    its start; the buffer keeps its length. *)
Lemma replace_length_fields_ends (fuel : nat) :
  forall buf start_data markers,
    match replace_length_fields fuel buf start_data markers with
    | WalkExit start_data' out _ =>
        size_of out < start_data' + 4 /\ length out = length buf
    | WalkOutOfBounds start_data' out _ =>
        start_data' < 0 /\ start_data' + 4 <= size_of out /\ length out = length buf
    | WalkOutOfFuel => True
    end.
Proof.
  induction fuel as [|fuel IH]; intros buf start_data markers; [exact I|].
  cbn [replace_length_fields].
  destruct (start_data + 4 <=? size_of buf) eqn:Hguard.
  - apply Z.leb_le in Hguard.
    destruct (start_data <? 0) eqn:Hneg.
    + apply Z.ltb_lt in Hneg. repeat split; assumption.
    + specialize (IH (WRITE_BE32 buf start_data 1)
                     (start_data + CInt.add 4 (CInt.to_int (READ_BE32 buf start_data)))
                     (markers ++ [start_data])).
      assert (Hlen : length (WRITE_BE32 buf start_data 1) = length buf)
        by (unfold WRITE_BE32, store8; rewrite !length_insert; reflexivity).
      rewrite Hlen in IH. exact IH.
  - apply Z.leb_gt in Hguard. split; [lia|reflexivity].
Qed.

(** On every buffer the loop ends: either where the spec has it end, or
    with the pointer before the start of the buffer. *)
Lemma walk_ends_or_leaves (buf : list byte) :
  walk_reaches_the_end buf \/
  exists start_data out markers,
    replace_length_fields (walk_fuel buf) buf 0 [] =
      WalkOutOfBounds start_data out markers /\
    start_data < 0.
Proof.
  pose proof (replace_length_fields_total buf) as Htotal.
  pose proof (replace_length_fields_ends (walk_fuel buf) buf 0 []) as Hends.
  destruct (replace_length_fields (walk_fuel buf) buf 0 [])
    as [start_data out markers|start_data out markers|] eqn:Hwalk.
  - left. exists start_data, out, markers. split; [exact Hwalk|].
    destruct Hends as [Hend Hlen]. unfold size_of in *. rewrite <- Hlen. exact Hend.
  - right. exists start_data, out, markers. split; [reflexivity|apply Hends].
  - contradiction.
Qed.

(** X27: within the range of [int], a buffer that tiles into records whose
    length fields the element's [int] can hold and add 4 to is reframed in
    place, its size kept, one start code written per record at the
    record's offset and every payload left as it was. *)
Theorem reframing_keeps_size (payloads : list (list byte)) :
  Forall fits_int payloads ->
  reframe GST_TYPE_LIBDE265_DEC_PACKETIZED (packetized payloads) =
    Reframed (start_coded payloads) (record_offsets 0 payloads) /\
  length (start_coded payloads) = length (packetized payloads) /\
  length (record_offsets 0 payloads) = length payloads.
Proof.
  intros Hfit.
  pose proof (reframe_records payloads [] Hfit) as Hre.
  rewrite !app_nil_r in Hre. split; [apply Hre; reflexivity|].
  split; [|apply length_record_offsets].
  pose proof (size_of_start_coded payloads) as Hsize. unfold size_of in Hsize. lia.
Qed.

(** ** The parse cycle *)

Section Cycle.

Context {Ctx Image : Type} `{!Engine Ctx Image}.

Variable HAVE_DE265_ERROR_WAITING_FOR_INPUT_DATA : bool.

Local Abbreviation parse :=
  (gst_libde265_dec_parse HAVE_DE265_ERROR_WAITING_FOR_INPUT_DATA).
Local Abbreviation feed :=
  (parse_feed HAVE_DE265_ERROR_WAITING_FOR_INPUT_DATA).

Lemma count_app (p : call -> bool) (l k : list call) :
  count p (l ++ k) = (count p l + count p k)%nat.
Proof. unfold count. rewrite filter_app, length_app. reflexivity. Qed.

Lemma image_available_calls (dec : GstLibde265Dec) (img : Image) :
  count is_Push_data (snd (_gst_libde265_image_available dec img)) = 0%nat /\
  count is_Get_warning (snd (_gst_libde265_image_available dec img)) = 0%nat /\
  count is_frame (snd (_gst_libde265_image_available dec img)) = 1%nat /\
  last (snd (_gst_libde265_image_available dec img)) = Some Have_frame.
Proof.
  unfold _gst_libde265_image_available.
  destruct (negb _ || negb _); [|repeat split; reflexivity].
  destruct (0 <? fps_n dec); repeat split; reflexivity.
Qed.

Lemma image_available_keeps (dec : GstLibde265Dec) (img : Image) :
  ctx (fst (_gst_libde265_image_available dec img)) = ctx dec /\
  buffer_full (fst (_gst_libde265_image_available dec img)) = buffer_full dec /\
  mode (fst (_gst_libde265_image_available dec img)) = mode dec.
Proof.
  unfold _gst_libde265_image_available.
  destruct (negb _ || negb _); repeat split; reflexivity.
Qed.

(** The calls made before the feed only sit in front of the log. *)
Lemma parse_feed_log (fuel : nat) (dec : GstLibde265Dec) (adapter : list byte)
    (map_ok : bool) (log : list call) :
  feed fuel dec adapter map_ok log =
  with_calls_before log (feed fuel dec adapter map_ok []).
Proof.
  unfold parse_feed, with_calls_before, with_ctx, peek_and_return.
  destruct (size_of adapter =? 0); [simpl; rewrite app_nil_r; reflexivity|].
  destruct map_ok; cbn [negb]; [|reflexivity].
  destruct (reframe (mode dec) adapter); try reflexivity.
  2:{ cbn [calls app]. rewrite <- app_assoc. reflexivity. }
  destruct (ctx dec) as [c|]; [|reflexivity].
  destruct (push_and_decode c buf (size_of adapter)) as [[ret c2] log2].
  destruct ret.
  - destruct (get_warnings fuel c2) as [[c3 log3]|]; [|reflexivity].
    destruct (de265_peek_next_picture c3) as [img|].
    + destruct (_gst_libde265_image_available _ img) as [dec' calls'].
      simpl. rewrite <- !app_assoc. reflexivity.
    + simpl. rewrite <- !app_assoc. reflexivity.
  - destruct (de265_peek_next_picture c2) as [img|].
    + destruct (_gst_libde265_image_available _ img) as [dec' calls'].
      simpl. rewrite <- !app_assoc. reflexivity.
    + simpl. rewrite <- !app_assoc. reflexivity.
  - destruct HAVE_DE265_ERROR_WAITING_FOR_INPUT_DATA; simpl;
      rewrite <- ?app_assoc; reflexivity.
  - simpl. rewrite <- !app_assoc. reflexivity.
Qed.

(** What a cycle that reaches the engine with a reframed buffer returns,
    by the result of the feed. *)
Lemma parse_feeds (fuel : nat) (dec : GstLibde265Dec) (c c2 : Ctx)
    (adapter frame_data : list byte) (markers : list Z)
    (ret : de265_error) (log2 : list call) :
  ctx dec = Some c ->
  (buffer_full dec = true -> de265_peek_next_picture c = None) ->
  adapter <> [] ->
  reframe (mode dec) adapter = Reframed frame_data markers ->
  push_and_decode c frame_data (size_of adapter) = (ret, c2, log2) ->
  let dec0 := if buffer_full dec then set_buffer_full dec false else dec in
  let before :=
    (if buffer_full dec then [Peek_next_picture] else [])
    ++ Take_buffer (size_of adapter) :: log2 in
  parse fuel dec adapter true =
  match ret with
  | DE265_OK =>
      match get_warnings fuel c2 with
      | None => Out_of_fuel
      | Some (c3, calls') =>
          Returned (peek_and_return (set_ctx (set_ctx dec0 (Some c2)) (Some c3)) c3
                      (before ++ calls'))
      end
  | DE265_ERROR_IMAGE_BUFFER_FULL =>
      Returned (peek_and_return (set_buffer_full (set_ctx dec0 (Some c2)) true) c2 before)
  | DE265_ERROR_WAITING_FOR_INPUT_DATA =>
      if HAVE_DE265_ERROR_WAITING_FOR_INPUT_DATA then
        Returned {| flow := GST_VIDEO_DECODER_FLOW_NEED_DATA;
                    dec_after := set_ctx dec0 (Some c2); adapter_after := [];
                    calls := before |}
      else
        Returned {| flow := GST_FLOW_ERROR; dec_after := set_ctx dec0 (Some c2);
                    adapter_after := [];
                    calls := before ++ [Element_error (Error_while_decoding ret)] |}
  | DE265_CODE _ =>
      Returned {| flow := GST_FLOW_ERROR; dec_after := set_ctx dec0 (Some c2);
                  adapter_after := [];
                  calls := before ++ [Element_error (Error_while_decoding ret)] |}
  end.
Proof.
  intros Hctx Hpeek Hdata Hframe Hfeed dec0 before.
  assert (Hsize : (size_of adapter =? 0) = false).
  { apply Z.eqb_neq. unfold size_of. destruct adapter; [congruence|simpl; lia]. }
  assert (Hparse :
    parse fuel dec adapter true =
    feed fuel dec0 adapter true (if buffer_full dec then [Peek_next_picture] else [])).
  { unfold gst_libde265_dec_parse, with_ctx. subst dec0.
    destruct (buffer_full dec); [|reflexivity].
    rewrite Hctx, Hpeek by reflexivity. reflexivity. }
  assert (Hctx0 : ctx dec0 = Some c) by (subst dec0; destruct (buffer_full dec); exact Hctx).
  assert (Hmode0 : mode dec0 = mode dec) by (subst dec0; destruct (buffer_full dec); reflexivity).
  rewrite Hparse. unfold parse_feed, with_ctx.
  rewrite Hsize. cbn [negb]. rewrite Hmode0, Hframe, Hctx0, Hfeed.
  subst before. rewrite <- !app_assoc. cbn [app].
  destruct ret; reflexivity.
Qed.

(** Calls of the parts of a cycle, for any property of calls. *)
Lemma get_warnings_calls (P : call -> Prop) :
  P Get_warning -> (forall w, P (Element_warning w)) ->
  forall (fuel : nat) (c c' : Ctx) (log : list call),
    get_warnings fuel c = Some (c', log) -> Forall P log.
Proof.
  intros Hget Hwarn fuel.
  induction fuel as [|fuel IH]; intros c c' log; [discriminate|].
  cbn [get_warnings]. destruct (de265_get_warning c) as [ret c1].
  destruct (is_DE265_OK ret).
  - intros [= <- <-]. repeat constructor. exact Hget.
  - destruct (get_warnings fuel c1) as [[c2 log2]|] eqn:Hrun; [|discriminate].
    intros [= <- <-]. repeat constructor; auto. exact (IH _ _ _ Hrun).
Qed.

Lemma peek_and_return_tail (P : call -> Prop) (dec : GstLibde265Dec) (c : Ctx)
    (log : list call) :
  P Peek_next_picture -> P Have_frame -> P Negotiate ->
  (forall w h, P (Set_output_state w h)) ->
  (forall n d, P (Set_framerate n d)) ->
  exists rest,
    calls (peek_and_return dec c log) = log ++ rest /\ Forall P rest.
Proof.
  intros Hpeek Hframe Hneg Hstate Hrate. unfold peek_and_return.
  destruct (de265_peek_next_picture c) as [img|].
  - unfold _gst_libde265_image_available.
    destruct (negb _ || negb _); [destruct (0 <? fps_n dec)|];
      eexists; (split; [reflexivity|]); repeat constructor; auto.
  - eexists. split; [reflexivity|]. repeat constructor; auto.
Qed.

(** C7: with nothing in the adapter, and the backlog flag clear or cleared
    because no picture is pending, the cycle makes no engine call beyond
    that peek, pushes nothing, and asks for more data. *)
Theorem empty_chunk_needs_data (fuel : nat) (dec : GstLibde265Dec) (map_ok : bool) :
  buffer_full dec = false \/
  (exists c, ctx dec = Some c /\ de265_peek_next_picture c = None) ->
  exists out,
    parse fuel dec [] map_ok = Returned out /\
    flow out = GST_VIDEO_DECODER_FLOW_NEED_DATA /\
    calls out = (if buffer_full dec then [Peek_next_picture] else []) /\
    count is_Push_data (calls out) = 0%nat /\
    adapter_after out = [] /\
    dec_after out = set_buffer_full dec false.
Proof.
  intros Hcase. unfold gst_libde265_dec_parse, with_ctx.
  destruct (buffer_full dec) eqn:Hfull.
  - destruct Hcase as [Hcase|(c & Hctx & Hpeek)]; [discriminate|].
    rewrite Hctx, Hpeek. unfold parse_feed. simpl.
    eexists. split; [reflexivity|]. simpl. repeat split; reflexivity.
  - unfold parse_feed. simpl.
    eexists. split; [reflexivity|]. simpl. repeat split; try reflexivity.
    destruct dec; simpl in *; subst; reflexivity.
Qed.

End Cycle.

(** ** Geometry changes and renegotiation *)

Section Geometry.

Context {Ctx Image : Type} `{!Engine Ctx Image}.

Variable HAVE_DE265_ERROR_WAITING_FOR_INPUT_DATA : bool.

Local Abbreviation parse :=
  (gst_libde265_dec_parse HAVE_DE265_ERROR_WAITING_FOR_INPUT_DATA).

(** The two ways [_gst_libde265_image_available] goes. *)
Lemma image_available_same (dec : GstLibde265Dec) (img : Image) :
  de265_get_image_width img 0 = width dec ->
  de265_get_image_height img 0 = height dec ->
  _gst_libde265_image_available dec img = (dec, [Have_frame]).
Proof.
  intros Hw Hh. unfold _gst_libde265_image_available.
  rewrite Hw, Hh, !Z.eqb_refl. reflexivity.
Qed.

Lemma image_available_changed (dec : GstLibde265Dec) (img : Image) :
  de265_get_image_width img 0 <> width dec \/
  de265_get_image_height img 0 <> height dec ->
  _gst_libde265_image_available dec img =
  (set_geometry dec (de265_get_image_width img 0) (de265_get_image_height img 0),
   renegotiation (de265_get_image_width img 0) (de265_get_image_height img 0)
     (fps_n dec) (fps_d dec) ++ [Have_frame]).
Proof.
  intros Hdiff. unfold _gst_libde265_image_available, renegotiation.
  destruct (de265_get_image_width img 0 =? width dec) eqn:Hw;
    destruct (de265_get_image_height img 0 =? height dec) eqn:Hh;
    cbn [negb orb];
    try (f_equal; cbn [app]; rewrite <- app_assoc; reflexivity).
  apply Z.eqb_eq in Hw, Hh. destruct Hdiff; contradiction.
Qed.

Lemma count_renegotiation (w h n d : Z) :
  count is_Negotiate (renegotiation w h n d) = 1%nat /\
  count is_frame (renegotiation w h n d) = 0%nat.
Proof. unfold renegotiation. destruct (0 <? n); split; reflexivity. Qed.

Lemma quiet_app (l k : list call) : quiet l -> quiet k -> quiet (l ++ k).
Proof. unfold quiet. intros. apply Forall_app. split; assumption. Qed.

Lemma quiet_count (l : list call) :
  quiet l -> count is_Negotiate l = 0%nat /\ count is_frame l = 0%nat.
Proof.
  induction 1 as [|c l [Hn Hf] _ [IHn IHf]]; [split; reflexivity|].
  change (c :: l) with ([c] ++ l). rewrite !count_app, IHn, IHf.
  unfold count. simpl. rewrite !filter_cons, !filter_nil.
  destruct (decide (is_Negotiate c = true)); [congruence|].
  destruct (decide (is_frame c = true)); [congruence|].
  split; reflexivity.
Qed.

Lemma get_warnings_quiet (fuel : nat) :
  forall (c c' : Ctx) (log : list call),
    get_warnings fuel c = Some (c', log) -> quiet log.
Proof.
  induction fuel as [|fuel IH]; intros c c' log; [discriminate|].
  cbn [get_warnings]. destruct (de265_get_warning c) as [ret c1].
  destruct (is_DE265_OK ret).
  - intros [= <- <-]. repeat constructor.
  - destruct (get_warnings fuel c1) as [[c2 log2]|] eqn:Hrun; [|discriminate].
    intros [= <- <-]. repeat constructor. exact (IH _ _ _ Hrun).
Qed.

Lemma push_and_decode_quiet (c c2 : Ctx) (data : list byte) (size : Z)
    (ret : de265_error) (log2 : list call) :
  push_and_decode c data size = (ret, c2, log2) -> quiet log2.
Proof.
  unfold push_and_decode. destruct (de265_push_data c data (CInt.to_int size)) as [r c1].
  destruct (is_DE265_OK r).
  - destruct (de265_decode c1) as [r2 c3]. intros [= <- <- <-]. repeat constructor.
  - intros [= <- <- <-]. repeat constructor.
Qed.

Local Ltac plain_end H :=
  intros [= <-]; eapply H; [..|reflexivity];
  try assumption; try discriminate;
  try (apply quiet_app; [assumption|repeat constructor]).

(** How a parse cycle ends: without a picture, its element differing from
    the one it began with in the context and the flag at most; or in
    [_gst_libde265_image_available] on such an element, after calls that
    neither negotiate nor hand over a frame. *)
Lemma parse_ends (fuel : nat) (dec : GstLibde265Dec) (adapter : list byte)
    (map_ok : bool) (out : parsed) :
  parse fuel dec adapter map_ok = Returned out ->
  exists dec' log,
    width dec' = width dec /\ height dec' = height dec /\
    fps_n dec' = fps_n dec /\ fps_d dec' = fps_d dec /\
    quiet log /\
    ((dec_after out = dec' /\ calls out = log /\ flow out <> Return_have_frame) \/
     (exists img,
        dec_after out = fst (_gst_libde265_image_available dec' img) /\
        calls out = log ++ snd (_gst_libde265_image_available dec' img) /\
        flow out = Return_have_frame)).
Proof.
  assert (Hpeek : forall dec' c log,
    width dec' = width dec -> height dec' = height dec ->
    fps_n dec' = fps_n dec -> fps_d dec' = fps_d dec -> quiet log ->
    out = peek_and_return dec' c log ->
    exists dec' log,
      width dec' = width dec /\ height dec' = height dec /\
      fps_n dec' = fps_n dec /\ fps_d dec' = fps_d dec /\
      quiet log /\
      ((dec_after out = dec' /\ calls out = log /\ flow out <> Return_have_frame) \/
       (exists img,
          dec_after out = fst (_gst_libde265_image_available dec' img) /\
          calls out = log ++ snd (_gst_libde265_image_available dec' img) /\
          flow out = Return_have_frame))).
  { intros dec' c log Hw Hh Hn Hd Hq ->. unfold peek_and_return.
    destruct (de265_peek_next_picture c) as [img|].
    - exists dec', (log ++ [Peek_next_picture]).
      repeat split; try assumption; [apply quiet_app; [assumption|repeat constructor]|].
      right. exists img.
      destruct (_gst_libde265_image_available dec' img) as [dec'' calls''].
      cbn. rewrite <- app_assoc. repeat split; reflexivity.
    - exists dec', (log ++ [Peek_next_picture]).
      repeat split; try assumption; [apply quiet_app; [assumption|repeat constructor]|].
      left. cbn. repeat split; try reflexivity. discriminate. }
  assert (Hplain : forall dec' log flow',
    width dec' = width dec -> height dec' = height dec ->
    fps_n dec' = fps_n dec -> fps_d dec' = fps_d dec -> quiet log ->
    flow' <> Return_have_frame ->
    out = {| flow := flow'; dec_after := dec'; adapter_after := adapter_after out;
             calls := log |} ->
    exists dec' log,
      width dec' = width dec /\ height dec' = height dec /\
      fps_n dec' = fps_n dec /\ fps_d dec' = fps_d dec /\
      quiet log /\
      ((dec_after out = dec' /\ calls out = log /\ flow out <> Return_have_frame) \/
       (exists img,
          dec_after out = fst (_gst_libde265_image_available dec' img) /\
          calls out = log ++ snd (_gst_libde265_image_available dec' img) /\
          flow out = Return_have_frame))).
  { intros dec' log flow' Hw Hh Hn Hd Hq Hflow Hout. exists dec', log.
    repeat split; try assumption. left. rewrite Hout. cbn. repeat split; assumption. }
  assert (Hfeed : forall dec0 log0,
    width dec0 = width dec -> height dec0 = height dec ->
    fps_n dec0 = fps_n dec -> fps_d dec0 = fps_d dec -> quiet log0 ->
    parse_feed HAVE_DE265_ERROR_WAITING_FOR_INPUT_DATA fuel dec0 adapter map_ok log0
      = Returned out ->
    exists dec' log,
      width dec' = width dec /\ height dec' = height dec /\
      fps_n dec' = fps_n dec /\ fps_d dec' = fps_d dec /\
      quiet log /\
      ((dec_after out = dec' /\ calls out = log /\ flow out <> Return_have_frame) \/
       (exists img,
          dec_after out = fst (_gst_libde265_image_available dec' img) /\
          calls out = log ++ snd (_gst_libde265_image_available dec' img) /\
          flow out = Return_have_frame))).
  { intros dec0 log0 Hw Hh Hn Hd Hq. unfold parse_feed, with_ctx.
    assert (Hq1 : quiet (log0 ++ [Take_buffer (size_of adapter)]))
      by (apply quiet_app; [assumption|repeat constructor]).
    destruct (size_of adapter =? 0); [plain_end Hplain|].
    destruct map_ok; cbn [negb]; [|plain_end Hplain].
    destruct (reframe (mode dec0) adapter) as [frame_data markers| |];
      [|plain_end Hplain|discriminate].
    destruct (ctx dec0) as [c|]; [|discriminate].
    destruct (push_and_decode c frame_data (size_of adapter)) as [[ret c2] log2] eqn:Hpd.
    pose proof (push_and_decode_quiet _ _ _ _ _ _ Hpd) as Hq2.
    assert (Hq3 : quiet ((log0 ++ [Take_buffer (size_of adapter)]) ++ log2))
      by (apply quiet_app; assumption).
    destruct ret.
    - destruct (get_warnings fuel c2) as [[c3 log3]|] eqn:Hrun; [|discriminate].
      intros [= <-]. eapply Hpeek; [..|reflexivity]; try assumption.
      apply quiet_app; [assumption|]. exact (get_warnings_quiet _ _ _ _ Hrun).
    - intros [= <-]. eapply Hpeek; [..|reflexivity]; assumption.
    - destruct HAVE_DE265_ERROR_WAITING_FOR_INPUT_DATA; plain_end Hplain.
    - plain_end Hplain. }
  unfold gst_libde265_dec_parse, with_ctx.
  destruct (buffer_full dec); [|apply Hfeed; (reflexivity || constructor)].
  destruct (ctx dec) as [c|]; [|discriminate].
  destruct (de265_peek_next_picture c) as [img|].
  - destruct (_gst_libde265_image_available dec img) as [dec' calls'] eqn:Havail.
    intros [= <-]. exists dec, [Peek_next_picture].
    repeat split; [repeat constructor|]. right. exists img.
    rewrite Havail. cbn. repeat split; reflexivity.
  - apply Hfeed; try reflexivity. repeat constructor.
Qed.

Lemma flush_pictures_quiet (fuel : nat) :
  forall (c c' : Ctx) (log : list call),
    flush_pictures fuel c = Some (c', log) -> quiet log.
Proof.
  induction fuel as [|fuel IH]; intros c c' log; [discriminate|].
  cbn [flush_pictures]. destruct (de265_get_next_picture c) as [[img|] c1].
  - destruct (flush_pictures fuel c1) as [[c2 log2]|] eqn:Hrun; [|discriminate].
    intros [= <- <-]. repeat constructor. exact (IH _ _ _ Hrun).
  - intros [= <- <-]. repeat constructor.
Qed.

(** C6, as the code has it: while the element runs, the recorded width and
    height change only in [_gst_libde265_image_available], and only for a
    picture whose width or height differs from the recorded ones; then one
    renegotiation request with the new width and height (and the frame
    rate, if positive) comes right before the frame is handed over.  A
    picture of the recorded size, so also the second of two pictures of
    identical size, is handed over with no request.  Parse cycles, flushes
    and frame handling leave the recorded geometry alone otherwise, and so
    do the property and format functions.  Initialisation, start, stop and
    finalisation put the record to -1 x -1 without a picture. *)
Theorem renegotiation_follows_geometry (fuel : nat) (dec : GstLibde265Dec)
    (adapter : list byte) (map_ok : bool) (img img' : Image) :
  let w := de265_get_image_width img 0 in
  let h := de265_get_image_height img 0 in
  let w' := de265_get_image_width img' 0 in
  let h' := de265_get_image_height img' 0 in
  let dec1 := fst (_gst_libde265_image_available dec img) in
  (w = width dec /\ h = height dec ->
     _gst_libde265_image_available dec img = (dec, [Have_frame])) /\
  (w <> width dec \/ h <> height dec ->
     _gst_libde265_image_available dec img =
     (set_geometry dec w h,
      renegotiation w h (fps_n dec) (fps_d dec) ++ [Have_frame])) /\
  (count is_Negotiate (renegotiation w h (fps_n dec) (fps_d dec)) = 1%nat /\
   count is_frame (renegotiation w h (fps_n dec) (fps_d dec)) = 0%nat /\
   hd_error (renegotiation w h (fps_n dec) (fps_d dec)) = Some (Set_output_state w h) /\
   (0 < fps_n dec ->
    renegotiation w h (fps_n dec) (fps_d dec) =
    [Set_output_state w h; Set_framerate (fps_n dec) (fps_d dec); Negotiate])) /\
  (w' = w /\ h' = h ->
     snd (_gst_libde265_image_available dec1 img') = [Have_frame]) /\
  (w' <> w \/ h' <> h ->
     snd (_gst_libde265_image_available dec1 img') =
     renegotiation w' h' (fps_n dec) (fps_d dec) ++ [Have_frame]) /\
  (forall out,
     parse fuel dec adapter map_ok = Returned out ->
     (width (dec_after out) = width dec /\ height (dec_after out) = height dec /\
      count is_Negotiate (calls out) = 0%nat) \/
     (exists pic log,
        (de265_get_image_width pic 0 <> width dec \/
         de265_get_image_height pic 0 <> height dec) /\
        width (dec_after out) = de265_get_image_width pic 0 /\
        height (dec_after out) = de265_get_image_height pic 0 /\
        calls out =
          log ++ renegotiation (de265_get_image_width pic 0)
                   (de265_get_image_height pic 0) (fps_n dec) (fps_d dec)
              ++ [Have_frame] /\
        count is_Negotiate log = 0%nat /\ count is_frame log = 0%nat)) /\
  (forall dec' log,
     gst_libde265_dec_flush fuel dec = Returned (dec', log) ->
     width dec' = width dec /\ height dec' = height dec /\
     count is_Negotiate log = 0%nat) /\
  (forall output_buffer out,
     gst_libde265_dec_handle_frame dec output_buffer map_ok = Returned out ->
     width (handle_dec out) = width dec /\ height (handle_dec out) = height dec /\
     count is_Negotiate (handle_calls out) = 0%nat) /\
  (forall (start_worker_threads : Ctx -> Z -> Ctx) (e : Libde265Dec),
     (forall prop_id value,
        width (decoder (gst_libde265_dec_set_property e prop_id value))
          = width (decoder e) /\
        height (decoder (gst_libde265_dec_set_property e prop_id value))
          = height (decoder e)) /\
     (forall state,
        width (decoder (snd (fst (gst_libde265_dec_set_format e state))))
          = width (decoder e) /\
        height (decoder (snd (fst (gst_libde265_dec_set_format e state))))
          = height (decoder e)) /\
     (forall created online,
        width (decoder (snd (fst (gst_libde265_dec_start start_worker_threads e
                                    created online)))) = -1 /\
        height (decoder (snd (fst (gst_libde265_dec_start start_worker_threads e
                                     created online)))) = -1) /\
     (width (decoder (snd (fst (gst_libde265_dec_stop e)))) = -1 /\
      height (decoder (snd (fst (gst_libde265_dec_stop e)))) = -1) /\
     (width (decoder (fst (gst_libde265_dec_finalize e))) = -1 /\
      height (decoder (fst (gst_libde265_dec_finalize e))) = -1) /\
     (width (decoder (fst (gst_libde265_dec_init e))) = -1 /\
      height (decoder (fst (gst_libde265_dec_init e))) = -1)).
Proof.
  intros w h w' h' dec1.
  assert (Hdec1 : width dec1 = w /\ height dec1 = h /\
                  fps_n dec1 = fps_n dec /\ fps_d dec1 = fps_d dec).
  { subst dec1. unfold _gst_libde265_image_available. fold w h.
    destruct (w =? width dec) eqn:Hw; destruct (h =? height dec) eqn:Hh;
      cbn; repeat split; try reflexivity.
    - apply Z.eqb_eq in Hw. congruence.
    - apply Z.eqb_eq in Hh. congruence. }
  destruct Hdec1 as (Hw1 & Hh1 & Hn1 & Hd1).
  split; [intros [Hw Hh]; apply image_available_same; assumption|].
  split; [apply image_available_changed|].
  split.
  { pose proof (count_renegotiation w h (fps_n dec) (fps_d dec)) as [Hone Hnone].
    repeat split; try assumption.
    unfold renegotiation. intros Hfps. apply Z.ltb_lt in Hfps. rewrite Hfps. reflexivity. }
  split.
  { intros [Hw Hh]. rewrite image_available_same; [reflexivity| |].
    - fold w'. rewrite Hw1. exact Hw.
    - fold h'. rewrite Hh1. exact Hh. }
  split.
  { intros Hdiff. rewrite image_available_changed, Hn1, Hd1; [reflexivity|].
    rewrite Hw1, Hh1. exact Hdiff. }
  split.
  { intros out Hout.
    destruct (parse_ends _ _ _ _ _ Hout)
      as (dec' & log & Hw & Hh & Hn & Hd & Hq & [(Hafter & Hcalls & _)|(pic & Hafter & Hcalls & _)]).
    - left. rewrite Hafter, Hcalls. repeat split; try assumption.
      apply quiet_count. assumption.
    - destruct (Z.eq_dec (de265_get_image_width pic 0) (width dec')) as [Hpw|Hpw];
        [destruct (Z.eq_dec (de265_get_image_height pic 0) (height dec')) as [Hph|Hph]|].
      + left. rewrite image_available_same in Hafter, Hcalls by assumption.
        cbn in Hafter, Hcalls. rewrite Hafter, Hcalls, count_app.
        repeat split; try assumption.
        destruct (quiet_count _ Hq) as [-> _]. reflexivity.
      + right. exists pic, log.
        rewrite image_available_changed in Hafter, Hcalls by (right; assumption).
        cbn in Hafter, Hcalls. rewrite Hafter, Hcalls, Hn, Hd, <- Hw, <- Hh.
        cbn. repeat split; try apply quiet_count; auto.
      + right. exists pic, log.
        rewrite image_available_changed in Hafter, Hcalls by (left; assumption).
        cbn in Hafter, Hcalls. rewrite Hafter, Hcalls, Hn, Hd, <- Hw, <- Hh.
        cbn. repeat split; try apply quiet_count; auto. }
  split.
  { intros dec' log. unfold gst_libde265_dec_flush, with_ctx.
    destruct (ctx dec) as [c|]; [|discriminate].
    destruct (flush_pictures fuel c) as [[c' log']|] eqn:Hrun; [|discriminate].
    intros [= <- <-]. repeat split.
    apply quiet_count. exact (flush_pictures_quiet _ _ _ _ Hrun). }
  split.
  { intros output_buffer out. unfold gst_libde265_dec_handle_frame, with_ctx.
    destruct (ctx dec) as [c|]; [|discriminate].
    destruct (de265_get_next_picture c) as [[pic|] c1].
    2:{ intros [= <-]. repeat split. }
    destruct output_buffer as [buf|]; [|intros [= <-]; repeat split].
    destruct map_ok; cbn [negb]; [|intros [= <-]; repeat split].
    destruct (copy_planes [0; 1; 2] pic buf 0) as [[buf' dest']| |]; try discriminate.
    intros [= <-]. repeat split. }
  intros start_worker_threads e.
  split.
  { intros prop_id value. unfold gst_libde265_dec_set_property.
    destruct (prop_id =? PROP_MODE); [split; reflexivity|].
    destruct (prop_id =? PROP_FRAMERATE); split; reflexivity. }
  split; [intros state; split; reflexivity|].
  split.
  { intros created online. unfold gst_libde265_dec_start.
    destruct created; split; reflexivity. }
  repeat split.
Qed.

End Geometry.

(** ** The engine's queues and the loops that empty them *)

Section Queues.

Context {Ctx Image : Type} `{!Engine Ctx Image} `{!EngineQueues}.

Variable HAVE_DE265_ERROR_WAITING_FOR_INPUT_DATA : bool.

Local Abbreviation parse :=
  (gst_libde265_dec_parse HAVE_DE265_ERROR_WAITING_FOR_INPUT_DATA).

Lemma get_warnings_drains (fuel : nat) :
  forall c,
    (length (queued_warnings c) < fuel)%nat ->
    exists c',
      get_warnings fuel c = Some (c', warning_calls (queued_warnings c)) /\
      queued_warnings c' = [].
Proof.
  induction fuel as [|fuel IH]; intros c Hfuel; [lia|].
  cbn [get_warnings].
  pose proof (get_warning_head c) as Hhead.
  pose proof (get_warning_tail c) as Htail.
  pose proof (warnings_not_ok c) as Hok.
  destruct (de265_get_warning c) as [ret c1]. cbn [fst snd] in Hhead, Htail.
  destruct (queued_warnings c) as [|w ws] eqn:Hqueue.
  - simpl in Hhead. subst ret. simpl. exists c1. split; [reflexivity|].
    rewrite Htail. reflexivity.
  - simpl in Hhead. subst ret. inversion Hok as [|? ? Hw _]; subst.
    rewrite Hw. simpl in Htail, Hfuel.
    destruct (IH c1) as (c' & Hrun & Hempty); [rewrite Htail; lia|].
    rewrite Hrun, Htail. exists c'. split; [reflexivity|exact Hempty].
Qed.

Lemma flush_pictures_drains (fuel : nat) :
  forall c,
    (length (pending c) < fuel)%nat ->
    exists c',
      flush_pictures fuel c =
        Some (c', replicate (S (length (pending c))) Get_next_picture) /\
      pending c' = [].
Proof.
  induction fuel as [|fuel IH]; intros c Hfuel; [lia|].
  cbn [flush_pictures].
  pose proof (get_next_head c) as Hhead.
  pose proof (get_next_tail c) as Htail.
  destruct (de265_get_next_picture c) as [img c1]. cbn [fst snd] in Hhead, Htail.
  destruct (pending c) as [|p ps] eqn:Hqueue.
  - simpl in Hhead. subst img. exists c1. split; [reflexivity|].
    rewrite Htail. reflexivity.
  - simpl in Hhead. subst img. simpl in Htail, Hfuel.
    destruct (IH c1) as (c' & Hrun & Hempty); [rewrite Htail; lia|].
    rewrite Hrun, Htail. exists c'. split; [reflexivity|exact Hempty].
Qed.

Lemma count_replicate_frames (n : nat) :
  count is_frame (replicate n Get_next_picture) = 0%nat.
Proof. induction n; [reflexivity|exact IHn]. Qed.

(** C8: on a started context a flush pulls until the engine has no picture
    left and clears the backlog flag; a second flush right after pulls once,
    finds nothing, and leaves the flag, the empty queue and the other fields
    as they were.  Neither hands a frame to the base class. *)
Theorem flush_twice (fuel : nat) (dec : GstLibde265Dec) (c : Ctx) :
  ctx dec = Some c ->
  (length (pending c) < fuel)%nat ->
  exists dec1 c1 calls1,
    gst_libde265_dec_flush fuel dec = Returned (dec1, calls1) /\
    ctx dec1 = Some c1 /\
    buffer_full dec1 = false /\
    pending c1 = [] /\
    count is_frame calls1 = 0%nat /\
    forall fuel', (0 < fuel')%nat ->
      exists dec2 c2,
        gst_libde265_dec_flush fuel' dec1 = Returned (dec2, [Get_next_picture]) /\
        ctx dec2 = Some c2 /\
        buffer_full dec2 = buffer_full dec1 /\
        pending c2 = pending c1 /\
        width dec2 = width dec1 /\ height dec2 = height dec1 /\
        mode dec2 = mode dec1 /\
        fps_n dec2 = fps_n dec1 /\ fps_d dec2 = fps_d dec1.
Proof.
  intros Hctx Hfuel.
  destruct (flush_pictures_drains fuel c Hfuel) as (c1 & Hrun & Hempty).
  unfold gst_libde265_dec_flush at 1. unfold with_ctx. rewrite Hctx, Hrun.
  eexists _, c1, _. split; [reflexivity|]. cbn [ctx buffer_full set_buffer_full set_ctx].
  repeat split; try assumption; try apply count_replicate_frames.
  intros fuel' Hfuel'.
  destruct (flush_pictures_drains fuel' c1) as (c2 & Hrun2 & Hempty2);
    [rewrite Hempty; simpl; lia|].
  rewrite Hempty in Hrun2. simpl in Hrun2.
  unfold gst_libde265_dec_flush, with_ctx. cbn [ctx set_buffer_full set_ctx].
  rewrite Hrun2. eexists _, c2. split; [reflexivity|].
  cbn. repeat split; congruence.
Qed.

Lemma peek_and_return_calls (dec : GstLibde265Dec) (c : Ctx) (log : list call) :
  exists rest,
    calls (peek_and_return dec c log) = log ++ Peek_next_picture :: rest /\
    count is_Get_warning rest = 0%nat /\
    count is_Push_data rest = 0%nat /\
    ctx (dec_after (peek_and_return dec c log)) = ctx dec /\
    buffer_full (dec_after (peek_and_return dec c log)) = buffer_full dec.
Proof.
  unfold peek_and_return.
  destruct (de265_peek_next_picture c) as [img|].
  - pose proof (image_available_calls dec img) as (Hpush & Hwarn & _ & _).
    pose proof (image_available_keeps dec img) as (Hc & Hb & _).
    destruct (_gst_libde265_image_available dec img) as [dec' calls'].
    exists calls'. repeat split; assumption.
  - exists []. repeat split; reflexivity.
Qed.

Lemma push_and_decode_calls (c c2 : Ctx) (data : list byte) (size : Z)
    (ret : de265_error) (log2 : list call) :
  push_and_decode c data size = (ret, c2, log2) ->
  count is_Get_warning log2 = 0%nat /\
  count is_frame log2 = 0%nat /\
  hd_error log2 = Some (Push_data data (CInt.to_int size)).
Proof.
  unfold push_and_decode. destruct (de265_push_data c data (CInt.to_int size)) as [r c1].
  destruct (is_DE265_OK r).
  - destruct (de265_decode c1) as [r2 c3]. intros [= <- <- <-].
    repeat split; reflexivity.
  - intros [= <- <- <-]. repeat split; reflexivity.
Qed.

(** C2, as the code has it: the warning queue is emptied, one report per
    warning, after a feed that returned [DE265_OK] and before the picture
    queue is looked at; after a feed that returned the buffer-full or the
    waiting-for-input code, or an error, the cycle returns without a single
    [de265_get_warning], the engine left as the feed left it. *)
Theorem warnings_drained_after_ok (dec : GstLibde265Dec) (c c2 : Ctx)
    (adapter frame_data : list byte) (markers : list Z)
    (ret : de265_error) (log2 : list call) :
  ctx dec = Some c ->
  (buffer_full dec = true -> de265_peek_next_picture c = None) ->
  adapter <> [] ->
  reframe (mode dec) adapter = Reframed frame_data markers ->
  push_and_decode c frame_data (size_of adapter) = (ret, c2, log2) ->
  let before :=
    (if buffer_full dec then [Peek_next_picture] else [])
    ++ Take_buffer (size_of adapter) :: log2 in
  count is_Get_warning before = 0%nat /\
  match ret with
  | DE265_OK =>
      forall fuel, (length (queued_warnings c2) < fuel)%nat ->
      exists out c3 rest,
        parse fuel dec adapter true = Returned out /\
        calls out =
          before ++ warning_calls (queued_warnings c2)
          ++ Peek_next_picture :: rest /\
        count is_Get_warning rest = 0%nat /\
        ctx (dec_after out) = Some c3 /\
        queued_warnings c3 = []
  | _ =>
      forall fuel,
      exists out,
        parse fuel dec adapter true = Returned out /\
        count is_Get_warning (calls out) = 0%nat /\
        ctx (dec_after out) = Some c2
  end.
Proof.
  intros Hctx Hpeek Hdata Hframe Hfeed before.
  destruct (push_and_decode_calls _ _ _ _ _ _ Hfeed) as (Hlog2 & _ & _).
  assert (Hbefore : count is_Get_warning before = 0%nat).
  { subst before. rewrite count_app.
    change (Take_buffer (size_of adapter) :: log2)
      with ([Take_buffer (size_of adapter)] ++ log2).
    rewrite count_app, Hlog2. destruct (buffer_full dec); reflexivity. }
  split; [exact Hbefore|].
  set (dec0 := if buffer_full dec then set_buffer_full dec false else dec).
  pose proof (fun fuel =>
    parse_feeds HAVE_DE265_ERROR_WAITING_FOR_INPUT_DATA fuel dec c c2 adapter
      frame_data markers ret log2 Hctx Hpeek Hdata Hframe Hfeed) as Hfeed'.
  cbv zeta in Hfeed'. fold dec0 before in Hfeed'.
  destruct ret.
  - intros fuel Hfuel. rewrite Hfeed'.
    destruct (get_warnings_drains fuel c2 Hfuel) as (c3 & Hrun & Hempty).
    rewrite Hrun.
    destruct (peek_and_return_calls (set_ctx (set_ctx dec0 (Some c2)) (Some c3)) c3
                (before ++ warning_calls (queued_warnings c2)))
      as (rest & Hcalls & Hrest & _ & Hc & _).
    eexists _, c3, rest. split; [reflexivity|].
    rewrite Hcalls, <- app_assoc. repeat split; assumption.
  - intros fuel. rewrite Hfeed'.
    destruct (peek_and_return_calls (set_buffer_full (set_ctx dec0 (Some c2)) true) c2 before)
      as (rest & Hcalls & Hrest & _ & Hc & _).
    eexists. split; [reflexivity|]. rewrite Hcalls, Hc.
    split; [|reflexivity].
    change (Peek_next_picture :: rest) with ([Peek_next_picture] ++ rest).
    rewrite !count_app, Hbefore, Hrest. reflexivity.
  - intros fuel. rewrite Hfeed'.
    destruct HAVE_DE265_ERROR_WAITING_FOR_INPUT_DATA;
      (eexists; split; [reflexivity|]; cbn [calls dec_after]; split; [|reflexivity]).
    + exact Hbefore.
    + rewrite count_app, Hbefore. reflexivity.
  - intros fuel. rewrite Hfeed'.
    eexists. split; [reflexivity|]. cbn [calls dec_after]. split; [|reflexivity].
    rewrite count_app, Hbefore. reflexivity.
Qed.

Lemma count_zero (p : call -> bool) (log : list call) :
  Forall (fun c => p c = false) log -> count p log = 0%nat.
Proof.
  induction 1 as [|c l Hc _ IH]; [reflexivity|].
  unfold count in *. rewrite filter_cons.
  destruct (decide (p c = true)); [congruence|exact IH].
Qed.

(** X28: when complete records, each with a length the element's [int]
    holds, are followed by 1 to 3 more bytes, the walk stops at the first of
    these bytes, no overflow is reported, and the buffer pushed to the
    engine has the size of the original, a start code for each length
    field, and the trailing bytes as they were; the length pushed is the
    size of the buffer as an [int]. *)
Theorem trailing_bytes_are_fed (dec : GstLibde265Dec) (c : Ctx)
    (payloads : list (list byte)) (tail : list byte) :
  ctx dec = Some c ->
  mode dec = GST_TYPE_LIBDE265_DEC_PACKETIZED ->
  (buffer_full dec = true -> de265_peek_next_picture c = None) ->
  Forall fits_int payloads ->
  1 <= size_of tail <= 3 ->
  let buf := packetized payloads ++ tail in
  let fed := start_coded payloads ++ tail in
  replace_length_fields (walk_fuel buf) buf 0 [] =
    WalkExit (size_of (packetized payloads)) fed (record_offsets 0 payloads) /\
  size_of buf - 4 < size_of (packetized payloads) < size_of buf /\
  length fed = length buf /\
  drop (length (packetized payloads)) fed = tail /\
  drop (length (packetized payloads)) buf = tail /\
  (forall fuel out,
     parse fuel dec buf true = Returned out ->
     count is_overflow_error (calls out) = 0%nat /\
     exists after,
       calls out =
         (if buffer_full dec then [Peek_next_picture] else [])
         ++ Take_buffer (size_of buf) :: Push_data fed (CInt.to_int (size_of buf)) :: after) /\
  (exists fuel0, forall fuel, (fuel0 <= fuel)%nat ->
     exists out, parse fuel dec buf true = Returned out).
Proof.
  intros Hctx Hmode Hpeek Hfit Htail buf fed.
  assert (Hwalk := walk_over_records payloads tail Hfit ltac:(lia)).
  assert (Hre := reframe_records payloads tail Hfit ltac:(lia)).
  fold buf fed in Hwalk, Hre.
  assert (Hlen : length fed = length buf).
  { subst fed buf. rewrite !length_app.
    pose proof (size_of_start_coded payloads) as Hs. unfold size_of in Hs. lia. }
  assert (Hsize : size_of buf = size_of (packetized payloads) + size_of tail)
    by (subst buf; apply size_of_app).
  split; [exact Hwalk|]. split; [lia|]. split; [exact Hlen|].
  split.
  { subst fed. rewrite drop_app_length'; [reflexivity|].
    pose proof (size_of_start_coded payloads) as Hs. unfold size_of in Hs. lia. }
  split; [subst buf; apply drop_app_length|].
  assert (Hdata : buf <> []).
  { intros Hnil. rewrite Hnil in Hsize. change (size_of []) with 0 in Hsize.
    pose proof (size_of_nonneg (packetized payloads)). lia. }
  rewrite <- Hmode in Hre.
  destruct (push_and_decode c fed (size_of buf)) as [[ret c2] log2] eqn:Hfeed.
  pose proof (fun fuel =>
    parse_feeds HAVE_DE265_ERROR_WAITING_FOR_INPUT_DATA fuel dec c c2 buf fed _ ret log2
      Hctx Hpeek Hdata Hre Hfeed) as Hparse.
  cbv zeta in Hparse.
  set (dec0 := if buffer_full dec then set_buffer_full dec false else dec) in Hparse.
  set (prefix := if buffer_full dec then [Peek_next_picture] else []) in *.
  assert (Hprefix : Forall (fun c => is_overflow_error c = false) prefix)
    by (subst prefix; destruct (buffer_full dec); repeat constructor).
  assert (Hlog2 : exists more, log2 = Push_data fed (CInt.to_int (size_of buf)) :: more /\
                               Forall (fun c => is_overflow_error c = false) more).
  { revert Hfeed. unfold push_and_decode.
    destruct (de265_push_data c fed (CInt.to_int (size_of buf))) as [r c1].
    destruct (is_DE265_OK r); [destruct (de265_decode c1) as [r2 c3]|];
      intros [= <- <- <-]; eexists; (split; [reflexivity|]); repeat constructor. }
  destruct Hlog2 as (more & -> & Hmore).
  assert (Hbefore : Forall (fun c => is_overflow_error c = false)
            (prefix ++ Take_buffer (size_of buf) :: Push_data fed (CInt.to_int (size_of buf)) :: more)).
  { apply Forall_app. split; [assumption|]. repeat constructor. assumption. }
  split.
  - intros fuel out. rewrite Hparse. clear Hparse.
    destruct ret.
    + destruct (get_warnings fuel c2) as [[c3 log3]|] eqn:Hrun; [|discriminate].
      intros [= <-].
      pose proof (get_warnings_calls (fun c => is_overflow_error c = false)
                    eq_refl (fun _ => eq_refl) _ _ _ _ Hrun) as Hlog3.
      destruct (peek_and_return_tail (fun c => is_overflow_error c = false)
                  (set_ctx (set_ctx dec0 (Some c2)) (Some c3)) c3
                  ((prefix ++ Take_buffer (size_of buf)
                           :: Push_data fed (CInt.to_int (size_of buf)) :: more) ++ log3))
        as (rest & -> & Hrest); try reflexivity.
      split.
      * apply count_zero. rewrite !Forall_app.
        repeat split; first [assumption | repeat constructor; assumption].
      * exists (more ++ log3 ++ rest). rewrite <- !app_assoc. reflexivity.
    + intros [= <-].
      destruct (peek_and_return_tail (fun c => is_overflow_error c = false)
                  (set_buffer_full (set_ctx dec0 (Some c2)) true) c2
                  (prefix ++ Take_buffer (size_of buf)
                          :: Push_data fed (CInt.to_int (size_of buf)) :: more))
        as (rest & -> & Hrest); try reflexivity.
      split.
      * apply count_zero. rewrite !Forall_app.
        repeat split; first [assumption | repeat constructor; assumption].
      * exists (more ++ rest). rewrite <- !app_assoc. reflexivity.
    + destruct HAVE_DE265_ERROR_WAITING_FOR_INPUT_DATA; intros [= <-]; cbn [calls]; split.
      * apply count_zero. assumption.
      * exists more. reflexivity.
      * apply count_zero. apply Forall_app. split; [assumption|repeat constructor].
      * eexists (more ++ _). rewrite <- !app_assoc. reflexivity.
    + intros [= <-]. cbn [calls]. split.
      * apply count_zero. apply Forall_app. split; [assumption|repeat constructor].
      * eexists (more ++ _). rewrite <- !app_assoc. reflexivity.
  - exists (S (length (queued_warnings c2))). intros fuel Hfuel. rewrite Hparse.
    destruct ret; try (eexists; reflexivity).
    + destruct (get_warnings_drains fuel c2) as (c3 & -> & _); [lia|].
      eexists. reflexivity.
    + destruct HAVE_DE265_ERROR_WAITING_FOR_INPUT_DATA; eexists; reflexivity.
Qed.

End Queues.

(** ** Assembling the output frame *)

Section Assembly.

Context {Ctx Image : Type} `{!Engine Ctx Image}.

Lemma size_of_take (n : Z) (l : list byte) :
  0 <= n <= size_of l -> size_of (take (Z.to_nat n) l) = n.
Proof. unfold size_of. intros Hn. rewrite length_take. lia. Qed.

(** A copy right behind what has been written so far. *)
Lemma memcpy_appends_from (pre out src : list byte) (soff n : Z) :
  0 <= n -> 0 <= soff -> soff + n <= size_of src ->
  size_of pre + n <= size_of out ->
  memcpy (pre ++ drop (Z.to_nat (size_of pre)) out) (size_of pre) src soff n =
  Some ((pre ++ take (Z.to_nat n) (drop (Z.to_nat soff) src))
        ++ drop (Z.to_nat (size_of pre + n)) out).
Proof.
  intros Hn Hsoff Hsrc Hout. unfold memcpy.
  pose proof (size_of_nonneg pre) as Hpre.
  assert (Hsize : size_of (pre ++ drop (Z.to_nat (size_of pre)) out) = size_of out).
  { rewrite size_of_app. unfold size_of in *. rewrite length_drop. lia. }
  rewrite Hsize.
  destruct (0 <=? n) eqn:H1; [|apply Z.leb_gt in H1; lia].
  destruct (0 <=? soff) eqn:H2; [|apply Z.leb_gt in H2; lia].
  destruct (soff + n <=? size_of src) eqn:H3; [|apply Z.leb_gt in H3; lia].
  destruct (0 <=? size_of pre) eqn:H4; [|apply Z.leb_gt in H4; lia].
  destruct (size_of pre + n <=? size_of out) eqn:H5; [|apply Z.leb_gt in H5; lia].
  cbn [andb]. f_equal.
  unfold size_of at 1. rewrite Nat2Z.id, take_app_length.
  rewrite <- app_assoc. do 2 f_equal.
  replace (Z.to_nat (size_of pre + n)) with (length pre + Z.to_nat n)%nat
    by (unfold size_of; lia).
  rewrite drop_app_add. unfold size_of. rewrite Nat2Z.id, drop_drop. reflexivity.
Qed.

Lemma memcpy_appends (pre out src : list byte) (n : Z) :
  0 <= n <= size_of src ->
  size_of pre + n <= size_of out ->
  memcpy (pre ++ drop (Z.to_nat (size_of pre)) out) (size_of pre) src 0 n =
  Some ((pre ++ take (Z.to_nat n) src) ++ drop (Z.to_nat (size_of pre + n)) out).
Proof.
  intros Hn Hout. rewrite memcpy_appends_from by lia.
  change (Z.to_nat 0) with 0%nat. rewrite drop_0. reflexivity.
Qed.

(** With equal stride and width the rows of a plane follow one another. *)
Lemma packed_plane_contiguous (memory : list byte) (w h : Z) :
  0 <= w -> 0 <= h ->
  packed_plane memory w w h = take (Z.to_nat (h * w)) memory.
Proof.
  intros Hw Hh. unfold packed_plane.
  replace (Z.to_nat (h * w)) with (Z.to_nat h * Z.to_nat w)%nat by nia.
  induction (Z.to_nat h) as [|k IH]; [reflexivity|].
  rewrite seq_S, map_app, join_app, IH. cbn [map mjoin list_join Nat.add].
  rewrite app_nil_r.
  replace (Z.to_nat (Z.of_nat k * w)) with (k * Z.to_nat w)%nat by nia.
  rewrite take_take_drop. f_equal. lia.
Qed.

Lemma size_of_packed_plane (src : list byte) (src_stride w h : Z) :
  0 <= w <= src_stride -> 0 <= h ->
  h * src_stride <= size_of src ->
  size_of (packed_plane src src_stride w h) = h * w.
Proof.
  intros Hw Hh Hsrc. unfold packed_plane.
  assert (Hrows : forall rows : nat,
    Z.of_nat rows <= h ->
    size_of (mjoin (map (fun row : nat =>
                           take (Z.to_nat w)
                             (drop (Z.to_nat (Z.of_nat row * src_stride)) src))
                        (seq 0 rows))) = Z.of_nat rows * w).
  { induction rows as [|rows IH]; intros Hle; [reflexivity|].
    rewrite seq_S, map_app, join_app, size_of_app, IH by lia.
    cbn [map mjoin list_join Nat.add]. rewrite app_nil_r.
    unfold size_of in *. rewrite length_take, length_drop. nia. }
  rewrite Hrows by lia. lia.
Qed.

(** The rows a loop of the VP8 element copies, one behind the other. *)
Lemma copy_rows_appends (src out : list byte) (offset : Z -> Z) (src_stride n : Z)
    (rows : nat) :
  forall (i : Z) (pre : list byte),
    0 <= n -> 0 <= i ->
    (forall k, 0 <= k < Z.of_nat rows ->
       offset (i + k) = size_of pre + k * n /\
       CInt.mul (i + k) src_stride = (i + k) * src_stride /\
       0 <= (i + k) * src_stride /\
       (i + k) * src_stride + n <= size_of src) ->
    size_of pre + Z.of_nat rows * n <= size_of out ->
    VP8.copy_rows rows i (pre ++ drop (Z.to_nat (size_of pre)) out) offset src src_stride n =
    Some ((pre ++ mjoin (map (fun row : nat =>
                                take (Z.to_nat n)
                                  (drop (Z.to_nat ((i + Z.of_nat row) * src_stride)) src))
                             (seq 0 rows)))
          ++ drop (Z.to_nat (size_of pre + Z.of_nat rows * n)) out).
Proof.
  induction rows as [|rows IH]; intros i pre Hn Hi Hrow Hout.
  - cbn [VP8.copy_rows seq map mjoin list_join]. rewrite app_nil_r.
    do 3 f_equal. lia.
  - cbn [VP8.copy_rows].
    destruct (Hrow 0 ltac:(lia)) as (Hoff & Hmul & Hlow & Hhigh).
    rewrite Z.add_0_r in Hoff, Hmul, Hlow, Hhigh.
    rewrite Hoff, Hmul, Z.mul_0_l, Z.add_0_r.
    rewrite memcpy_appends_from by lia.
    set (pre' := pre ++ take (Z.to_nat n) (drop (Z.to_nat (i * src_stride)) src)).
    assert (Hpre' : size_of pre' = size_of pre + n).
    { subst pre'. rewrite size_of_app. unfold size_of. rewrite length_take, length_drop.
      unfold size_of in Hhigh. lia. }
    rewrite <- Hpre'. rewrite IH; try lia.
    + assert (Hrows :
        mjoin (map (fun row : nat =>
                      take (Z.to_nat n)
                        (drop (Z.to_nat ((i + Z.of_nat row) * src_stride)) src))
                   (seq 0 (S rows))) =
        take (Z.to_nat n) (drop (Z.to_nat (i * src_stride)) src)
        ++ mjoin (map (fun row : nat =>
                         take (Z.to_nat n)
                           (drop (Z.to_nat ((i + 1 + Z.of_nat row) * src_stride)) src))
                      (seq 0 rows))).
      { cbn [seq map]. rewrite <- seq_shift, map_map. cbn [mjoin list_join].
        rewrite Z.add_0_r. f_equal. f_equal.
        apply map_ext. intros row. do 3 f_equal. lia. }
      rewrite Hrows, Hpre'. subst pre'. rewrite <- !app_assoc.
      replace (size_of pre + n + Z.of_nat rows * n)
        with (size_of pre + Z.of_nat (S rows) * n) by lia.
      reflexivity.
    + intros k Hk. destruct (Hrow (k + 1) ltac:(lia)) as (Hoff' & Hmul' & Hlow' & Hhigh').
      replace (i + 1 + k) with (i + (k + 1)) by lia.
      repeat split; try assumption. lia.
Qed.

Lemma copy_rows_packs (src out pre : list byte) (offset : Z -> Z)
    (src_stride w h : Z) :
  0 <= w <= src_stride -> 0 <= h ->
  h * src_stride <= CInt.INT_MAX ->
  h * src_stride <= size_of src ->
  (forall k, 0 <= k < h -> offset k = size_of pre + k * w) ->
  size_of pre + h * w <= size_of out ->
  VP8.copy_rows (Z.to_nat h) 0 (pre ++ drop (Z.to_nat (size_of pre)) out)
    offset src src_stride w =
  Some ((pre ++ packed_plane src src_stride w h)
        ++ drop (Z.to_nat (size_of pre + h * w)) out).
Proof.
  intros Hw Hh Hmax Hsrc Hoff Hout. unfold CInt.INT_MAX in Hmax.
  rewrite copy_rows_appends; try lia.
  - rewrite Z2Nat.id by lia. reflexivity.
  - intros k Hk. rewrite Z2Nat.id in Hk by lia. rewrite Z.add_0_l.
    split; [apply Hoff; lia|].
    split; [unfold CInt.mul; apply to_int_small; nia|]. nia.
Qed.

(** The VP8 element copies row by row, [width] bytes of a luma row and
    [width / 2] of a chroma row: for even width and height the output is the
    tightly packed frame whatever the strides of the image. *)
Lemma vp8_rows_are_packed (w h : Z) (img : VP8.vpx_image_t) (out : list byte) :
  0 <= w -> 0 <= h -> Z.even w = true -> Z.even h = true ->
  w <= VP8.stride img 0 -> w / 2 <= VP8.stride img 1 -> w / 2 <= VP8.stride img 2 ->
  h * VP8.stride img 0 <= CInt.INT_MAX ->
  h / 2 * VP8.stride img 1 <= CInt.INT_MAX ->
  h / 2 * VP8.stride img 2 <= CInt.INT_MAX ->
  h * VP8.stride img 0 <= size_of (VP8.planes img 0) ->
  h / 2 * VP8.stride img 1 <= size_of (VP8.planes img 1) ->
  h / 2 * VP8.stride img 2 <= size_of (VP8.planes img 2) ->
  w * h + 2 * (w / 2 * (h / 2)) <= size_of out ->
  VP8.copy_image w h img out =
  Some (packed_plane (VP8.planes img 0) (VP8.stride img 0) w h
        ++ packed_plane (VP8.planes img 1) (VP8.stride img 1) (w / 2) (h / 2)
        ++ packed_plane (VP8.planes img 2) (VP8.stride img 2) (w / 2) (h / 2)
        ++ drop (Z.to_nat (w * h + 2 * (w / 2 * (h / 2)))) out).
Proof.
  intros Hw Hh Hwe Hhe Hs0 Hs1 Hs2 Hm0 Hm1 Hm2 Hp0 Hp1 Hp2 Hout.
  unfold CInt.INT_MAX in *.
  apply Z.even_spec in Hwe, Hhe. destruct Hwe as [w2 ->]. destruct Hhe as [h2 ->].
  rewrite !(Z.mul_comm 2), !Z.div_mul in * by lia.
  assert (Hq : forall x, 0 <= x -> Z.quot (x * 2) 2 = x).
  { intros x Hx. rewrite Z.quot_div_nonneg by lia. apply Z.div_mul. lia. }
  assert (Hwh : CInt.mul (w2 * 2) (h2 * 2) = w2 * 2 * (h2 * 2))
    by (unfold CInt.mul; apply to_int_small; nia).
  unfold VP8.copy_image. rewrite Hwh, !Hq by lia.
  assert (Hnn : 0 <= w2 * h2) by nia.
  pose proof (copy_rows_packs (VP8.planes img 0) out [] (fun i => CInt.mul i (w2 * 2))
                (VP8.stride img 0) (w2 * 2) (h2 * 2)) as R0.
  change (size_of []) with 0 in R0. change (Z.to_nat 0) with 0%nat in R0.
  rewrite drop_0 in R0. cbn [app] in R0.
  rewrite R0 by
    first [unfold CInt.INT_MAX; nia
          | intros k Hk; unfold CInt.mul; rewrite to_int_small by nia; lia].
  clear R0. rewrite Z.add_0_l.
  set (luma := packed_plane (VP8.planes img 0) (VP8.stride img 0) (w2 * 2) (h2 * 2)).
  assert (Hluma : size_of luma = h2 * 2 * (w2 * 2))
    by (apply size_of_packed_plane; lia).
  replace (luma ++ drop (Z.to_nat (h2 * 2 * (w2 * 2))) out)
    with (luma ++ drop (Z.to_nat (size_of luma)) out) by (rewrite Hluma; reflexivity).
  assert (Hrow : forall k, 0 <= k < h2 -> Z.quot (CInt.mul k (w2 * 2)) 2 = k * w2).
  { intros k Hk.
    assert (0 <= k * w2 <= h2 * w2) by nia.
    assert (h2 * w2 * 2 <= h2 * 2 * VP8.stride img 0) by nia.
    unfold CInt.mul. rewrite to_int_small by nia.
    rewrite Z.mul_assoc. apply Hq. lia. }
  rewrite (copy_rows_packs (VP8.planes img 1) out luma) by
    first [unfold CInt.INT_MAX; nia | intros k Hk; rewrite Hrow by lia; nia].
  set (cb := packed_plane (VP8.planes img 1) (VP8.stride img 1) w2 h2).
  assert (Hcb : size_of cb = h2 * w2) by (apply size_of_packed_plane; lia).
  replace (size_of luma + h2 * w2) with (size_of (luma ++ cb))
    by (rewrite size_of_app; lia).
  assert (Hquarter : Z.quot (w2 * 2 * (h2 * 2)) 4 = w2 * h2).
  { replace (w2 * 2 * (h2 * 2)) with (w2 * h2 * 4) by lia.
    rewrite Z.quot_div_nonneg by nia. apply Z.div_mul. lia. }
  rewrite (copy_rows_packs (VP8.planes img 2) out (luma ++ cb)) by
    first [rewrite size_of_app; nia
          | unfold CInt.INT_MAX; nia
          | intros k Hk; rewrite Hrow, Hquarter by lia;
            rewrite size_of_app, Hluma, Hcb; nia].
  rewrite size_of_app, Hluma, Hcb, <- !app_assoc. do 5 f_equal. nia.
Qed.

(** X29: when the [height * stride] bytes of each plane lie in its memory
    and the three together fit the output buffer, the planes are copied in
    the order 0, 1, 2, each as its first [height * stride] bytes, one right
    behind the other from the start of the output buffer, whose remaining
    bytes stay; the frame handed on is this concatenation, row padding
    included.  It is the tightly packed frame when the stride of each plane
    equals its width. *)
Theorem planes_are_copied_whole (dec : GstLibde265Dec) (c c' : Ctx)
    (img : Image) (out : list byte) :
  ctx dec = Some c ->
  de265_get_next_picture c = (Some img, c') ->
  Forall (fun plane =>
            0 <= plane_bytes img plane
              <= size_of (fst (de265_get_image_plane img plane))) [0; 1; 2] ->
  plane_bytes img 0 + plane_bytes img 1 + plane_bytes img 2 <= size_of out ->
  let total := plane_bytes img 0 + plane_bytes img 1 + plane_bytes img 2 in
  let frame := whole_plane img 0 ++ whole_plane img 1 ++ whole_plane img 2 in
  copy_planes [0; 1; 2] img out 0 =
    Returned (frame ++ drop (Z.to_nat total) out, total) /\
  gst_libde265_dec_handle_frame dec (Some out) true =
    Returned {| handle_flow := Return_finish_frame;
                handle_dec := set_ctx dec (Some c');
                handle_calls :=
                  [Get_next_picture; Allocate_output_frame;
                   Finish_frame (frame ++ drop (Z.to_nat total) out)] |} /\
  size_of frame = total /\
  (Forall (fun plane =>
             snd (de265_get_image_plane img plane) = de265_get_image_width img plane /\
             0 <= de265_get_image_width img plane /\
             0 <= de265_get_image_height img plane /\
             de265_get_image_height img plane * de265_get_image_width img plane
               <= CInt.INT_MAX) [0; 1; 2] ->
   frame = packed_frame img).
Proof.
  intros Hctx Hnext Hfit Hout total frame.
  inversion Hfit as [|? ? H0 Hfit1]; subst.
  inversion Hfit1 as [|? ? H1 Hfit2]; subst.
  inversion Hfit2 as [|? ? H2 _]; subst. clear Hfit1 Hfit2.
  assert (Hs0 : size_of (whole_plane img 0) = plane_bytes img 0)
    by (apply size_of_take; assumption).
  assert (Hs1 : size_of (whole_plane img 1) = plane_bytes img 1)
    by (apply size_of_take; assumption).
  assert (Hs2 : size_of (whole_plane img 2) = plane_bytes img 2)
    by (apply size_of_take; assumption).
  assert (Hcopy : copy_planes [0; 1; 2] img out 0 =
                  Returned (frame ++ drop (Z.to_nat total) out, total)).
  { destruct (de265_get_image_plane img 0) as [m0 s0] eqn:E0.
    destruct (de265_get_image_plane img 1) as [m1 s1] eqn:E1.
    destruct (de265_get_image_plane img 2) as [m2 s2] eqn:E2.
    cbn [fst] in H0, H1, H2.
    assert (P0 : CInt.mul (de265_get_image_height img 0) s0 = plane_bytes img 0)
      by (unfold plane_bytes; rewrite E0; reflexivity).
    assert (P1 : CInt.mul (de265_get_image_height img 1) s1 = plane_bytes img 1)
      by (unfold plane_bytes; rewrite E1; reflexivity).
    assert (P2 : CInt.mul (de265_get_image_height img 2) s2 = plane_bytes img 2)
      by (unfold plane_bytes; rewrite E2; reflexivity).
    cbn [copy_planes]. rewrite E0, E1, E2, P0, P1, P2.
    assert (W0 : whole_plane img 0 = take (Z.to_nat (plane_bytes img 0)) m0)
      by (unfold whole_plane; rewrite E0; reflexivity).
    assert (W1 : whole_plane img 1 = take (Z.to_nat (plane_bytes img 1)) m1)
      by (unfold whole_plane; rewrite E1; reflexivity).
    assert (W2 : whole_plane img 2 = take (Z.to_nat (plane_bytes img 2)) m2)
      by (unfold whole_plane; rewrite E2; reflexivity).
    pose proof (memcpy_appends [] out m0 (plane_bytes img 0) H0) as M0.
    change (size_of []) with 0 in M0. rewrite !Z.add_0_l in M0.
    change (Z.to_nat 0) with 0%nat in M0. rewrite drop_0 in M0. cbn [app] in M0.
    rewrite M0 by lia. rewrite <- W0. clear M0.
    pose proof (memcpy_appends (whole_plane img 0) out m1 (plane_bytes img 1) H1) as M1.
    rewrite Hs0 in M1. rewrite Z.add_0_l, M1 by lia. rewrite <- W1. clear M1.
    pose proof (memcpy_appends (whole_plane img 0 ++ whole_plane img 1) out m2
                  (plane_bytes img 2) H2) as M2.
    rewrite size_of_app, Hs0, Hs1 in M2. rewrite M2 by lia. rewrite <- W2.
    subst frame total. rewrite <- !app_assoc. reflexivity. }
  split; [exact Hcopy|]. split.
  { unfold gst_libde265_dec_handle_frame, with_ctx. rewrite Hctx, Hnext. cbn [negb].
    rewrite Hcopy. reflexivity. }
  split; [subst frame total; rewrite !size_of_app; lia|].
  intros Htight.
  inversion Htight as [|? ? (T0 & T0w & T0h & T0m) Htight1]; subst.
  inversion Htight1 as [|? ? (T1 & T1w & T1h & T1m) Htight2]; subst.
  inversion Htight2 as [|? ? (T2 & T2w & T2h & T2m) _]; subst.
  subst frame. unfold packed_frame. cbn [map mjoin list_join]. rewrite app_nil_r.
  unfold whole_plane, plane_bytes, CInt.mul, CInt.INT_MAX in *.
  rewrite T0, T1, T2.
  rewrite !to_int_small by nia.
  rewrite !packed_plane_contiguous by assumption. reflexivity.
Qed.

End Assembly.

(** A 2 x 2 picture whose strides equal the widths is assembled into its
    six bytes. *)
Example packed_when_strides_match :
  copy_planes [0; 1; 2] (Stub.make_image 2 2 2) (replicate 6 Byte.x00) 0 =
  Returned (packed_frame (Stub.make_image 2 2 2), 6).
Proof. vm_compute. reflexivity. Qed.

(** The rows of a 4 x 2 VP8 image with padded rows, copied into 12 bytes. *)
Example vp8_drops_the_padding :
  VP8.copy_image 4 2
    {| VP8.planes := fun p =>
         Stub.plane_memory
           (Stub.plane_of (Stub.make_image 4 2 8) p);
       VP8.stride := fun p => if p =? 0 then 8 else 4 |}
    (replicate 12 Byte.x00) =
  Some (packed_frame (Stub.make_image 4 2 8)).
Proof. vm_compute. reflexivity. Qed.


(** ** The cycle on the scripted engine *)

(** When the element's own walk ends past [end_data], the cycle reports the
    overflow and returns an error with nothing pushed. *)
Lemma overflow_is_reported {Ctx Image : Type} `{!Engine Ctx Image}
    (have_waiting : bool) (fuel : nat) (dec : GstLibde265Dec)
    (buf buf' : list byte) (start_data : Z) :
  buffer_full dec = false ->
  buf <> [] ->
  reframe (mode dec) buf = Overflow buf' start_data ->
  gst_libde265_dec_parse have_waiting fuel dec buf true =
  Returned {| flow := GST_FLOW_ERROR; dec_after := dec; adapter_after := [];
              calls := [Take_buffer (size_of buf);
                        Element_error Overflow_in_input_data] |}.
Proof.
  intros Hfull Hdata Hre.
  unfold gst_libde265_dec_parse, parse_feed. rewrite Hfull, Hre.
  assert (Hsize : (size_of buf =? 0) = false).
  { apply Z.eqb_neq. unfold size_of. destruct buf; [congruence|simpl; lia]. }
  rewrite Hsize. reflexivity.
Qed.

(** X3: a record that announces more than the buffer has left, after
    complete records and with every length in the range of [int], is
    reported as an overflow: the chunk is consumed, nothing is pushed, and
    the element is left as it was. *)
Lemma overrun_is_reported {Ctx Image : Type} `{!Engine Ctx Image}
    (have_waiting : bool) (fuel : nat) (dec : GstLibde265Dec)
    (payloads : list (list byte)) (L : Z) (rest : list byte) :
  mode dec = GST_TYPE_LIBDE265_DEC_PACKETIZED ->
  buffer_full dec = false ->
  Forall fits_int payloads ->
  0 <= L -> 4 + L <= CInt.INT_MAX ->
  size_of rest < L ->
  let buf := packetized payloads ++ be32 L ++ rest in
  gst_libde265_dec_parse have_waiting fuel dec buf true =
  Returned {| flow := GST_FLOW_ERROR; dec_after := dec; adapter_after := [];
              calls := [Take_buffer (size_of buf);
                        Element_error Overflow_in_input_data] |}.
Proof.
  intros Hmode Hfull Hfit HL0 HL Hrest buf.
  destruct (reframe_overrun payloads L rest Hfit HL0 HL Hrest) as (buf' & Hre).
  fold buf in Hre. rewrite <- Hmode in Hre.
  apply (overflow_is_reported have_waiting fuel dec buf buf'
           (size_of (packetized payloads) + 4 + L) Hfull); [|exact Hre].
  intros Hnil. apply (f_equal size_of) in Hnil. subst buf.
  rewrite !size_of_app in Hnil. change (size_of (be32 L)) with 4 in Hnil.
  change (size_of []) with 0 in Hnil.
  pose proof (size_of_nonneg (packetized payloads)). pose proof (size_of_nonneg rest).
  lia.
Qed.

(** A walk that leaves the buffer is where the cycle leaves defined
    behaviour: nothing is pushed and nothing is returned. *)
Lemma walk_out_of_bounds_is_undefined {Ctx Image : Type} `{!Engine Ctx Image}
    (have_waiting : bool) (fuel : nat) (dec : GstLibde265Dec)
    (buf : list byte) (offset : Z) :
  buffer_full dec = false ->
  buf <> [] ->
  reframe (mode dec) buf = Reframe_undefined offset ->
  gst_libde265_dec_parse have_waiting fuel dec buf true =
  Undefined_behaviour (Out_of_bounds offset).
Proof.
  intros Hfull Hdata Hre.
  unfold gst_libde265_dec_parse, parse_feed. rewrite Hfull, Hre.
  assert (Hsize : (size_of buf =? 0) = false).
  { apply Z.eqb_neq. unfold size_of. destruct buf; [congruence|simpl; lia]. }
  rewrite Hsize. reflexivity.
Qed.

(** C4 on the code: one record of 2 GiB tiles a buffer of 4 + 2^31 bytes and
    has a length that fits its 4-byte field.  The element reads the field
    80 00 00 00 into its [int] as -2^31 and moves the pointer to 4 - 2^31,
    before the buffer, where the loop condition still holds: the buffer is
    not reframed, and the next iteration reads and writes outside it. *)
Theorem huge_record_is_not_reframed :
  Forall fits_length_field [huge_payload] /\
  size_of (packetized [huge_payload]) = 4 + 2 ^ 31 /\
  READ_BE32 (packetized [huge_payload]) 0 = 2 ^ 31 /\
  CInt.to_int (2 ^ 31) = - 2 ^ 31 /\
  reframe GST_TYPE_LIBDE265_DEC_PACKETIZED (packetized [huge_payload]) =
    Reframe_undefined (4 - 2 ^ 31) /\
  ~ reframed_in_place [huge_payload] /\
  gst_libde265_dec_parse true 1 (stub_dec Stub.empty) (packetized [huge_payload]) true =
    Undefined_behaviour (Out_of_bounds (4 - 2 ^ 31)).
Proof.
  pose proof size_of_huge_payload as Hsize.
  pose proof (huge_record_alone huge_payload Hsize) as Hre.
  assert (Hbuf : size_of (packetized [huge_payload]) = 4 + 2 ^ 31).
  { rewrite size_of_packetized_cons, Hsize. change (size_of (packetized [])) with 0. lia. }
  split.
  { constructor; [|constructor]. unfold fits_length_field. rewrite Hsize. lia. }
  split; [exact Hbuf|]. split.
  { change (packetized [huge_payload]) with (record huge_payload ++ []).
    unfold record. rewrite Hsize, <- app_assoc. apply READ_BE32_be32. lia. }
  split; [reflexivity|]. split; [exact Hre|]. split.
  { intros (out & markers & Hre' & _). rewrite Hre in Hre'. discriminate. }
  apply walk_out_of_bounds_is_undefined; [reflexivity| |exact Hre].
  intros Hnil. rewrite Hnil in Hbuf. change (size_of []) with 0 in Hbuf. lia.
Qed.

(** C5 on the code: a 2 x 2 picture whose luma rows are 4 bytes apart and
    whose chroma rows 2 has the packed frame 10 10 10 10 80 90.  The element
    copies [height * stride] bytes per plane: into a buffer of 16 bytes it
    writes the 12 bytes of the planes with the padding EE of every row, and
    into the 6 bytes of the packed frame the first copy does not fit.  The
    row loops of the VP8 element give the packed frame for the same planes. *)
Theorem padding_is_copied_into_the_frame :
  let img := Stub.make_image 2 2 4 in
  packed_frame img
    = [Byte.x10; Byte.x10; Byte.x10; Byte.x10; Byte.x80; Byte.x90] /\
  gst_libde265_dec_handle_frame (stub_dec padded_pending)
    (Some (replicate 16 Byte.x00)) true =
  Returned {| handle_flow := Return_finish_frame;
              handle_dec := stub_dec Stub.empty;
              handle_calls :=
                [Get_next_picture; Allocate_output_frame;
                 Finish_frame (padded_planes ++ replicate 4 Byte.x00)] |} /\
  ~ assembled_tightly img (replicate 16 Byte.x00) /\
  gst_libde265_dec_handle_frame (stub_dec padded_pending)
    (Some (replicate 6 Byte.x00)) true =
  Undefined_behaviour (Bad_memcpy 0) /\
  VP8.copy_image 2 2 (vpx_image_of img) (replicate 6 Byte.x00)
    = Some (packed_frame img).
Proof.
  intros img.
  split; [vm_compute; reflexivity|]. split; [vm_compute; reflexivity|].
  split; [|split; vm_compute; reflexivity].
  intros (out' & dest & Hcopy & Hframe).
  vm_compute in Hcopy. injection Hcopy as <- <-.
  vm_compute in Hframe. discriminate.
Qed.

(** C6 as stated fails across a stop and a start: on an element that has
    recorded 2 x 2, a stop puts the record to -1 x -1 with no picture
    observed, and after the start the next picture, again 2 x 2, is
    announced by a renegotiation, though it has the dimensions of the
    picture before it. *)
Lemma restart_forgets_geometry :
  let img := Stub.make_image 2 2 2 in
  let stopped := snd (fst (gst_libde265_dec_stop streaming)) in
  let started :=
    snd (fst (gst_libde265_dec_start stub_start_worker_threads stopped
                (Some two_pending) None)) in
  (width (decoder streaming), height (decoder streaming)) = (2, 2) /\
  (de265_get_image_width img 0, de265_get_image_height img 0) = (2, 2) /\
  _gst_libde265_image_available (decoder streaming) img
    = (decoder streaming, [Have_frame]) /\
  snd (gst_libde265_dec_stop streaming) = [Free_decoder; Codec_state_unref 1%nat] /\
  (width (decoder stopped), height (decoder stopped)) = (-1, -1) /\
  (width (decoder started), height (decoder started)) = (-1, -1) /\
  _gst_libde265_image_available (decoder started) img
    = (set_geometry (decoder started) 2 2,
       [Set_output_state 2 2; Set_framerate 25 1; Negotiate; Have_frame]).
Proof. repeat split. Qed.

(** C10 on the code: the walk over [backward_buffer] goes 0, 12, 4, 14: the
    length field FF FF FF F4 at offset 12 is read into the [int] as -12 and
    sends the pointer back to offset 4, inside the first payload.  The walk
    stops with two bytes remaining, which the start code written at offset
    12 has overwritten: 00 01 is pushed where FF F4 arrived.  After a record
    of 2 GiB the one leftover byte is not fed at all: the walk leaves the
    buffer at the front. *)
Theorem backward_walk_rewrites_the_tail :
  stops_inside backward_buffer /\
  replace_length_fields (walk_fuel backward_buffer) backward_buffer 0 [] =
    WalkExit 14 backward_rewritten [0; 12; 4] /\
  gst_libde265_dec_parse true 1 (stub_dec Stub.empty) backward_buffer true =
  Returned
    {| flow := GST_VIDEO_DECODER_FLOW_NEED_DATA;
       dec_after :=
         stub_dec {| Stub.pictures := []; Stub.warnings := []; Stub.script := [];
                     Stub.input := backward_rewritten |};
       adapter_after := [];
       calls := [Take_buffer 16; Push_data backward_rewritten 16; Decode] |} /\
  drop 14 backward_buffer = [Byte.xff; Byte.xf4] /\
  drop 14 backward_rewritten = [Byte.x00; Byte.x01] /\
  ~ fed_with_tail_untouched backward_buffer /\
  ends_with_leftover huge_with_leftover /\
  reframe GST_TYPE_LIBDE265_DEC_PACKETIZED huge_with_leftover =
    Reframe_undefined (4 - 2 ^ 31) /\
  ~ fed_with_tail_untouched huge_with_leftover.
Proof.
  assert (Hwalk :
    replace_length_fields (walk_fuel backward_buffer) backward_buffer 0 [] =
    WalkExit 14 backward_rewritten [0; 12; 4])
    by (vm_compute; reflexivity).
  pose proof (huge_record_leaves_buffer huge_payload [Byte.x42] size_of_huge_payload)
    as Hhuge.
  split.
  { eexists _, _, _. split; [exact Hwalk|]. vm_compute. split; reflexivity. }
  split; [exact Hwalk|]. split; [vm_compute; reflexivity|].
  split; [reflexivity|]. split; [reflexivity|]. split.
  { intros (start_data & out & markers & Hexit & _ & _ & Hdrop).
    rewrite Hwalk in Hexit. injection Hexit as <- <- <-.
    vm_compute in Hdrop. discriminate. }
  split.
  { exists [huge_payload], [Byte.x42]. split; [|split; [|reflexivity]].
    - constructor; [|constructor]. unfold fits_length_field.
      rewrite size_of_huge_payload. lia.
    - unfold size_of. cbn [length]. lia. }
  split; [exact Hhuge|].
  intros (start_data & out & markers & _ & Hre & _).
  unfold huge_with_leftover in Hre. rewrite Hhuge in Hre. discriminate.
Qed.

(** C3 on the code: the length field 4294967292 announces far more than
    the one byte that follows, so the records overrun the buffer; the
    element reads the field as -4, stays on it, reads the start code it
    has just written as the length 1 and ends at the buffer end.  No overflow
    is reported and the five bytes are pushed to the engine. *)
Theorem wrapped_length_is_fed :
  records_overrun wrapped_length_buffer /\
  reframe GST_TYPE_LIBDE265_DEC_PACKETIZED wrapped_length_buffer =
    Reframed [Byte.x00; Byte.x00; Byte.x00; Byte.x01; Byte.x41] [0; 0] /\
  gst_libde265_dec_parse true 1 (stub_dec Stub.empty) wrapped_length_buffer true =
  Returned
    {| flow := GST_VIDEO_DECODER_FLOW_NEED_DATA;
       dec_after :=
         stub_dec {| Stub.pictures := []; Stub.warnings := []; Stub.script := [];
                     Stub.input := [Byte.x00; Byte.x00; Byte.x00; Byte.x01; Byte.x41] |};
       adapter_after := [];
       calls := [Take_buffer 5;
                 Push_data [Byte.x00; Byte.x00; Byte.x00; Byte.x01; Byte.x41] 5;
                 Decode] |}.
Proof.
  split; [|split; vm_compute; reflexivity].
  exists [], 4294967292, [Byte.x41]. repeat split; try lia.
  constructor.
Qed.

(** C9 on the code: the length field 4294967280 is read as -16, the pointer
    moves 12 bytes before the buffer, where the loop condition still holds:
    the next iteration reads and writes outside the buffer. *)
Theorem negative_length_leaves_the_buffer :
  replace_length_fields (walk_fuel negative_length_buffer) negative_length_buffer 0 [] =
    WalkOutOfBounds (-12) [Byte.x00; Byte.x00; Byte.x00; Byte.x01] [0] /\
  ~ walk_reaches_the_end negative_length_buffer /\
  gst_libde265_dec_parse true 1 (stub_dec Stub.empty) negative_length_buffer true =
    Undefined_behaviour (Out_of_bounds (-12)).
Proof.
  assert (Hwalk :
    replace_length_fields (walk_fuel negative_length_buffer) negative_length_buffer 0 [] =
    WalkOutOfBounds (-12) [Byte.x00; Byte.x00; Byte.x00; Byte.x01] [0])
    by (vm_compute; reflexivity).
  split; [exact Hwalk|]. split; [|vm_compute; reflexivity].
  intros (start_data & out & markers & Hexit & _). rewrite Hwalk in Hexit. discriminate.
Qed.


(** C2 as stated fails when the feed reports a full picture buffer: the
    picture is handed over with the warning still queued and not a single
    [de265_get_warning] made. *)
Lemma warnings_left_on_buffer_full :
  fst (fst (push_and_decode backlogging one_record 5)) = DE265_ERROR_IMAGE_BUFFER_FULL /\
  exists out,
    gst_libde265_dec_parse true 1 (stub_dec backlogging) one_record true = Returned out /\
    flow out = Return_have_frame /\
    ~ drained_warnings (calls out) (dec_after out).
Proof.
  split; [reflexivity|].
  eexists. split; [vm_compute; reflexivity|]. split; [reflexivity|].
  intros [Hcount _]. vm_compute in Hcount. lia.
Qed.

(** ** The theorems at concrete inputs *)

Lemma empty_chunk_needs_data_witness :
  (buffer_full (stub_dec Stub.empty) = false \/
   (exists c, ctx (stub_dec Stub.empty) = Some c /\ de265_peek_next_picture c = None)) /\
  exists out,
    gst_libde265_dec_parse true 1 (stub_dec Stub.empty) [] true = Returned out /\
    flow out = GST_VIDEO_DECODER_FLOW_NEED_DATA /\
    calls out = (if buffer_full (stub_dec Stub.empty) then [Peek_next_picture] else []) /\
    count is_Push_data (calls out) = 0%nat /\
    adapter_after out = [] /\
    dec_after out = set_buffer_full (stub_dec Stub.empty) false.
Proof.
  split; [left; reflexivity|].
  apply (empty_chunk_needs_data true 1 (stub_dec Stub.empty) true).
  left. reflexivity.
Defined.

Lemma flush_twice_witness :
  ctx (stub_backlogged two_pending) = Some two_pending /\
  (length (pending two_pending) < 3)%nat /\
  exists dec1 c1 calls1,
    gst_libde265_dec_flush 3 (stub_backlogged two_pending) = Returned (dec1, calls1) /\
    ctx dec1 = Some c1 /\
    buffer_full dec1 = false /\
    pending c1 = [] /\
    count is_frame calls1 = 0%nat /\
    forall fuel', (0 < fuel')%nat ->
      exists dec2 c2,
        gst_libde265_dec_flush fuel' dec1 = Returned (dec2, [Get_next_picture]) /\
        ctx dec2 = Some c2 /\
        buffer_full dec2 = buffer_full dec1 /\
        pending c2 = pending c1 /\
        width dec2 = width dec1 /\ height dec2 = height dec1 /\
        mode dec2 = mode dec1 /\
        fps_n dec2 = fps_n dec1 /\ fps_d dec2 = fps_d dec1.
Proof.
  split; [reflexivity|]. split; [simpl; lia|].
  apply (flush_twice 3 (stub_backlogged two_pending) two_pending); [reflexivity|simpl; lia].
Defined.

Lemma warnings_drained_after_ok_witness :
  ctx (stub_dec warning_twice) = Some warning_twice /\
  (buffer_full (stub_dec warning_twice) = true ->
   de265_peek_next_picture warning_twice = None) /\
  one_record <> [] /\
  reframe (mode (stub_dec warning_twice)) one_record = Reframed one_record [0] /\
  push_and_decode warning_twice one_record (size_of one_record) =
    (DE265_OK, warned_twice, [Push_data one_record (size_of one_record); Decode]) /\
  count is_Get_warning
    ((if buffer_full (stub_dec warning_twice) then [Peek_next_picture] else [])
     ++ Take_buffer (size_of one_record)
        :: [Push_data one_record (size_of one_record); Decode]) = 0%nat /\
  forall fuel, (length (queued_warnings warned_twice) < fuel)%nat ->
    exists out c3 rest,
      gst_libde265_dec_parse true fuel (stub_dec warning_twice) one_record true
        = Returned out /\
      calls out =
        ((if buffer_full (stub_dec warning_twice) then [Peek_next_picture] else [])
         ++ Take_buffer (size_of one_record)
            :: [Push_data one_record (size_of one_record); Decode])
        ++ warning_calls (queued_warnings warned_twice)
        ++ Peek_next_picture :: rest /\
      count is_Get_warning rest = 0%nat /\
      ctx (dec_after out) = Some c3 /\
      queued_warnings c3 = [].
Proof.
  assert (H1 : ctx (stub_dec warning_twice) = Some warning_twice) by reflexivity.
  assert (H2 : buffer_full (stub_dec warning_twice) = true ->
               de265_peek_next_picture warning_twice = None)
    by (simpl; discriminate).
  assert (H3 : one_record <> []) by discriminate.
  assert (H4 : reframe (mode (stub_dec warning_twice)) one_record = Reframed one_record [0])
    by (vm_compute; reflexivity).
  assert (H5 : push_and_decode warning_twice one_record (size_of one_record) =
    (DE265_OK, warned_twice, [Push_data one_record (size_of one_record); Decode]))
    by (vm_compute; reflexivity).
  split; [exact H1|]. split; [exact H2|]. split; [exact H3|].
  split; [exact H4|]. split; [exact H5|].
  exact (warnings_drained_after_ok true (stub_dec warning_twice) warning_twice
           warned_twice one_record one_record [0] DE265_OK _ H1 H2 H3 H4 H5).
Defined.

Lemma reframing_keeps_size_witness :
  Forall fits_int two_payloads /\
  reframe GST_TYPE_LIBDE265_DEC_PACKETIZED (packetized two_payloads) =
    Reframed (start_coded two_payloads) (record_offsets 0 two_payloads) /\
  length (start_coded two_payloads) = length (packetized two_payloads) /\
  length (record_offsets 0 two_payloads) = length two_payloads.
Proof.
  assert (H1 : Forall fits_int two_payloads).
  { repeat constructor; unfold fits_int, CInt.INT_MAX, size_of; cbn [length]; lia. }
  split; [exact H1|]. exact (reframing_keeps_size two_payloads H1).
Defined.

Lemma trailing_bytes_are_fed_witness :
  ctx (stub_dec Stub.empty) = Some Stub.empty /\
  mode (stub_dec Stub.empty) = GST_TYPE_LIBDE265_DEC_PACKETIZED /\
  (buffer_full (stub_dec Stub.empty) = true ->
   de265_peek_next_picture Stub.empty = None) /\
  Forall fits_int two_payloads /\
  1 <= size_of [Byte.x42; Byte.x43] <= 3 /\
  let buf := packetized two_payloads ++ [Byte.x42; Byte.x43] in
  let fed := start_coded two_payloads ++ [Byte.x42; Byte.x43] in
  replace_length_fields (walk_fuel buf) buf 0 [] =
    WalkExit (size_of (packetized two_payloads)) fed (record_offsets 0 two_payloads) /\
  size_of buf - 4 < size_of (packetized two_payloads) < size_of buf /\
  length fed = length buf /\
  drop (length (packetized two_payloads)) fed = [Byte.x42; Byte.x43] /\
  drop (length (packetized two_payloads)) buf = [Byte.x42; Byte.x43] /\
  (forall fuel out,
     gst_libde265_dec_parse true fuel (stub_dec Stub.empty) buf true = Returned out ->
     count is_overflow_error (calls out) = 0%nat /\
     exists after,
       calls out =
         (if buffer_full (stub_dec Stub.empty) then [Peek_next_picture] else [])
         ++ Take_buffer (size_of buf) :: Push_data fed (CInt.to_int (size_of buf)) :: after) /\
  (exists fuel0, forall fuel, (fuel0 <= fuel)%nat ->
     exists out,
       gst_libde265_dec_parse true fuel (stub_dec Stub.empty) buf true = Returned out).
Proof.
  assert (H1 : Forall fits_int two_payloads).
  { repeat constructor; unfold fits_int, CInt.INT_MAX, size_of; cbn [length]; lia. }
  assert (H2 : 1 <= size_of [Byte.x42; Byte.x43] <= 3)
    by (unfold size_of; cbn [length]; lia).
  split; [reflexivity|]. split; [reflexivity|]. split; [reflexivity|].
  split; [exact H1|]. split; [exact H2|].
  exact (trailing_bytes_are_fed true (stub_dec Stub.empty) Stub.empty two_payloads
           [Byte.x42; Byte.x43] eq_refl eq_refl (fun _ => eq_refl) H1 H2).
Defined.

Lemma planes_are_copied_whole_witness :
  let img := Stub.make_image 2 2 4 in
  let out := replicate 16 Byte.x00 in
  ctx (stub_dec padded_pending) = Some padded_pending /\
  de265_get_next_picture padded_pending = (Some img, Stub.empty) /\
  Forall (fun plane =>
            0 <= plane_bytes img plane
              <= size_of (fst (de265_get_image_plane img plane))) [0; 1; 2] /\
  plane_bytes img 0 + plane_bytes img 1 + plane_bytes img 2 <= size_of out /\
  let total := plane_bytes img 0 + plane_bytes img 1 + plane_bytes img 2 in
  let frame := whole_plane img 0 ++ whole_plane img 1 ++ whole_plane img 2 in
  copy_planes [0; 1; 2] img out 0 =
    Returned (frame ++ drop (Z.to_nat total) out, total) /\
  gst_libde265_dec_handle_frame (stub_dec padded_pending) (Some out) true =
    Returned {| handle_flow := Return_finish_frame;
                handle_dec := set_ctx (stub_dec padded_pending) (Some Stub.empty);
                handle_calls :=
                  [Get_next_picture; Allocate_output_frame;
                   Finish_frame (frame ++ drop (Z.to_nat total) out)] |} /\
  size_of frame = total /\
  (Forall (fun plane =>
             snd (de265_get_image_plane img plane) = de265_get_image_width img plane /\
             0 <= de265_get_image_width img plane /\
             0 <= de265_get_image_height img plane /\
             de265_get_image_height img plane * de265_get_image_width img plane
               <= CInt.INT_MAX) [0; 1; 2] ->
   frame = packed_frame img).
Proof.
  intros img out.
  assert (H3 : Forall (fun plane =>
            0 <= plane_bytes img plane
              <= size_of (fst (de265_get_image_plane img plane))) [0; 1; 2]).
  { repeat constructor; vm_compute; discriminate. }
  assert (H4 : plane_bytes img 0 + plane_bytes img 1 + plane_bytes img 2 <= size_of out)
    by (vm_compute; discriminate).
  split; [reflexivity|]. split; [reflexivity|]. split; [exact H3|]. split; [exact H4|].
  exact (planes_are_copied_whole (stub_dec padded_pending) padded_pending Stub.empty img out
           eq_refl eq_refl H3 H4).
Defined.

(** ** Further properties of the code *)

Lemma WRITE_BE32_lookup (buf : list byte) (p : Z) (i : nat) (b : byte) :
  0 <= p -> p + 4 <= size_of buf ->
  WRITE_BE32 buf p 1 !! i = Some b ->
  (in_window i p /\ (b = Byte.x00 \/ b = Byte.x01)) \/
  (~ in_window i p /\ buf !! i = Some b).
Proof.
  intros Hp Hsize.
  destruct (split_at buf p Hp Hsize) as (pre & b0 & b1 & b2 & b3 & rest & -> & <-).
  rewrite WRITE_BE32_app. unfold in_window, size_of.
  destruct (decide (i < length pre)%nat) as [Hlt|Hge].
  - rewrite !lookup_app_l by assumption. intros Hb. right. split; [lia|assumption].
  - rewrite !(lookup_app_r pre) by lia.
    remember (i - length pre)%nat as k eqn:Hk.
    destruct k as [|[|[|[|k]]]]; cbn; intros Hb.
    1-4: left; split; [lia|]; injection Hb as <-; auto.
    right. split; [lia|assumption].
Qed.

Lemma walk_writes (fuel : nat) :
  forall buf start_data markers,
    match replace_length_fields fuel buf start_data markers with
    | WalkExit _ out ms | WalkOutOfBounds _ out ms =>
        exists new,
          ms = markers ++ new /\
          length out = length buf /\
          only_fields_written buf out new
    | WalkOutOfFuel => True
    end.
Proof.
  induction fuel as [|fuel IH]; intros buf sd markers; [exact I|].
  cbn [replace_length_fields].
  assert (Hnone : exists new : list Z,
            markers = markers ++ new /\ length buf = length buf /\
            only_fields_written buf buf new).
  { exists []. rewrite app_nil_r. split; [reflexivity|]. split; [reflexivity|].
    split; [constructor|]. intros i b Hb. right. split; [constructor|exact Hb]. }
  destruct (sd + 4 <=? size_of buf) eqn:Hin; [|exact Hnone].
  destruct (sd <? 0) eqn:Hneg; [exact Hnone|].
  apply Z.leb_le in Hin. apply Z.ltb_ge in Hneg.
  assert (Hsame : length (WRITE_BE32 buf sd 1) = length buf)
    by (unfold WRITE_BE32, store8; rewrite !length_insert; reflexivity).
  specialize (IH (WRITE_BE32 buf sd 1)
                (sd + CInt.add 4 (CInt.to_int (READ_BE32 buf sd))) (markers ++ [sd])).
  assert (Hstep : forall out ms,
            (exists new, ms = (markers ++ [sd]) ++ new /\
               length out = length (WRITE_BE32 buf sd 1) /\
               only_fields_written (WRITE_BE32 buf sd 1) out new) ->
            exists new, ms = markers ++ new /\ length out = length buf /\
              only_fields_written buf out new).
  { intros out ms (new & -> & Hlen & Hrange & Hbytes).
    exists (sd :: new). rewrite <- app_assoc. split; [reflexivity|].
    split; [congruence|]. split.
    - constructor; [split; assumption|].
      unfold length_field_of, size_of in *. rewrite Hsame in Hrange. exact Hrange.
    - intros i b Hb. destruct (Hbytes i b Hb) as [[Hex Hval]|[Hall Hold]].
      + left. split; [apply Exists_cons_tl; exact Hex|exact Hval].
      + destruct (WRITE_BE32_lookup buf sd i b Hneg Hin Hold) as [[Hw Hval]|[Hw Hval]].
        * left. split; [apply Exists_cons_hd; exact Hw|exact Hval].
        * right. split; [constructor; assumption|exact Hval]. }
  destruct (replace_length_fields fuel (WRITE_BE32 buf sd 1) _ (markers ++ [sd]))
    as [sd' out ms|sd' out ms|]; [apply Hstep, IH|apply Hstep, IH|exact I].
Qed.

(** X1: on every buffer the loop over the length fields ends within
    [walk_fuel] iterations: with fewer than 4 bytes left from the pointer,
    or with the pointer before the buffer and a read about to leave it.
    The buffer keeps its size in both cases. *)
Theorem length_walk_always_ends (buf : list byte) :
  exists start_data out markers,
    (replace_length_fields (walk_fuel buf) buf 0 [] = WalkExit start_data out markers /\
     size_of buf < start_data + 4
     \/
     replace_length_fields (walk_fuel buf) buf 0 [] = WalkOutOfBounds start_data out markers /\
     start_data < 0 /\ start_data + 4 <= size_of buf) /\
    length out = length buf.
Proof.
  pose proof (replace_length_fields_total buf) as Htotal.
  pose proof (replace_length_fields_ends (walk_fuel buf) buf 0 []) as Hends.
  destruct (replace_length_fields (walk_fuel buf) buf 0 []) as [sd out ms|sd out ms|];
    [| |contradiction].
  - destruct Hends as [Hexit Hlen]. exists sd, out, ms. split; [left|exact Hlen].
    split; [reflexivity|]. unfold size_of in *. lia.
  - destruct Hends as (Hneg & Hin & Hlen). exists sd, out, ms. split; [right|exact Hlen].
    split; [reflexivity|]. unfold size_of in *. lia.
Qed.

(** X2: the loop writes only at offsets it visited, each a whole 4-byte
    field inside the buffer: a byte of the result that lies in no visited
    field is the byte of the input, and a byte that lies in one is 0 or 1.
    This holds of the buffer at a normal exit and of the buffer at the
    moment the pointer has gone before the buffer, where the next read is
    outside the mapped memory and the loop has no defined result; the loop
    never runs out of [walk_fuel]. *)
Theorem length_walk_writes_only_start_codes (buf : list byte) :
  match replace_length_fields (walk_fuel buf) buf 0 [] with
  | WalkExit _ out markers => only_fields_written buf out markers
  | WalkOutOfBounds start_data out markers =>
      start_data < 0 /\ start_data + 4 <= size_of buf /\
      only_fields_written buf out markers
  | WalkOutOfFuel => False
  end.
Proof.
  pose proof (replace_length_fields_total buf) as Htotal.
  pose proof (replace_length_fields_ends (walk_fuel buf) buf 0 []) as Hends.
  pose proof (walk_writes (walk_fuel buf) buf 0 []) as Hwrites.
  destruct (replace_length_fields (walk_fuel buf) buf 0 []) as [sd out ms|sd out ms|];
    [| |contradiction].
  - destruct Hwrites as (new & -> & _ & Hfields). exact Hfields.
  - destruct Hwrites as (new & -> & _ & Hfields). destruct Hends as (Hneg & Hin & Hlen).
    split; [exact Hneg|]. split; [unfold size_of in *; lia|exact Hfields].
Qed.

Section Feeding.

Context {Ctx Image : Type} `{!Engine Ctx Image}.
Variable HAVE_DE265_ERROR_WAITING_FOR_INPUT_DATA : bool.

Local Abbreviation parse :=
  (gst_libde265_dec_parse HAVE_DE265_ERROR_WAITING_FOR_INPUT_DATA).

Lemma image_available_log (P : call -> Prop) (dec : GstLibde265Dec) (img : Image) :
  P Have_frame -> P Negotiate ->
  (forall w h, P (Set_output_state w h)) ->
  (forall n d, P (Set_framerate n d)) ->
  Forall P (snd (_gst_libde265_image_available dec img)).
Proof.
  intros H1 H2 H3 H4. unfold _gst_libde265_image_available.
  destruct (negb _ || negb _); cbn [snd]; [|repeat constructor; assumption].
  destruct (0 <? fps_n dec); repeat constructor; auto.
Qed.

(** The calls a cycle makes after the push, for any property of calls that
    the pull-free calls have. *)
Lemma parse_log (P : call -> Prop) (fuel : nat) (dec : GstLibde265Dec)
    (adapter : list byte) (map_ok : bool) (out : parsed) :
  P Peek_next_picture -> P Have_frame -> P Negotiate ->
  (forall w h, P (Set_output_state w h)) ->
  (forall n d, P (Set_framerate n d)) ->
  P Get_warning -> (forall w, P (Element_warning w)) ->
  (forall e, P (Element_error e)) ->
  P (Take_buffer (size_of adapter)) ->
  (forall data, P (Push_data data (CInt.to_int (size_of adapter)))) ->
  P Decode ->
  parse fuel dec adapter map_ok = Returned out ->
  Forall P (calls out).
Proof.
  intros Hpeek Hframe Hneg Hstate Hrate Hget Hwarn Herr Htake Hpush Hdec.
  assert (Hpr : forall d c l, Forall P l -> Forall P (calls (peek_and_return d c l))).
  { intros d c l Hl.
    destruct (peek_and_return_tail P d c l) as (rest & -> & Hrest); auto.
    apply Forall_app; auto. }
  assert (Hfeed : forall d l o, Forall P l ->
            parse_feed HAVE_DE265_ERROR_WAITING_FOR_INPUT_DATA fuel d adapter map_ok l
              = Returned o -> Forall P (calls o)).
  { intros d l o Hl. unfold parse_feed, with_ctx.
    destruct (size_of adapter =? 0); [intros [= <-]; exact Hl|].
    assert (Hl1 : Forall P (l ++ [Take_buffer (size_of adapter)]))
      by (apply Forall_app; split; [exact Hl|repeat constructor; exact Htake]).
    destruct (negb map_ok); [intros [= <-]; exact Hl1|].
    destruct (reframe (mode d) adapter) as [fd ms|fd sd|off]; [| |discriminate].
    2:{ intros [= <-]. cbn [calls]. apply Forall_app. split; [exact Hl1|].
        repeat constructor. apply Herr. }
    destruct (ctx d) as [c|]; [|discriminate].
    unfold push_and_decode.
    destruct (de265_push_data c fd (CInt.to_int (size_of adapter))) as [r c1].
    assert (Hl2 : Forall P ((l ++ [Take_buffer (size_of adapter)])
                            ++ [Push_data fd (CInt.to_int (size_of adapter))]))
      by (apply Forall_app; split; [exact Hl1|repeat constructor; apply Hpush]).
    assert (Hl3 : Forall P ((l ++ [Take_buffer (size_of adapter)])
                            ++ [Push_data fd (CInt.to_int (size_of adapter)); Decode])).
    { apply Forall_app; split; [exact Hl1|]. repeat constructor; auto. }
    assert (Hfin : forall (l' : list call) (ret : de265_error) c2 o',
              Forall P l' ->
              match ret with
              | DE265_OK =>
                  match get_warnings fuel c2 with
                  | Some (c3, calls') =>
                      Returned (peek_and_return (set_ctx (set_ctx d (Some c2)) (Some c3))
                                  c3 (l' ++ calls'))
                  | None => Out_of_fuel
                  end
              | DE265_ERROR_IMAGE_BUFFER_FULL =>
                  Returned (peek_and_return (set_buffer_full (set_ctx d (Some c2)) true)
                              c2 l')
              | DE265_ERROR_WAITING_FOR_INPUT_DATA =>
                  if HAVE_DE265_ERROR_WAITING_FOR_INPUT_DATA then
                    Returned {| flow := GST_VIDEO_DECODER_FLOW_NEED_DATA;
                                dec_after := set_ctx d (Some c2); adapter_after := [];
                                calls := l' |}
                  else
                    Returned {| flow := GST_FLOW_ERROR;
                                dec_after := set_ctx d (Some c2); adapter_after := [];
                                calls := l' ++ [Element_error (Error_while_decoding ret)] |}
              | DE265_CODE _ =>
                  Returned {| flow := GST_FLOW_ERROR;
                              dec_after := set_ctx d (Some c2); adapter_after := [];
                              calls := l' ++ [Element_error (Error_while_decoding ret)] |}
              end = Returned o' -> Forall P (calls o')).
    { intros l' ret c2 o' Hl'. destruct ret.
      - destruct (get_warnings fuel c2) as [[c3 log3]|] eqn:Hrun; [|discriminate].
        intros [= <-]. apply Hpr. apply Forall_app. split; [exact Hl'|].
        exact (get_warnings_calls P Hget Hwarn _ _ _ _ Hrun).
      - intros [= <-]. apply Hpr. exact Hl'.
      - destruct HAVE_DE265_ERROR_WAITING_FOR_INPUT_DATA; intros [= <-]; cbn [calls];
          [exact Hl'|]. apply Forall_app. split; [exact Hl'|]. repeat constructor. apply Herr.
      - intros [= <-]. cbn [calls]. apply Forall_app. split; [exact Hl'|].
        repeat constructor. apply Herr. }
    destruct (is_DE265_OK r).
    - destruct (de265_decode c1) as [r2 c2]. apply Hfin. exact Hl3.
    - apply Hfin. exact Hl2. }
  unfold gst_libde265_dec_parse, with_ctx.
  destruct (buffer_full dec); [|apply Hfeed; constructor].
  destruct (ctx dec) as [c|]; [|discriminate].
  destruct (de265_peek_next_picture c) as [img|].
  - pose proof (image_available_log P dec img Hframe Hneg Hstate Hrate) as Himg.
    destruct (_gst_libde265_image_available dec img) as [dec' calls'].
    intros [= <-]. cbn [calls]. constructor; assumption.
  - apply Hfeed. repeat constructor. exact Hpeek.
Qed.

(** How a cycle that returns has run: it handed over a backlog picture, or
    found the adapter empty, or took the chunk and failed to map it, found
    an overflow, or fed the engine. *)
Lemma parse_inversion (fuel : nat) (dec : GstLibde265Dec) (adapter : list byte)
    (map_ok : bool) (out : parsed) :
  parse fuel dec adapter map_ok = Returned out ->
  (buffer_full dec = true /\
   exists c img,
     ctx dec = Some c /\ de265_peek_next_picture c = Some img /\
     out = {| flow := Return_have_frame;
              dec_after := fst (_gst_libde265_image_available dec img);
              adapter_after := adapter;
              calls := Peek_next_picture
                         :: snd (_gst_libde265_image_available dec img) |})
  \/
  exists pre dec0,
    (buffer_full dec = false /\ pre = [] /\ dec0 = dec
     \/
     buffer_full dec = true /\ pre = [Peek_next_picture] /\
     dec0 = set_buffer_full dec false /\
     exists c, ctx dec = Some c /\ de265_peek_next_picture c = None) /\
    (adapter = [] /\
     out = {| flow := GST_VIDEO_DECODER_FLOW_NEED_DATA; dec_after := dec0;
              adapter_after := adapter; calls := pre |}
     \/
     adapter <> [] /\ map_ok = false /\
     out = {| flow := GST_FLOW_ERROR; dec_after := dec0; adapter_after := [];
              calls := pre ++ [Take_buffer (size_of adapter)] |}
     \/
     adapter <> [] /\ map_ok = true /\
     (exists buf' start_data,
        reframe (mode dec) adapter = Overflow buf' start_data) /\
     out = {| flow := GST_FLOW_ERROR; dec_after := dec0; adapter_after := [];
              calls := pre ++ [Take_buffer (size_of adapter);
                               Element_error Overflow_in_input_data] |}
     \/
     adapter <> [] /\ map_ok = true /\
     exists frame_data markers c ret c2 log2,
       reframe (mode dec) adapter = Reframed frame_data markers /\
       ctx dec = Some c /\
       push_and_decode c frame_data (size_of adapter) = (ret, c2, log2) /\
       feed_ends HAVE_DE265_ERROR_WAITING_FOR_INPUT_DATA fuel dec0 ret c2
         (pre ++ Take_buffer (size_of adapter) :: log2) out).
Proof.
  intros Hout.
  assert (Hfeed : forall pre dec0 c0,
            mode dec0 = mode dec -> ctx dec0 = c0 -> c0 = ctx dec ->
            parse_feed HAVE_DE265_ERROR_WAITING_FOR_INPUT_DATA fuel dec0 adapter map_ok pre
              = Returned out ->
            (adapter = [] /\
             out = {| flow := GST_VIDEO_DECODER_FLOW_NEED_DATA; dec_after := dec0;
                      adapter_after := adapter; calls := pre |}
             \/
             adapter <> [] /\ map_ok = false /\
             out = {| flow := GST_FLOW_ERROR; dec_after := dec0; adapter_after := [];
                      calls := pre ++ [Take_buffer (size_of adapter)] |}
             \/
             adapter <> [] /\ map_ok = true /\
             (exists buf' start_data,
                reframe (mode dec) adapter = Overflow buf' start_data) /\
             out = {| flow := GST_FLOW_ERROR; dec_after := dec0; adapter_after := [];
                      calls := pre ++ [Take_buffer (size_of adapter);
                                       Element_error Overflow_in_input_data] |}
             \/
             adapter <> [] /\ map_ok = true /\
             exists frame_data markers c ret c2 log2,
               reframe (mode dec) adapter = Reframed frame_data markers /\
               ctx dec = Some c /\
               push_and_decode c frame_data (size_of adapter) = (ret, c2, log2) /\
               feed_ends HAVE_DE265_ERROR_WAITING_FOR_INPUT_DATA fuel dec0 ret c2
                 (pre ++ Take_buffer (size_of adapter) :: log2) out)).
  { intros pre dec0 c0 Hmode Hctx Hc0. unfold parse_feed, with_ctx. rewrite Hmode, Hctx.
    destruct (size_of adapter =? 0) eqn:Hsize.
    { intros [= <-]. left. split; [|reflexivity].
      apply Z.eqb_eq in Hsize. unfold size_of in Hsize.
      destruct adapter; [reflexivity|simpl in Hsize; lia]. }
    assert (Hdata : adapter <> []).
    { intros ->. discriminate. }
    destruct map_ok; cbn [negb].
    2:{ intros [= <-]. right. left. auto. }
    destruct (reframe (mode dec) adapter) as [fd ms|fd sd|off] eqn:Hre; [| |discriminate].
    2:{ intros [= <-]. right. right. left. rewrite <- app_assoc. eauto 8. }
    destruct c0 as [c|]; [|discriminate].
    destruct (push_and_decode c fd (size_of adapter)) as [[ret c2] log2] eqn:Hpush.
    intros Hret. right. right. right. split; [exact Hdata|]. split; [reflexivity|].
    exists fd, ms, c, ret, c2, log2. split; [reflexivity|]. split; [symmetry; exact Hc0|].
    split; [exact Hpush|]. unfold feed_ends.
    replace (pre ++ Take_buffer (size_of adapter) :: log2)
      with ((pre ++ [Take_buffer (size_of adapter)]) ++ log2)
      by (rewrite <- app_assoc; reflexivity).
    destruct ret.
    - destruct (get_warnings fuel c2) as [[c3 log3]|]; [|discriminate].
      injection Hret as <-. eauto.
    - injection Hret as <-. reflexivity.
    - destruct HAVE_DE265_ERROR_WAITING_FOR_INPUT_DATA; injection Hret as <-; reflexivity.
    - injection Hret as <-. reflexivity. }
  revert Hout. unfold gst_libde265_dec_parse, with_ctx.
  destruct (buffer_full dec) eqn:Hfull.
  - destruct (ctx dec) as [c|] eqn:Hctx; [|discriminate].
    destruct (de265_peek_next_picture c) as [img|] eqn:Hpeek.
    + destruct (_gst_libde265_image_available dec img) as [dec' calls'] eqn:Havail.
      intros [= <-]. left. split; [reflexivity|]. exists c, img.
      rewrite Havail. repeat split. exact Hpeek.
    + intros Hout. right. exists [Peek_next_picture], (set_buffer_full dec false).
      split; [right; eauto 8|].
      eapply Hfeed; [reflexivity|exact Hctx|reflexivity|exact Hout].
  - intros Hout. right. exists [], dec. split; [left; auto|].
    eapply Hfeed; [reflexivity|reflexivity|reflexivity|exact Hout].
Qed.

(** What a fed cycle logs after the feed, and what it leaves in the element. *)
Lemma feed_ends_calls (P : call -> Prop) (fuel : nat) (dec0 : GstLibde265Dec)
    (ret : de265_error) (c2 : Ctx) (before : list call) (out : parsed) :
  P Peek_next_picture -> P Have_frame -> P Negotiate ->
  (forall w h, P (Set_output_state w h)) ->
  (forall n d, P (Set_framerate n d)) ->
  P Get_warning -> (forall w, P (Element_warning w)) ->
  (forall r, P (Element_error (Error_while_decoding r))) ->
  feed_ends HAVE_DE265_ERROR_WAITING_FOR_INPUT_DATA fuel dec0 ret c2 before out ->
  exists rest, calls out = before ++ rest /\ Forall P rest.
Proof.
  intros Hpeek Hframe Hneg Hstate Hrate Hget Hwarn Herr. unfold feed_ends.
  destruct ret.
  - intros (c3 & log3 & Hrun & ->).
    destruct (peek_and_return_tail P (set_ctx (set_ctx dec0 (Some c2)) (Some c3)) c3
                (before ++ log3)) as (rest & -> & Hrest); auto.
    exists (log3 ++ rest). rewrite <- app_assoc. split; [reflexivity|].
    apply Forall_app. split; [|exact Hrest].
    exact (get_warnings_calls P Hget Hwarn _ _ _ _ Hrun).
  - intros ->.
    destruct (peek_and_return_tail P (set_buffer_full (set_ctx dec0 (Some c2)) true) c2
                before) as (rest & -> & Hrest); auto.
    exists rest. auto.
  - destruct HAVE_DE265_ERROR_WAITING_FOR_INPUT_DATA; intros ->; cbn [calls].
    + exists []. rewrite app_nil_r. auto.
    + eexists. split; [reflexivity|]. repeat constructor. apply Herr.
  - intros ->. cbn [calls]. eexists. split; [reflexivity|]. repeat constructor. apply Herr.
Qed.

Lemma feeding_calls_none_after (fuel : nat) (dec0 : GstLibde265Dec)
    (ret : de265_error) (c2 : Ctx) (before : list call) (out : parsed) :
  feed_ends HAVE_DE265_ERROR_WAITING_FOR_INPUT_DATA fuel dec0 ret c2 before out ->
  exists rest,
    calls out = before ++ rest /\ feeding_calls rest = [].
Proof.
  intros Hend.
  destruct (feed_ends_calls
              (fun c => is_Take_buffer c = false /\ is_Push_data c = false
                        /\ is_Decode c = false) _ _ _ _ _ _
              ltac:(repeat split) ltac:(repeat split) ltac:(repeat split)
              ltac:(repeat split) ltac:(repeat split) ltac:(repeat split)
              ltac:(repeat split) ltac:(repeat split) Hend)
    as (rest & Hcalls & Hrest).
  exists rest. split; [exact Hcalls|].
  clear Hcalls. unfold feeding_calls.
  induction Hrest as [|c l (Ht & Hp & Hd) _ IH]; [reflexivity|].
  rewrite filter_cons, IH, Ht, Hp, Hd.
  destruct (decide _) as [Heq|_]; [discriminate|reflexivity].
Qed.

Lemma feed_ends_element (fuel : nat) (dec0 : GstLibde265Dec)
    (ret : de265_error) (c2 : Ctx) (before : list call) (out : parsed) :
  feed_ends HAVE_DE265_ERROR_WAITING_FOR_INPUT_DATA fuel dec0 ret c2 before out ->
  adapter_after out = [] /\
  buffer_full (dec_after out) = (is_IMAGE_BUFFER_FULL ret || buffer_full dec0)%bool /\
  (exists c3, ctx (dec_after out) = Some c3) /\
  (flow out = GST_FLOW_ERROR ->
   is_DE265_OK ret = false /\ is_IMAGE_BUFFER_FULL ret = false /\
   dec_after out = set_ctx dec0 (Some c2) /\
   calls out = before ++ [Element_error (Error_while_decoding ret)]) /\
  (is_DE265_OK ret = false ->
   count is_Get_warning (calls out) = count is_Get_warning before /\
   ctx (dec_after out) = Some c2).
Proof.
  assert (Hpr : forall d c l,
            adapter_after (peek_and_return d c l) = [] /\
            flow (peek_and_return d c l) <> GST_FLOW_ERROR).
  { intros d c l. unfold peek_and_return. destruct (de265_peek_next_picture c) as [img|].
    - destruct (_gst_libde265_image_available d img). split; [reflexivity|discriminate].
    - split; [reflexivity|discriminate]. }
  unfold feed_ends. destruct ret.
  - intros (c3 & log3 & Hrun & ->).
    destruct (peek_and_return_calls (set_ctx (set_ctx dec0 (Some c2)) (Some c3)) c3
                (before ++ log3)) as (rest & _ & _ & _ & Hc & Hb).
    destruct (Hpr (set_ctx (set_ctx dec0 (Some c2)) (Some c3)) c3 (before ++ log3))
      as [Ha Hf].
    split; [exact Ha|]. split; [rewrite Hb; reflexivity|].
    split; [rewrite Hc; eauto|]. split; [intros; contradiction|discriminate].
  - intros ->.
    destruct (peek_and_return_calls (set_buffer_full (set_ctx dec0 (Some c2)) true) c2
                before) as (rest & Hcalls & Hw & _ & Hc & Hb).
    destruct (Hpr (set_buffer_full (set_ctx dec0 (Some c2)) true) c2 before) as [Ha Hf].
    split; [exact Ha|]. split; [rewrite Hb; reflexivity|].
    split; [rewrite Hc; eauto|]. split; [intros; contradiction|].
    intros _. split; [|rewrite Hc; reflexivity]. rewrite Hcalls, count_app.
    change (Peek_next_picture :: rest) with ([Peek_next_picture] ++ rest).
    rewrite count_app, Hw.
    change (count is_Get_warning [Peek_next_picture]) with 0%nat. lia.
  - destruct HAVE_DE265_ERROR_WAITING_FOR_INPUT_DATA; intros ->;
      cbn [adapter_after dec_after flow calls buffer_full set_ctx ctx
           is_IMAGE_BUFFER_FULL is_DE265_OK orb].
    + split; [reflexivity|]. split; [reflexivity|]. split; [eauto|].
      split; [discriminate|]. intros _. split; reflexivity.
    + split; [reflexivity|]. split; [reflexivity|]. split; [eauto|].
      split; [auto|]. intros _. split; [|reflexivity]. rewrite count_app.
      change (count is_Get_warning [Element_error _]) with 0%nat. lia.
  - intros ->.
    cbn [adapter_after dec_after flow calls buffer_full set_ctx ctx
         is_IMAGE_BUFFER_FULL is_DE265_OK orb].
    split; [reflexivity|]. split; [reflexivity|]. split; [eauto|].
    split; [auto|]. intros _. split; [|reflexivity]. rewrite count_app.
      change (count is_Get_warning [Element_error _]) with 0%nat. lia.
Qed.

Lemma push_and_decode_log (c c2 : Ctx) (data : list byte) (size : Z)
    (ret : de265_error) (log2 : list call) :
  push_and_decode c data size = (ret, c2, log2) ->
  (log2 = [Push_data data (CInt.to_int size); Decode] /\
   is_DE265_OK (fst (de265_push_data c data (CInt.to_int size))) = true) \/
  (log2 = [Push_data data (CInt.to_int size)] /\
   is_DE265_OK (fst (de265_push_data c data (CInt.to_int size))) = false /\
   de265_push_data c data (CInt.to_int size) = (ret, c2)).
Proof.
  unfold push_and_decode. destruct (de265_push_data c data (CInt.to_int size)) as [r c1].
  destruct (is_DE265_OK r) eqn:Hok.
  - destruct (de265_decode c1) as [r2 c3]. intros [= <- <- <-]. left. auto.
  - intros [= <- <- <-]. right. auto.
Qed.

Lemma count_cons (p : call -> bool) (c : call) (l : list call) :
  count p (c :: l) = ((if p c then 1 else 0) + count p l)%nat.
Proof.
  unfold count. rewrite filter_cons.
  destruct (p c); destruct (decide _); cbn; congruence.
Qed.

Lemma count_nil (p : call -> bool) : count p [] = 0%nat.
Proof. reflexivity. Qed.

(** X7: a cycle that returns hands exactly one frame to the base class when
    it returns through [gst_video_decoder_have_frame], and none otherwise;
    it negotiates at most once and only when it hands over a frame, and the
    hand-over is its last call. *)
Theorem one_frame_per_cycle (fuel : nat) (dec : GstLibde265Dec)
    (adapter : list byte) (map_ok : bool) (out : parsed) :
  parse fuel dec adapter map_ok = Returned out ->
  count is_frame (calls out)
    = (if is_Return_have_frame (flow out) then 1 else 0)%nat /\
  (count is_Negotiate (calls out) <= count is_frame (calls out))%nat /\
  (flow out = Return_have_frame -> last (calls out) = Some Have_frame).
Proof.
  intros Hout.
  destruct (parse_ends HAVE_DE265_ERROR_WAITING_FOR_INPUT_DATA _ _ _ _ _ Hout)
    as (dec' & log & _ & _ & _ & _ & Hquiet & Hend).
  destruct (quiet_count log Hquiet) as [Hneg Hframe].
  destruct Hend as [(_ & -> & Hflow)|(img & _ & -> & ->)].
  - rewrite Hneg, Hframe. split; [|split; [lia|contradiction]].
    destruct (flow out); try reflexivity. contradiction.
  - destruct (image_available_calls dec' img) as (_ & _ & Hone & Hlast).
    rewrite !count_app, Hneg, Hframe, Hone. cbn [is_Return_have_frame].
    split; [reflexivity|]. split.
    + unfold _gst_libde265_image_available.
      destruct (negb _ || negb _); cbn [snd].
      * destruct (0 <? fps_n dec'); vm_compute; lia.
      * vm_compute. lia.
    + intros _. rewrite last_app, Hlast. reflexivity.
Qed.

(** X5: a cycle that returns leaves the adapter as it was, without taking a
    buffer or pushing data (the adapter was empty, or a backlog picture was
    handed over and the flag stays set), or it takes the whole adapter in
    one buffer and leaves it empty, whatever its outcome. *)
Theorem chunk_is_kept_or_consumed (fuel : nat) (dec : GstLibde265Dec)
    (adapter : list byte) (map_ok : bool) (out : parsed) :
  parse fuel dec adapter map_ok = Returned out ->
  (adapter_after out = adapter /\
   count is_Take_buffer (calls out) = 0%nat /\
   count is_Push_data (calls out) = 0%nat /\
   (adapter = [] \/
    flow out = Return_have_frame /\ buffer_full dec = true /\
    buffer_full (dec_after out) = true))
  \/
  (adapter <> [] /\ adapter_after out = [] /\
   count is_Take_buffer (calls out) = 1%nat /\
   In (Take_buffer (size_of adapter)) (calls out)).
Proof.
  intros Hout.
  destruct (parse_inversion _ _ _ _ _ Hout)
    as [(Hfull & c & img & Hctx & Hpeek & ->)|(pre & dec0 & Hpre & Hrun)].
  { left. cbn [adapter_after calls flow dec_after]. split; [reflexivity|].
    rewrite !count_cons. cbn [is_Take_buffer is_Push_data].
    split; [|split].
    - apply count_zero. apply image_available_log; reflexivity.
    - apply count_zero. apply image_available_log; reflexivity.
    - right. split; [reflexivity|]. split; [exact Hfull|].
      destruct (image_available_keeps dec img) as (_ & -> & _). exact Hfull. }
  assert (Hp : count is_Take_buffer pre = 0%nat /\ count is_Push_data pre = 0%nat).
  { destruct Hpre as [(_ & -> & _)|(_ & -> & _)]; split; reflexivity. }
  destruct Hp as [Hp1 Hp2].
  destruct Hrun as [(Hnil & ->)|[(Hdata & _ & ->)|[(Hdata & _ & _ & ->)|
                   (Hdata & _ & fd & ms & c & ret & c2 & log2 & _ & _ & Hpush & Hend)]]].
  - left. cbn [adapter_after calls]. auto.
  - right. cbn [adapter_after calls]. split; [exact Hdata|]. split; [reflexivity|].
    rewrite count_app, Hp1. split; [reflexivity|]. apply in_app_iff. right. left. reflexivity.
  - right. cbn [adapter_after calls]. split; [exact Hdata|]. split; [reflexivity|].
    rewrite count_app, Hp1. split; [reflexivity|]. apply in_app_iff. right. left. reflexivity.
  - right. split; [exact Hdata|].
    destruct (feed_ends_element _ _ _ _ _ _ Hend) as (Hadapter & _).
    split; [exact Hadapter|].
    destruct (feed_ends_calls (fun c => is_Take_buffer c = false) _ _ _ _ _ _
                eq_refl eq_refl eq_refl (fun _ _ => eq_refl) (fun _ _ => eq_refl)
                eq_refl (fun _ => eq_refl) (fun _ => eq_refl) Hend)
      as (rest & -> & Hrest).
    split.
    + rewrite !count_app, Hp1, count_cons, (count_zero _ rest Hrest).
      cbn [is_Take_buffer].
      destruct (push_and_decode_log _ _ _ _ _ _ Hpush) as [[-> _]|[-> _]]; reflexivity.
    + apply in_app_iff. left. apply in_app_iff. right. left. reflexivity.
Qed.

Lemma feeding_calls_app (l k : list call) :
  feeding_calls (l ++ k) = feeding_calls l ++ feeding_calls k.
Proof. unfold feeding_calls. apply filter_app. Qed.

Lemma feeding_calls_none (l : list call) :
  Forall (fun c => is_Take_buffer c = false /\ is_Push_data c = false
                   /\ is_Decode c = false) l ->
  feeding_calls l = [].
Proof.
  induction 1 as [|c l (Ht & Hp & Hd) _ IH]; [reflexivity|].
  unfold feeding_calls in *. rewrite filter_cons, IH, Ht, Hp, Hd.
  destruct (decide _) as [Heq|_]; [discriminate|reflexivity].
Qed.

(** X6: the calls of one cycle that feed the engine are, in this order: none;
    or one buffer taken from the adapter, of the adapter's size; or that
    buffer followed by one push of the reframed bytes, whose length is the
    adapter's size converted to [int]; or buffer, push and one decode. *)
Theorem engine_is_fed_at_most_once (fuel : nat) (dec : GstLibde265Dec)
    (adapter : list byte) (map_ok : bool) (out : parsed) :
  parse fuel dec adapter map_ok = Returned out ->
  feeding_calls (calls out) = [] \/
  feeding_calls (calls out) = [Take_buffer (size_of adapter)] \/
  exists frame_data markers,
    reframe (mode dec) adapter = Reframed frame_data markers /\
    map_ok = true /\
    (feeding_calls (calls out)
       = [Take_buffer (size_of adapter);
          Push_data frame_data (CInt.to_int (size_of adapter))]
     \/
     feeding_calls (calls out)
       = [Take_buffer (size_of adapter);
          Push_data frame_data (CInt.to_int (size_of adapter));
          Decode]).
Proof.
  intros Hout.
  destruct (parse_inversion _ _ _ _ _ Hout)
    as [(Hfull & c & img & Hctx & Hpeek & ->)|(pre & dec0 & Hpre & Hrun)].
  { left. cbn [calls].
    change (Peek_next_picture :: ?l) with ([Peek_next_picture] ++ l).
    apply (feeding_calls_none (Peek_next_picture :: _)).
    constructor; [repeat split|]. apply image_available_log; repeat split. }
  assert (Hp : feeding_calls pre = []).
  { destruct Hpre as [(_ & -> & _)|(_ & -> & _)]; reflexivity. }
  destruct Hrun as [(Hnil & ->)|[(Hdata & _ & ->)|[(Hdata & _ & _ & ->)|
              (Hdata & Hmap & fd & ms & c & ret & c2 & log2 & Hre & _ & Hpush & Hend)]]].
  - left. exact Hp.
  - right. left. cbn [calls]. rewrite feeding_calls_app, Hp. reflexivity.
  - right. left. cbn [calls]. rewrite feeding_calls_app, Hp. reflexivity.
  - right. right. exists fd, ms. split; [exact Hre|]. split; [exact Hmap|].
    destruct (feeding_calls_none_after _ _ _ _ _ _ Hend) as (rest & -> & Hrest).
    rewrite !feeding_calls_app, Hp, Hrest, app_nil_r.
    destruct (push_and_decode_log _ _ _ _ _ _ Hpush) as [[-> _]|[-> _]];
      [right|left]; reflexivity.
Qed.

(** The three ways a cycle returns. *)
Lemma parse_paths (fuel : nat) (dec : GstLibde265Dec)
    (adapter : list byte) (map_ok : bool) (out : parsed) :
  parse fuel dec adapter map_ok = Returned out ->
  flow out = Return_have_frame \/
  flow out = GST_VIDEO_DECODER_FLOW_NEED_DATA \/
  flow out = GST_FLOW_ERROR.
Proof.
  intros Hout.
  assert (Hpr : forall d c l,
            flow (peek_and_return d c l) = Return_have_frame \/
            flow (peek_and_return d c l) = GST_VIDEO_DECODER_FLOW_NEED_DATA \/
            flow (peek_and_return d c l) = GST_FLOW_ERROR).
  { intros d c l. unfold peek_and_return.
    destruct (de265_peek_next_picture c) as [img|]; [|auto].
    destruct (_gst_libde265_image_available d img). auto. }
  destruct (parse_inversion _ _ _ _ _ Hout)
    as [(_ & c & img & _ & _ & ->)|(pre & dec0 & _ & Hrun)]; [auto|].
  destruct Hrun as [(_ & ->)|[(_ & _ & ->)|[(_ & _ & _ & ->)|
              (_ & _ & fd & ms & c & ret & c2 & log2 & _ & _ & _ & Hend)]]]; auto.
  unfold feed_ends in Hend. destruct ret.
  - destruct Hend as (c3 & log3 & _ & ->). apply Hpr.
  - rewrite Hend. apply Hpr.
  - destruct HAVE_DE265_ERROR_WAITING_FOR_INPUT_DATA; rewrite Hend; auto.
  - rewrite Hend. auto.
Qed.

(** X8: a cycle whose returned value is [GST_FLOW_ERROR] either returned it
    by its own [return GST_FLOW_ERROR], or returned what
    [gst_video_decoder_have_frame] gave, a frame having been handed over as
    the last call.  In the first case it had data, consumed it, leaves the
    backlog flag clear and the geometry as it was, hands over no frame,
    negotiates nothing and fetches no warning; either nothing reached the
    engine (the map failed or an overflow was found), or the last call
    posts the engine's code, which is neither success nor a full buffer. *)
Theorem error_cycle_is_silent (fuel : nat) (dec : GstLibde265Dec)
    (adapter : list byte) (map_ok : bool) (out : parsed) (base : GstFlowReturn) :
  parse fuel dec adapter map_ok = Returned out ->
  returned_value base (flow out) = GST_FLOW_ERROR ->
  (flow out = GST_FLOW_ERROR /\
   adapter <> [] /\ adapter_after out = [] /\
   buffer_full (dec_after out) = false /\
   width (dec_after out) = width dec /\ height (dec_after out) = height dec /\
   count is_frame (calls out) = 0%nat /\
   count is_Negotiate (calls out) = 0%nat /\
   count is_Get_warning (calls out) = 0%nat /\
   (count is_Push_data (calls out) = 0%nat /\ ctx (dec_after out) = ctx dec
    \/
    exists ret,
      last (calls out) = Some (Element_error (Error_while_decoding ret)) /\
      is_DE265_OK ret = false /\ is_IMAGE_BUFFER_FULL ret = false /\
      count is_Push_data (calls out) = 1%nat))
  \/
  (flow out = Return_have_frame /\ base = GST_FLOW_ERROR /\
   count is_frame (calls out) = 1%nat /\
   last (calls out) = Some Have_frame).
Proof.
  intros Hout Hvalue.
  destruct (parse_ends HAVE_DE265_ERROR_WAITING_FOR_INPUT_DATA _ _ _ _ _ Hout)
    as (dec' & log & Hw & Hh & _ & _ & Hquiet & Hend).
  destruct (quiet_count log Hquiet) as [Hneg Hframe].
  destruct Hend as [(Hafter & Hcalls & Hpath)|(img & _ & Hcalls & Hflow)].
  2:{ right. rewrite Hflow in Hvalue. cbn in Hvalue.
      destruct (image_available_calls dec' img) as (_ & _ & Hone & Hlast).
      split; [exact Hflow|]. split; [exact Hvalue|].
      rewrite Hcalls, count_app, Hframe, Hone, last_app, Hlast. split; reflexivity. }
  left.
  assert (Herror : flow out = GST_FLOW_ERROR).
  { destruct (parse_paths _ _ _ _ _ Hout) as [Hp|[Hp|Hp]];
      [contradiction|rewrite Hp in Hvalue; discriminate|exact Hp]. }
  split; [exact Herror|].
  enough (Hrest : adapter <> [] /\ adapter_after out = [] /\
                  buffer_full (dec_after out) = false /\
                  count is_Get_warning (calls out) = 0%nat /\
                  (count is_Push_data (calls out) = 0%nat /\ ctx (dec_after out) = ctx dec
                   \/
                   exists ret,
                     last (calls out) = Some (Element_error (Error_while_decoding ret)) /\
                     is_DE265_OK ret = false /\ is_IMAGE_BUFFER_FULL ret = false /\
                     count is_Push_data (calls out) = 1%nat)).
  { destruct Hrest as (? & ? & ? & ? & ?). subst dec'. rewrite Hcalls.
    repeat (split; [assumption|]). rewrite <- Hcalls. split; assumption. }
  clear Hafter Hcalls Hpath.
  destruct (parse_inversion _ _ _ _ _ Hout)
    as [(Hfull & c & img & Hctx & Hpeek & ->)|(pre & dec0 & Hpre & Hrun)];
    [discriminate|].
  assert (Hp : count is_Get_warning pre = 0%nat /\ count is_Push_data pre = 0%nat /\
               buffer_full dec0 = false /\ ctx dec0 = ctx dec).
  { destruct Hpre as [(Hb & -> & ->)|(_ & -> & -> & _)]; repeat split; auto. }
  destruct Hp as (Hp1 & Hp2 & Hflag & Hsame).
  destruct Hrun as [(Hnil & ->)|[(Hdata & _ & ->)|[(Hdata & _ & _ & ->)|
              (Hdata & _ & fd & ms & c & ret & c2 & log2 & _ & _ & Hpush & Hend)]]];
    [discriminate| | |].
  - cbn [adapter_after dec_after calls].
    rewrite !count_app, !count_cons, Hp1, Hp2, !count_nil. cbn [is_Get_warning is_Push_data].
    auto 10.
  - cbn [adapter_after dec_after calls].
    rewrite !count_app, !count_cons, Hp1, Hp2, !count_nil. cbn [is_Get_warning is_Push_data].
    auto 10.
  - destruct (feed_ends_element _ _ _ _ _ _ Hend) as (Hadapter & Hb & _ & Hfail & Hwarn).
    destruct (Hfail Herror) as (Hok & Hnotfull & Hdec & Hcalls).
    destruct (Hwarn Hok) as [Hwarnings _].
    split; [exact Hdata|]. split; [exact Hadapter|].
    split; [rewrite Hb, Hnotfull, Hflag; reflexivity|].
    assert (Hlog2 : count is_Get_warning log2 = 0%nat /\ count is_Push_data log2 = 1%nat).
    { destruct (push_and_decode_log _ _ _ _ _ _ Hpush) as [[-> _]|[-> _]];
        split; reflexivity. }
    destruct Hlog2 as [Hl1 Hl2].
    split.
    + rewrite Hwarnings, count_app, count_cons, Hp1, Hl1. reflexivity.
    + right. exists ret. rewrite Hcalls. split; [apply last_snoc|].
      split; [exact Hok|]. split; [exact Hnotfull|].
      rewrite !count_app, !count_cons, Hp2, Hl2, count_nil. reflexivity.
Qed.

(** X9: when [de265_push_data], called with the adapter's size as an [int],
    does not return [DE265_OK], the cycle does not call [de265_decode]: the
    code of the push is handled as the result.  No warning is fetched, the
    context is the one the push left, and the backlog flag is set exactly
    for [DE265_ERROR_IMAGE_BUFFER_FULL]. *)
Theorem rejected_push_is_not_decoded (fuel : nat) (dec : GstLibde265Dec) (c c1 : Ctx)
    (adapter frame_data : list byte) (markers : list Z) (r : de265_error)
    (out : parsed) :
  ctx dec = Some c ->
  (buffer_full dec = true -> de265_peek_next_picture c = None) ->
  adapter <> [] ->
  reframe (mode dec) adapter = Reframed frame_data markers ->
  de265_push_data c frame_data (CInt.to_int (size_of adapter)) = (r, c1) ->
  is_DE265_OK r = false ->
  parse fuel dec adapter true = Returned out ->
  count is_Decode (calls out) = 0%nat /\
  count is_Push_data (calls out) = 1%nat /\
  count is_Get_warning (calls out) = 0%nat /\
  ctx (dec_after out) = Some c1 /\
  buffer_full (dec_after out) = is_IMAGE_BUFFER_FULL r /\
  (is_IMAGE_BUFFER_FULL r = false ->
   flow out = GST_FLOW_ERROR \/
   r = DE265_ERROR_WAITING_FOR_INPUT_DATA /\
   HAVE_DE265_ERROR_WAITING_FOR_INPUT_DATA = true /\
   flow out = GST_VIDEO_DECODER_FLOW_NEED_DATA).
Proof.
  intros Hctx Hpeek Hdata Hre Hpush Hrejected Hout.
  destruct (parse_inversion _ _ _ _ _ Hout)
    as [(Hfull & c' & img & Hctx' & Hpeek' & ->)|(pre & dec0 & Hpre & Hrun)].
  { rewrite Hctx in Hctx'. injection Hctx' as <-. rewrite (Hpeek Hfull) in Hpeek'.
    discriminate. }
  assert (Hp : count is_Get_warning pre = 0%nat /\ count is_Push_data pre = 0%nat /\
               count is_Decode pre = 0%nat /\ buffer_full dec0 = false).
  { destruct Hpre as [(Hb & -> & ->)|(_ & -> & -> & _)]; repeat split; auto. }
  destruct Hp as (Hp1 & Hp2 & Hp3 & Hflag).
  destruct Hrun as [(Hnil & _)|[(_ & Hmap & _)|[(_ & _ & (b & sd & Hover) & _)|
              (_ & _ & fd & ms & c' & ret & c2 & log2 & Hre' & Hctx' & Hfeed & Hend)]]];
    [contradiction|discriminate|congruence|].
  rewrite Hre in Hre'. injection Hre' as <- <-.
  rewrite Hctx in Hctx'. injection Hctx' as <-.
  unfold push_and_decode in Hfeed. rewrite Hpush, Hrejected in Hfeed.
  injection Hfeed as <- <- <-.
  destruct (feed_ends_element _ _ _ _ _ _ Hend) as (_ & Hb & _ & _ & Hwarn).
  destruct (Hwarn Hrejected) as [Hwarnings Hafter].
  destruct (feed_ends_calls
              (fun c => is_Push_data c = false /\ is_Decode c = false) _ _ _ _ _ _
              ltac:(repeat split) ltac:(repeat split) ltac:(repeat split)
              ltac:(repeat split) ltac:(repeat split) ltac:(repeat split)
              ltac:(repeat split) ltac:(repeat split) Hend)
    as (rest & Hcalls & Hrest).
  assert (Hr : count is_Push_data rest = 0%nat /\ count is_Decode rest = 0%nat).
  { split; apply count_zero; eapply Forall_impl; try exact Hrest;
      cbn; intros ? (? & ?); assumption. }
  destruct Hr as [Hr1 Hr2].
  split; [rewrite Hcalls, !count_app, !count_cons, Hp3, Hr2, count_nil; reflexivity|].
  split; [rewrite Hcalls, !count_app, !count_cons, Hp2, Hr1, count_nil; reflexivity|].
  split; [rewrite Hwarnings, !count_app, !count_cons, Hp1, count_nil; reflexivity|].
  split; [exact Hafter|]. split; [rewrite Hb, Hflag; apply orb_false_r|].
  intros Hnotfull. revert Hend. unfold feed_ends.
  destruct r; try discriminate.
  - destruct HAVE_DE265_ERROR_WAITING_FOR_INPUT_DATA; intros ->; auto.
  - intros ->. auto.
Qed.

(** X10: a cycle leaves the backlog flag set only without fetching warnings
    and on a path that ends in [gst_video_decoder_have_frame] or asks for
    data: its returned value is an error only if the base class returned
    one for the frame handed over.  If it pushed nothing, the flag was
    already set and a backlog picture was handed over with the adapter
    untouched.  After a feed the flag tells whether the engine reported a
    full picture buffer. *)
Theorem backlog_flag_records_full_buffer (fuel : nat) (dec : GstLibde265Dec)
    (adapter : list byte) (map_ok : bool) (out : parsed) :
  parse fuel dec adapter map_ok = Returned out ->
  (buffer_full (dec_after out) = true ->
   count is_Get_warning (calls out) = 0%nat /\
   (flow out = Return_have_frame \/ flow out = GST_VIDEO_DECODER_FLOW_NEED_DATA) /\
   (forall base,
      returned_value base (flow out) = GST_FLOW_ERROR ->
      flow out = Return_have_frame /\ base = GST_FLOW_ERROR /\
      last (calls out) = Some Have_frame) /\
   (count is_Push_data (calls out) = 0%nat ->
    buffer_full dec = true /\ flow out = Return_have_frame /\
    adapter_after out = adapter)) /\
  (forall c frame_data markers ret c2 log2,
     ctx dec = Some c ->
     (buffer_full dec = true -> de265_peek_next_picture c = None) ->
     adapter <> [] -> map_ok = true ->
     reframe (mode dec) adapter = Reframed frame_data markers ->
     push_and_decode c frame_data (size_of adapter) = (ret, c2, log2) ->
     buffer_full (dec_after out) = is_IMAGE_BUFFER_FULL ret).
Proof.
  intros Hout.
  assert (Hvalue : flow out = Return_have_frame \/
                   flow out = GST_VIDEO_DECODER_FLOW_NEED_DATA ->
                   forall base,
                     returned_value base (flow out) = GST_FLOW_ERROR ->
                     flow out = Return_have_frame /\ base = GST_FLOW_ERROR /\
                     last (calls out) = Some Have_frame).
  { intros Hpath base Hbase.
    destruct Hpath as [Hpath|Hpath]; [|rewrite Hpath in Hbase; discriminate].
    split; [exact Hpath|]. split; [rewrite Hpath in Hbase; exact Hbase|].
    destruct (parse_ends HAVE_DE265_ERROR_WAITING_FOR_INPUT_DATA _ _ _ _ _ Hout)
      as (dec' & log & _ & _ & _ & _ & _ & [(_ & _ & Hno)|(img & _ & -> & _)]);
      [contradiction|].
    destruct (image_available_calls dec' img) as (_ & _ & _ & Hlast).
    rewrite last_app, Hlast. reflexivity. }
  destruct (parse_inversion _ _ _ _ _ Hout)
    as [(Hfull & c & img & Hctx & Hpeek & Hshape)|(pre & dec0 & Hpre & Hrun)].
  { split.
    - intros _. assert (Hpath : flow out = Return_have_frame) by (rewrite Hshape; reflexivity).
      split; [|split; [left; exact Hpath|split; [apply Hvalue; left; exact Hpath|]]].
      + rewrite Hshape. cbn [calls]. rewrite count_cons. cbn [is_Get_warning].
        rewrite count_zero by (apply image_available_log; reflexivity). reflexivity.
      + intros _. rewrite Hshape. auto.
    - intros c' fd ms ret c2 log2 Hctx' Hnone. rewrite Hctx in Hctx'.
      injection Hctx' as <-. rewrite (Hnone Hfull) in Hpeek. discriminate. }
  assert (Hp : count is_Get_warning pre = 0%nat /\ buffer_full dec0 = false).
  { destruct Hpre as [(Hb & -> & ->)|(_ & -> & -> & _)]; repeat split; auto. }
  destruct Hp as (Hp1 & Hflag).
  destruct Hrun as [(Hnil & Hshape)|[(Hdata & Hmap & Hshape)|
              [(Hdata & _ & (b & sd & Hover) & Hshape)|
              (Hdata & _ & fd & ms & c & ret & c2 & log2 & Hre & Hctx & Hpush & Hend)]]].
  1-3: split; [rewrite Hshape; cbn [dec_after]; congruence|];
       intros c' fd' ms' ret' c2' log2' _ _ Hdata' Hmap' Hre'; congruence.
  destruct (feed_ends_element _ _ _ _ _ _ Hend) as (Hadapter & Hb & _ & Hfail & Hwarn).
  rewrite Hflag, orb_false_r in Hb. split.
  - rewrite Hb. intros Hret. destruct ret; try discriminate.
    destruct (Hwarn eq_refl) as [Hwarnings _].
    assert (Hl : count is_Get_warning log2 = 0%nat /\
                 (0 < count is_Push_data log2)%nat).
    { destruct (push_and_decode_log _ _ _ _ _ _ Hpush) as [[-> _]|[-> _]];
        split; vm_compute; lia. }
    destruct Hl as (Hl1 & Hl2).
    split; [rewrite Hwarnings, count_app, count_cons, Hp1, Hl1; reflexivity|].
    assert (Hpath : flow out = Return_have_frame \/
                    flow out = GST_VIDEO_DECODER_FLOW_NEED_DATA).
    { unfold feed_ends in Hend. rewrite Hend. unfold peek_and_return.
      destruct (de265_peek_next_picture c2) as [img|]; [|auto].
      destruct (_gst_libde265_image_available _ img). auto. }
    split; [exact Hpath|]. split; [exact (Hvalue Hpath)|].
    unfold feed_ends in Hend. rewrite Hend.
    destruct (peek_and_return_calls (set_buffer_full (set_ctx dec0 (Some c2)) true) c2
                (pre ++ Take_buffer (size_of adapter) :: log2))
      as (rest & -> & _).
    rewrite !count_app, count_cons. lia.
  - intros c' fd' ms' ret' c2' log2' Hctx' _ _ _ Hre' Hpush'.
    rewrite Hctx in Hctx'. injection Hctx' as <-.
    rewrite Hre in Hre'. injection Hre' as <- <-.
    rewrite Hpush in Hpush'. injection Hpush' as <- <- <-. exact Hb.
Qed.

(** Where a handed-over frame comes from *)
Lemma have_frame_source (fuel : nat) (dec : GstLibde265Dec)
    (adapter : list byte) (map_ok : bool) (out : parsed) :
  parse fuel dec adapter map_ok = Returned out ->
  flow out = Return_have_frame ->
  exists d c img,
    ctx d = Some c /\ de265_peek_next_picture c = Some img /\
    dec_after out = fst (_gst_libde265_image_available d img).
Proof.
  intros Hout Hflow.
  assert (Hpr : forall d c l,
            ctx d = Some c ->
            flow (peek_and_return d c l) = Return_have_frame ->
            exists img, de265_peek_next_picture c = Some img /\
              dec_after (peek_and_return d c l)
                = fst (_gst_libde265_image_available d img)).
  { intros d c l Hd. unfold peek_and_return.
    destruct (de265_peek_next_picture c) as [img|]; [|discriminate].
    destruct (_gst_libde265_image_available d img) eqn:Hav. intros _. exists img.
    rewrite Hav. split; reflexivity. }
  destruct (parse_inversion _ _ _ _ _ Hout)
    as [(Hfull & c & img & Hctx & Hpeek & ->)|(pre & dec0 & Hpre & Hrun)].
  { exists dec, c, img. auto. }
  destruct Hrun as [(Hnil & ->)|[(Hdata & _ & ->)|[(Hdata & _ & _ & ->)|
              (Hdata & _ & fd & ms & c & ret & c2 & log2 & _ & _ & Hpush & Hend)]]];
    try discriminate.
  unfold feed_ends in Hend. destruct ret.
  - destruct Hend as (c3 & log3 & _ & ->).
    destruct (Hpr (set_ctx (set_ctx dec0 (Some c2)) (Some c3)) c3 _ eq_refl Hflow)
      as (img & Hpeek & Hafter).
    exists (set_ctx (set_ctx dec0 (Some c2)) (Some c3)), c3, img. auto.
  - subst out.
    destruct (Hpr (set_buffer_full (set_ctx dec0 (Some c2)) true) c2 _ eq_refl Hflow)
      as (img & Hpeek & Hafter).
    exists (set_buffer_full (set_ctx dec0 (Some c2)) true), c2, img. auto.
  - destruct HAVE_DE265_ERROR_WAITING_FOR_INPUT_DATA; subst out; discriminate.
  - subst out. discriminate.
Qed.

End Feeding.

Section FeedingQueues.

Context {Ctx Image : Type} `{!Engine Ctx Image} `{!EngineQueues}.

Variable HAVE_DE265_ERROR_WAITING_FOR_INPUT_DATA : bool.

Local Abbreviation parse :=
  (gst_libde265_dec_parse HAVE_DE265_ERROR_WAITING_FOR_INPUT_DATA).

(** With a context and a walk that stays inside the buffer, the cycle
    returns: the warning loop ends with the engine's queue. *)
Lemma parse_returns (dec : GstLibde265Dec) (c : Ctx) (adapter : list byte)
    (map_ok : bool) :
  ctx dec = Some c ->
  (forall offset, reframe (mode dec) adapter <> Reframe_undefined offset) ->
  exists fuel0, forall fuel, (fuel0 <= fuel)%nat ->
    exists out, parse fuel dec adapter map_ok = Returned out.
Proof.
  intros Hctx Hinside.
  assert (Hfeed : forall dec0 pre,
            ctx dec0 = Some c -> mode dec0 = mode dec ->
            exists fuel0, forall fuel, (fuel0 <= fuel)%nat ->
              exists out,
                parse_feed HAVE_DE265_ERROR_WAITING_FOR_INPUT_DATA fuel dec0 adapter
                  map_ok pre = Returned out).
  { intros dec0 pre Hctx0 Hmode. unfold parse_feed, with_ctx. rewrite Hctx0, Hmode.
    destruct (size_of adapter =? 0); [exists 0%nat; eauto|].
    destruct (negb map_ok); [exists 0%nat; eauto|].
    destruct (reframe (mode dec) adapter) as [fd ms|fd sd|off] eqn:Hre;
      [|exists 0%nat; eauto|destruct (Hinside off); reflexivity].
    destruct (push_and_decode c fd (size_of adapter)) as [[ret c2] log2].
    destruct ret; try (exists 0%nat; eauto; fail).
    - exists (S (length (queued_warnings c2))). intros fuel Hfuel.
      destruct (get_warnings_drains fuel c2) as (c3 & -> & _); [lia|]. eauto.
    - exists 0%nat. intros fuel _.
      destruct HAVE_DE265_ERROR_WAITING_FOR_INPUT_DATA; eauto. }
  unfold gst_libde265_dec_parse, with_ctx. rewrite Hctx.
  destruct (buffer_full dec); [|apply Hfeed; auto].
  destruct (de265_peek_next_picture c) as [img|]; [|apply Hfeed; auto].
  exists 0%nat. intros fuel _.
  destruct (_gst_libde265_image_available dec img). eauto.
Qed.

(** C1: a cycle on an element whose backlog flag is set first peeks at the
    engine.  With a picture pending it hands that picture over and returns
    through [gst_video_decoder_have_frame]: no buffer is taken, nothing is
    pushed, the adapter and the flag are left as they were.  With no
    picture pending the cycle is the cycle of the element with the flag
    cleared, after the peek: with an empty adapter it asks for data, and
    with a chunk that maps and reframes it returns, having taken the whole
    adapter and pushed the reframed bytes with the adapter's size as an
    [int], decoded if the push was accepted, with no further feeding call;
    the flag it leaves tells whether the engine reported a full picture
    buffer. *)
Theorem backlog_is_drained_first (fuel : nat) (dec : GstLibde265Dec) (c : Ctx)
    (adapter : list byte) (map_ok : bool) :
  ctx dec = Some c ->
  buffer_full dec = true ->
  (forall img, de265_peek_next_picture c = Some img ->
     exists out,
       parse fuel dec adapter map_ok = Returned out /\
       flow out = Return_have_frame /\
       calls out = Peek_next_picture :: snd (_gst_libde265_image_available dec img) /\
       last (calls out) = Some Have_frame /\
       count is_frame (calls out) = 1%nat /\
       count is_Push_data (calls out) = 0%nat /\
       count is_Take_buffer (calls out) = 0%nat /\
       adapter_after out = adapter /\
       buffer_full (dec_after out) = true /\
       ctx (dec_after out) = Some c) /\
  (de265_peek_next_picture c = None ->
     parse fuel dec adapter map_ok =
     with_calls_before [Peek_next_picture]
       (parse fuel (set_buffer_full dec false) adapter map_ok) /\
     (adapter = [] ->
      parse fuel dec adapter map_ok =
      Returned {| flow := GST_VIDEO_DECODER_FLOW_NEED_DATA;
                  dec_after := set_buffer_full dec false;
                  adapter_after := []; calls := [Peek_next_picture] |}) /\
     (forall frame_data markers,
        adapter <> [] -> map_ok = true ->
        reframe (mode dec) adapter = Reframed frame_data markers ->
        let length := CInt.to_int (size_of adapter) in
        let pushed := de265_push_data c frame_data length in
        let accepted := is_DE265_OK (fst pushed) in
        let decoded := de265_decode (snd pushed) in
        let ret := if accepted then fst decoded else fst pushed in
        let c2 := if accepted then snd decoded else snd pushed in
        (exists fuel0, forall fuel', (fuel0 <= fuel')%nat ->
           exists out, parse fuel' dec adapter map_ok = Returned out) /\
        forall fuel' out,
          parse fuel' dec adapter map_ok = Returned out ->
          adapter_after out = [] /\
          buffer_full (dec_after out) = is_IMAGE_BUFFER_FULL ret /\
          (is_DE265_OK ret = false -> ctx (dec_after out) = Some c2) /\
          (is_DE265_OK ret = true ->
           exists c3 log3,
             get_warnings fuel' c2 = Some (c3, log3) /\
             ctx (dec_after out) = Some c3) /\
          exists rest,
            calls out =
              [Peek_next_picture; Take_buffer (size_of adapter);
               Push_data frame_data length]
              ++ (if accepted then [Decode] else []) ++ rest /\
            feeding_calls rest = [])) /\
  (forall out,
     parse fuel dec adapter map_ok = Returned out ->
     buffer_full (dec_after out) = false ->
     de265_peek_next_picture c = None).
Proof.
  intros Hctx Hfull.
  assert (Hsome : forall img, de265_peek_next_picture c = Some img ->
     exists out,
       parse fuel dec adapter map_ok = Returned out /\
       flow out = Return_have_frame /\
       calls out = Peek_next_picture :: snd (_gst_libde265_image_available dec img) /\
       last (calls out) = Some Have_frame /\
       count is_frame (calls out) = 1%nat /\
       count is_Push_data (calls out) = 0%nat /\
       count is_Take_buffer (calls out) = 0%nat /\
       adapter_after out = adapter /\
       buffer_full (dec_after out) = true /\
       ctx (dec_after out) = Some c).
  { intros img Hpeek. unfold gst_libde265_dec_parse, with_ctx.
    rewrite Hfull, Hctx, Hpeek.
    pose proof (image_available_calls dec img) as (Hpush & _ & Hframe & Hlast).
    pose proof (image_available_keeps dec img) as (Hc & Hb & _).
    pose proof (image_available_log (fun c => is_Take_buffer c = false) dec img
                  eq_refl eq_refl (fun _ _ => eq_refl) (fun _ _ => eq_refl)) as Htake.
    destruct (_gst_libde265_image_available dec img) as [dec' calls'] eqn:Havail.
    cbn [fst snd] in *. eexists. split; [reflexivity|].
    cbn [flow calls adapter_after dec_after].
    split; [reflexivity|]. split; [reflexivity|].
    split; [destruct calls'; [discriminate|exact Hlast]|].
    rewrite !count_cons. cbn [is_frame is_Push_data is_Take_buffer].
    split; [exact Hframe|]. split; [exact Hpush|].
    split; [apply count_zero; exact Htake|].
    split; [reflexivity|]. split; congruence. }
  split; [exact Hsome|]. split.
  2:{ intros out Hout Hclear.
      destruct (de265_peek_next_picture c) as [img|] eqn:Hpeek; [|reflexivity].
      destruct (Hsome img eq_refl)
        as (out' & Hout' & _ & _ & _ & _ & _ & _ & _ & Hkeep & _).
      congruence. }
  intros Hpeek. split.
  { unfold gst_libde265_dec_parse at 1. unfold with_ctx.
    rewrite Hfull, Hctx, Hpeek. rewrite parse_feed_log.
    unfold gst_libde265_dec_parse. reflexivity. }
  split.
  { intros ->. unfold gst_libde265_dec_parse, with_ctx.
    rewrite Hfull, Hctx, Hpeek. reflexivity. }
  intros fd ms Hdata -> Hre length pushed accepted decoded ret c2.
  split.
  { apply (parse_returns dec c adapter true Hctx). intros off. rewrite Hre.
    discriminate. }
  intros fuel' out Hout.
  destruct (parse_inversion _ _ _ _ _ _ Hout)
    as [(_ & c' & img & Hctx' & Hpeek' & _)|(pre & dec0 & Hpre & Hrun)].
  { rewrite Hctx in Hctx'. injection Hctx' as <-. rewrite Hpeek in Hpeek'.
    discriminate. }
  destruct Hpre as [(Hclear & _)|(_ & -> & -> & _)]; [congruence|].
  destruct Hrun as [(Hnil & _)|[(_ & Hmap & _)|[(_ & _ & (b & sd & Hover) & _)|
              (_ & _ & fd' & ms' & c' & ret' & c2' & log2 & Hre' & Hctx' & Hfeed & Hend)]]];
    [contradiction|discriminate|congruence|].
  rewrite Hre in Hre'. injection Hre' as <- <-.
  rewrite Hctx in Hctx'. injection Hctx' as <-.
  assert (Hfed : ret' = ret /\ c2' = c2 /\
                 log2 = Push_data fd length :: (if accepted then [Decode] else [])).
  { revert Hfeed. unfold push_and_decode. subst ret c2 accepted decoded pushed length.
    destruct (de265_push_data c fd (CInt.to_int (size_of adapter))) as [r c1].
    cbn [fst snd]. destruct (is_DE265_OK r).
    - destruct (de265_decode c1) as [r2 c3]. intros [= <- <- <-]. auto.
    - intros [= <- <- <-]. auto. }
  destruct Hfed as (-> & -> & ->).
  destruct (feed_ends_element _ _ _ _ _ _ _ Hend) as (Hadapter & Hb & _ & _ & Hrejected).
  destruct (feeding_calls_none_after _ _ _ _ _ _ _ Hend) as (rest & Hcalls & Hrest).
  split; [exact Hadapter|].
  split; [rewrite Hb; apply orb_false_r|].
  split; [intros Hno; apply (Hrejected Hno)|].
  split.
  { intros Hok. unfold feed_ends in Hend. destruct ret; try discriminate.
    destruct Hend as (c3 & log3 & Hrun & ->). exists c3, log3. split; [exact Hrun|].
    destruct (peek_and_return_calls
                (set_ctx (set_ctx (set_buffer_full dec false) (Some c2)) (Some c3)) c3
                (([Peek_next_picture]
                  ++ Take_buffer (size_of adapter)
                     :: Push_data fd length :: (if accepted then [Decode] else []))
                 ++ log3))
      as (_ & _ & _ & _ & Hc & _).
    exact Hc. }
  exists rest. split; [|exact Hrest].
  rewrite Hcalls. reflexivity.
Qed.

(** X11: on an element with a context, and an engine whose warning queue is
    finite, a cycle with enough fuel returns, or it stops because the
    length walk of the packetized mode left the mapped buffer backwards. *)
Theorem cycle_returns_or_leaves_the_buffer (dec : GstLibde265Dec) (c : Ctx)
    (adapter : list byte) (map_ok : bool) :
  ctx dec = Some c ->
  exists fuel0, forall fuel, (fuel0 <= fuel)%nat ->
    (exists out, parse fuel dec adapter map_ok = Returned out) \/
    (exists offset,
       parse fuel dec adapter map_ok = Undefined_behaviour (Out_of_bounds offset) /\
       reframe (mode dec) adapter = Reframe_undefined offset /\
       mode dec = GST_TYPE_LIBDE265_DEC_PACKETIZED /\
       offset < 0 /\ adapter <> [] /\ map_ok = true).
Proof.
  intros Hctx.
  destruct (reframe (mode dec) adapter) as [fd ms|fd sd|off] eqn:Hre.
  1-2: destruct (parse_returns dec c adapter map_ok Hctx) as (fuel0 & Hret);
         [intros off'; rewrite Hre; discriminate|];
       exists fuel0; intros fuel Hfuel; left; exact (Hret fuel Hfuel).
  assert (Hmode : mode dec = GST_TYPE_LIBDE265_DEC_PACKETIZED).
  { destruct (mode dec); [reflexivity|discriminate]. }
  assert (Hoff : off < 0).
  { revert Hre. rewrite Hmode. unfold reframe.
    pose proof (replace_length_fields_total adapter) as Htotal.
    pose proof (replace_length_fields_ends (walk_fuel adapter) adapter 0 []) as Hends.
    destruct (replace_length_fields (walk_fuel adapter) adapter 0 []) as [sd b m|sd b m|].
    - destruct (size_of adapter <? sd); discriminate.
    - intros [= <-]. tauto.
    - contradiction. }
  exists 0%nat. intros fuel _.
  assert (Hfeed : forall dec0 pre,
            ctx dec0 = Some c -> mode dec0 = mode dec ->
            (exists out,
               parse_feed HAVE_DE265_ERROR_WAITING_FOR_INPUT_DATA fuel dec0 adapter
                 map_ok pre = Returned out) \/
            (parse_feed HAVE_DE265_ERROR_WAITING_FOR_INPUT_DATA fuel dec0 adapter
               map_ok pre = Undefined_behaviour (Out_of_bounds off) /\
             adapter <> [] /\ map_ok = true)).
  { intros dec0 pre Hctx0 Hmode0. unfold parse_feed. rewrite Hmode0, Hre.
    destruct (size_of adapter =? 0) eqn:Hsize; [eauto|].
    destruct map_ok; cbn [negb]; [|eauto].
    right. split; [reflexivity|]. split; [|reflexivity]. intros ->. discriminate. }
  unfold gst_libde265_dec_parse, with_ctx. rewrite Hctx.
  assert (Hcase : forall dec0 pre,
            ctx dec0 = Some c -> mode dec0 = mode dec ->
            (exists out,
               parse_feed HAVE_DE265_ERROR_WAITING_FOR_INPUT_DATA fuel dec0 adapter
                 map_ok pre = Returned out) \/
            (exists offset,
               parse_feed HAVE_DE265_ERROR_WAITING_FOR_INPUT_DATA fuel dec0 adapter
                 map_ok pre = Undefined_behaviour (Out_of_bounds offset) /\
               Reframe_undefined off = Reframe_undefined offset /\
               mode dec = GST_TYPE_LIBDE265_DEC_PACKETIZED /\
               offset < 0 /\ adapter <> [] /\ map_ok = true)).
  { intros dec0 pre H0 H1. destruct (Hfeed dec0 pre H0 H1) as [Hr|(Hu & Hd & Hm)];
      [left; exact Hr|right; exists off; auto 8]. }
  destruct (buffer_full dec); [|apply Hcase; auto].
  destruct (de265_peek_next_picture c) as [img|]; [|apply Hcase; auto].
  left. destruct (_gst_libde265_image_available dec img). eauto.
Qed.

(** X4: in raw mode a non-empty chunk is pushed as it is, once, with its size
    converted to [int] as length, which is its size up to [INT_MAX] bytes;
    no overflow is ever reported, and the cycle returns. *)
Theorem raw_chunk_is_pushed_unchanged (dec : GstLibde265Dec) (c : Ctx)
    (adapter : list byte) :
  mode dec = GST_TYPE_LIBDE265_DEC_RAW ->
  ctx dec = Some c ->
  (buffer_full dec = true -> de265_peek_next_picture c = None) ->
  adapter <> [] ->
  (forall fuel out,
     parse fuel dec adapter true = Returned out ->
     count is_overflow_error (calls out) = 0%nat /\
     exists after,
       calls out =
         (if buffer_full dec then [Peek_next_picture] else [])
         ++ Take_buffer (size_of adapter)
            :: Push_data adapter (CInt.to_int (size_of adapter)) :: after /\
       count is_Push_data after = 0%nat) /\
  (size_of adapter <= CInt.INT_MAX ->
   CInt.to_int (size_of adapter) = size_of adapter) /\
  (exists fuel0, forall fuel, (fuel0 <= fuel)%nat ->
     exists out, parse fuel dec adapter true = Returned out).
Proof.
  intros Hmode Hctx Hpeek Hdata. split; [|split].
  2:{ intros Hsmall. apply to_int_small. unfold CInt.INT_MAX in Hsmall.
      pose proof (size_of_nonneg adapter). lia. }
  2:{ apply (parse_returns dec c adapter true Hctx). intros off. rewrite Hmode.
      discriminate. }
  intros fuel out Hout.
  destruct (parse_inversion _ _ _ _ _ _ Hout)
    as [(Hfull & c' & img & Hctx' & Hpeek' & ->)|(pre & dec0 & Hpre & Hrun)].
  { rewrite Hctx in Hctx'. injection Hctx' as <-. rewrite (Hpeek Hfull) in Hpeek'.
    discriminate. }
  assert (Hp : pre = (if buffer_full dec then [Peek_next_picture] else []) /\
               Forall (fun c => is_overflow_error c = false) pre).
  { destruct Hpre as [(-> & -> & _)|(-> & -> & _)]; split;
      first [reflexivity|repeat constructor]. }
  destruct Hp as [Hp Hquiet]. rewrite <- Hp.
  destruct Hrun as [(Hnil & _)|[(_ & Hmap & _)|[(_ & _ & (b & sd & Hover) & _)|
              (_ & _ & fd & ms & c' & ret & c2 & log2 & Hre & _ & Hfeed & Hend)]]];
    [contradiction|discriminate|rewrite Hmode in Hover; discriminate|].
  rewrite Hmode in Hre. injection Hre as <- <-.
  destruct (feed_ends_calls _
              (fun c => is_Push_data c = false /\ is_overflow_error c = false)
              _ _ _ _ _ _
              ltac:(repeat split) ltac:(repeat split) ltac:(repeat split)
              ltac:(repeat split) ltac:(repeat split) ltac:(repeat split)
              ltac:(repeat split) ltac:(repeat split) Hend)
    as (rest & -> & Hrest).
  assert (Hr : count is_Push_data rest = 0%nat /\
               Forall (fun c => is_overflow_error c = false) rest).
  { split; [apply count_zero|]; eapply Forall_impl; try exact Hrest;
      cbn; intros ? (? & ?); assumption. }
  destruct Hr as [Hr1 Hr2].
  destruct (push_and_decode_log _ _ _ _ _ _ Hfeed) as [[-> _]|[-> _]].
  - split.
    + apply count_zero. rewrite !Forall_app. split; [split|]; try assumption.
      repeat constructor.
    + exists (Decode :: rest). split; [rewrite <- !app_assoc; reflexivity|].
      rewrite count_cons. exact Hr1.
  - split.
    + apply count_zero. rewrite !Forall_app. split; [split|]; try assumption.
      repeat constructor.
    + exists rest. split; [rewrite <- !app_assoc; reflexivity|exact Hr1].
Qed.

(** X12: when a cycle returns through [gst_video_decoder_have_frame], the
    engine it leaves holds a pending picture, the element records the width
    and height of that picture, and the next [gst_libde265_dec_handle_frame]
    pulls exactly that picture and keeps the recorded geometry. *)
Theorem handed_frame_is_the_one_pulled (fuel : nat) (dec : GstLibde265Dec)
    (adapter : list byte) (map_ok : bool) (out : parsed) :
  parse fuel dec adapter map_ok = Returned out ->
  flow out = Return_have_frame ->
  exists c img rest,
    ctx (dec_after out) = Some c /\
    pending c = img :: rest /\
    width (dec_after out) = de265_get_image_width img 0 /\
    height (dec_after out) = de265_get_image_height img 0 /\
    fst (de265_get_next_picture c) = Some img /\
    forall output_buffer map_ok' h,
      gst_libde265_dec_handle_frame (dec_after out) output_buffer map_ok' = Returned h ->
      hd_error (handle_calls h) = Some Get_next_picture /\
      (exists c', ctx (handle_dec h) = Some c' /\ pending c' = rest) /\
      width (handle_dec h) = de265_get_image_width img 0 /\
      height (handle_dec h) = de265_get_image_height img 0.
Proof.
  intros Hout Hflow.
  destruct (have_frame_source _ _ _ _ _ _ Hout Hflow)
    as (d & c & img & Hctx & Hpeek & Hafter).
  assert (Hqueue : exists rest, pending c = img :: rest).
  { rewrite peek_pending in Hpeek. destruct (pending c) as [|i rest]; [discriminate|].
    injection Hpeek as ->. eauto. }
  destruct Hqueue as [rest Hqueue].
  assert (Hnext : fst (de265_get_next_picture c) = Some img)
    by (rewrite get_next_head, Hqueue; reflexivity).
  assert (Hc : ctx (dec_after out) = Some c).
  { rewrite Hafter. destruct (image_available_keeps d img) as (-> & _). exact Hctx. }
  assert (Hgeo : width (dec_after out) = de265_get_image_width img 0 /\
                 height (dec_after out) = de265_get_image_height img 0).
  { rewrite Hafter. unfold _gst_libde265_image_available.
    destruct (negb (_ =? width d)) eqn:Hw; cbn [orb fst width height set_geometry];
      [auto|].
    destruct (negb (_ =? height d)) eqn:Hh; cbn [fst width height set_geometry]; [auto|].
    apply negb_false_iff in Hw, Hh. apply Z.eqb_eq in Hw, Hh. auto. }
  destruct Hgeo as [Hw Hh].
  exists c, img, rest. repeat (split; [assumption|]).
  intros output_buffer map_ok' h. unfold gst_libde265_dec_handle_frame, with_ctx.
  rewrite Hc. pose proof (get_next_tail c) as Htail. rewrite Hqueue in Htail.
  destruct (de265_get_next_picture c) as [i c'] eqn:Hpull. cbn [fst snd] in *.
  subst i. cbn [tail] in Htail.
  destruct output_buffer as [buf|].
  2:{ intros [= <-]. cbn. eauto 8. }
  destruct map_ok'; cbn [negb].
  2:{ intros [= <-]. cbn. eauto 8. }
  destruct (copy_planes [0; 1; 2] img buf 0) as [[out' dest]| |]; try discriminate.
  intros [= <-]. cbn. eauto 8.
Qed.

(** X13: [gst_libde265_dec_handle_frame] pulls the oldest picture before it
    allocates: when the allocation or the map of the output buffer fails,
    the picture is gone from the queue and no frame is finished.  With no
    picture pending it returns [GST_FLOW_OK] after the pull alone. *)
Theorem pulled_picture_is_dropped_on_failure (dec : GstLibde265Dec) (c : Ctx)
    (output_buffer : option (list byte)) (map_ok : bool) (h : handled) :
  ctx dec = Some c ->
  gst_libde265_dec_handle_frame dec output_buffer map_ok = Returned h ->
  (exists c', ctx (handle_dec h) = Some c' /\ pending c' = tail (pending c)) /\
  count is_frame (handle_calls h)
    = (if is_Return_finish_frame (handle_flow h) then 1 else 0)%nat /\
  (pending c = [] ->
   handle_flow h = GST_FLOW_OK /\ handle_calls h = [Get_next_picture]) /\
  (pending c <> [] ->
   (output_buffer = None ->
    handle_flow h = Return_allocate_output_frame /\
    handle_calls h = [Get_next_picture; Allocate_output_frame]) /\
   (output_buffer <> None -> map_ok = false ->
    handle_flow h = GST_FLOW_ERROR /\
    handle_calls h = [Get_next_picture; Allocate_output_frame]) /\
   (output_buffer <> None -> map_ok = true ->
    handle_flow h = Return_finish_frame)).
Proof.
  intros Hctx. unfold gst_libde265_dec_handle_frame, with_ctx. rewrite Hctx.
  pose proof (get_next_head c) as Hhead. pose proof (get_next_tail c) as Htail.
  destruct (de265_get_next_picture c) as [i c'] eqn:Hpull. cbn [fst snd] in *.
  destruct (pending c) as [|img rest] eqn:Hqueue; cbn [head tail] in *; subst i.
  { intros [= <-]. cbn. split; [eauto|]. split; [reflexivity|].
    split; [auto|]. intros Hne. contradiction. }
  destruct output_buffer as [buf|].
  2:{ intros [= <-]. cbn. split; [eauto|]. split; [reflexivity|].
      split; [discriminate|]. intros _. split; [auto|]. split; intros Hne; contradiction. }
  destruct map_ok; cbn [negb].
  2:{ intros [= <-]. cbn. split; [eauto|]. split; [reflexivity|].
      split; [discriminate|]. intros _. split; [discriminate|].
      split; [auto|discriminate]. }
  destruct (copy_planes [0; 1; 2] img buf 0) as [[out' dest]| |]; try discriminate.
  intros [= <-]. cbn. split; [eauto|]. split; [reflexivity|].
  split; [discriminate|]. intros _. split; [discriminate|]. split; [discriminate|auto].
Qed.

(** X15: a flush pulls once more than there are pending pictures, keeps the
    geometry, and leaves the element so that the next cycle goes straight
    to the adapter: it takes the chunk first, or asks for data without any
    call when there is none. *)
Theorem flushed_element_feeds_at_once (fuel : nat) (dec : GstLibde265Dec) (c : Ctx) :
  ctx dec = Some c ->
  (length (pending c) < fuel)%nat ->
  exists dec' c',
    gst_libde265_dec_flush fuel dec
      = Returned (dec', replicate (S (length (pending c))) Get_next_picture) /\
    ctx dec' = Some c' /\ pending c' = [] /\
    width dec' = width dec /\ height dec' = height dec /\
    forall fuel' adapter map_ok out,
      parse fuel' dec' adapter map_ok = Returned out ->
      hd_error (calls out)
        = match adapter with
          | [] => None
          | _ => Some (Take_buffer (size_of adapter))
          end /\
      (adapter = [] -> out = {| flow := GST_VIDEO_DECODER_FLOW_NEED_DATA;
                                dec_after := dec'; adapter_after := [];
                                calls := [] |}).
Proof.
  intros Hctx Hfuel.
  destruct (flush_pictures_drains fuel c Hfuel) as (c' & Hflush & Hempty).
  exists (set_buffer_full (set_ctx dec (Some c')) false), c'.
  split; [unfold gst_libde265_dec_flush, with_ctx; rewrite Hctx, Hflush; reflexivity|].
  split; [reflexivity|]. split; [exact Hempty|]. split; [reflexivity|].
  split; [reflexivity|].
  intros fuel' adapter map_ok out Hout.
  destruct (parse_inversion _ _ _ _ _ _ Hout)
    as [(Hfull & _)|(pre & dec0 & Hpre & Hrun)]; [discriminate|].
  destruct Hpre as [(_ & -> & ->)|(Hfull & _)]; [|discriminate].
  destruct Hrun as [(-> & ->)|[(Hdata & _ & ->)|[(Hdata & _ & _ & ->)|
              (Hdata & _ & fd & ms & c0 & ret & c2 & log2 & _ & _ & Hpush & Hend)]]].
  - split; [reflexivity|]. intros _. reflexivity.
  - destruct adapter; [contradiction|]. split; [reflexivity|discriminate].
  - destruct adapter; [contradiction|]. split; [reflexivity|discriminate].
  - destruct (feed_ends_calls _ (fun _ => True) _ _ _ _ _ _ I I I (fun _ _ => I)
                (fun _ _ => I) I (fun _ => I) (fun _ => I) Hend) as (rest & -> & _).
    destruct adapter; [contradiction|]. split; [reflexivity|discriminate].
Qed.

End FeedingQueues.

Section Output.

Context {Ctx Image : Type} `{!Engine Ctx Image}.

Lemma memcpy_size (dest src : list byte) (doff soff n : Z) (out : list byte) :
  memcpy dest doff src soff n = Some out ->
  size_of out = size_of dest /\ 0 <= n /\ doff + n <= size_of dest.
Proof.
  unfold memcpy.
  destruct (0 <=? n) eqn:Hn; [|discriminate].
  destruct (0 <=? soff) eqn:Hs; [|discriminate].
  destruct (soff + n <=? size_of src) eqn:Hsrc; [|discriminate].
  destruct (0 <=? doff) eqn:Hd; [|discriminate].
  destruct (doff + n <=? size_of dest) eqn:Hdest; [|discriminate].
  cbn [andb]. intros [= <-].
  apply Z.leb_le in Hn, Hs, Hsrc, Hd, Hdest.
  split; [|lia]. unfold size_of in *.
  rewrite !length_app, length_take, length_take, !length_drop. lia.
Qed.

(** X14: the plane copy does not look at the size of the output buffer: when
    the three planes hold more bytes than the buffer, one of the three
    [memcpy] calls leaves its source or the buffer. *)
Theorem small_output_buffer_overflows (dec : GstLibde265Dec) (c c' : Ctx)
    (img : Image) (out : list byte) :
  ctx dec = Some c ->
  de265_get_next_picture c = (Some img, c') ->
  size_of out < plane_bytes img 0 + plane_bytes img 1 + plane_bytes img 2 ->
  exists plane,
    In plane [0; 1; 2] /\
    gst_libde265_dec_handle_frame dec (Some out) true
      = Undefined_behaviour (Bad_memcpy plane).
Proof.
  intros Hctx Hpull Hsmall.
  unfold gst_libde265_dec_handle_frame, with_ctx. rewrite Hctx, Hpull. cbn [negb].
  unfold plane_bytes in Hsmall. cbn [copy_planes].
  destruct (de265_get_image_plane img 0) as [src0 stride0].
  destruct (de265_get_image_plane img 1) as [src1 stride1].
  destruct (de265_get_image_plane img 2) as [src2 stride2].
  cbn [snd] in Hsmall.
  destruct (memcpy out 0 src0 0 _) as [out0|] eqn:H0; [|exists 0; cbn; auto].
  apply memcpy_size in H0 as (Hs0 & Hn0 & Hd0).
  destruct (memcpy out0 _ src1 0 _) as [out1|] eqn:H1; [|exists 1; cbn; auto].
  apply memcpy_size in H1 as (Hs1 & Hn1 & Hd1).
  destruct (memcpy out1 _ src2 0 _) as [out2|] eqn:H2; [|exists 2; cbn; auto].
  apply memcpy_size in H2 as (Hs2 & Hn2 & Hd2). lia.
Qed.

End Output.

Section LifecycleProperties.

Context {Ctx Image : Type} `{!Engine Ctx Image}.
Variable de265_start_worker_threads : Ctx -> Z -> Ctx.

Local Abbreviation start := (gst_libde265_dec_start de265_start_worker_threads).
Local Abbreviation run := (run_ops de265_start_worker_threads).

Lemma live_contexts_app (l k : list lifecycle_call) :
  live_contexts (l ++ k) = live_contexts l + live_contexts k.
Proof.
  induction l as [|c l IH]; [reflexivity|].
  cbn [app live_contexts]. destruct c as [|[]| | | | |]; lia.
Qed.

Lemma held_references_app (s : codec_state) (l k : list lifecycle_call) :
  held_references s (l ++ k) = held_references s l + held_references s k.
Proof.
  induction l as [|c l IH]; [reflexivity|].
  cbn [app held_references]. destruct c; lia.
Qed.

Lemma free_decoder_balance (e : @Libde265Dec Ctx) :
  let e' := fst (_gst_libde265_dec_free_decoder e) in
  let log := snd (_gst_libde265_dec_free_decoder e) in
  has_context e' = 0 /\ (forall s, holds_state e' s = 0) /\
  live_contexts log = - has_context e /\
  (forall s, held_references s log = - holds_state e s) /\
  e' = reset_decoder e.
Proof.
  unfold _gst_libde265_dec_free_decoder, has_context, holds_state. cbn.
  split; [reflexivity|]. split; [reflexivity|].
  split; [|split; [|reflexivity]].
  - rewrite live_contexts_app.
    destruct (ctx (decoder e)); destruct (input_state e); reflexivity.
  - intros s. rewrite held_references_app.
    destruct (ctx (decoder e)); destruct (input_state e) as [s'|]; cbn;
      try destruct (Nat.eqb s s'); reflexivity.
Qed.

Lemma run_op_balance (e : @Libde265Dec Ctx) (op : lifecycle_op) :
  live_contexts (snd (run_op de265_start_worker_threads e op))
    = has_context (fst (run_op de265_start_worker_threads e op)) - has_context e /\
  forall s,
    held_references s (snd (run_op de265_start_worker_threads e op))
      = holds_state (fst (run_op de265_start_worker_threads e op)) s - holds_state e s.
Proof.
  pose proof (free_decoder_balance e) as Hfree. cbv zeta in Hfree.
  destruct op as [created online| |state|prop_id value]; cbn [run_op].
  - unfold gst_libde265_dec_start.
    destruct (_gst_libde265_dec_free_decoder e) as [e1 log1]. cbn [fst snd] in Hfree.
    destruct Hfree as (Hc & Hs & Hlive & Hheld & _).
    destruct created as [c|]; cbn [fst snd].
    + split.
      * rewrite live_contexts_app, Hlive. unfold has_context. cbn. lia.
      * intros s. rewrite held_references_app, Hheld.
        change (holds_state {| decoder := _; input_state := input_state e1 |} s)
          with (holds_state e1 s).
        rewrite Hs. cbn. lia.
    + split.
      * rewrite live_contexts_app, Hlive, Hc. cbn. lia.
      * intros s. rewrite held_references_app, Hheld, Hs. cbn. lia.
  - unfold gst_libde265_dec_stop.
    destruct (_gst_libde265_dec_free_decoder e) as [e1 log1]. cbn [fst snd] in *.
    destruct Hfree as (Hc & Hs & Hlive & Hheld & _).
    split; [lia|]. intros s. rewrite Hheld, Hs. lia.
  - clear Hfree. unfold gst_libde265_dec_set_format, has_context, holds_state. cbn.
    split.
    + rewrite live_contexts_app.
      destruct (input_state e); destruct state; cbn; destruct (ctx (decoder e)); lia.
    + intros s. rewrite held_references_app.
      destruct (input_state e) as [s1|]; destruct state as [s2|]; cbn;
        try destruct (Nat.eqb s s1); try destruct (Nat.eqb s s2); lia.
  - clear Hfree. unfold gst_libde265_dec_set_property, has_context, holds_state.
    destruct (prop_id =? PROP_MODE); [cbn; split; [lia|intros; lia]|].
    destruct (prop_id =? PROP_FRAMERATE); cbn; split; try lia; intros; lia.
Qed.

(** X16: over any sequence of start, stop, set-format and set-property
    calls, the contexts created minus the contexts freed is the change in
    whether the element holds a context, and for every codec state the
    references taken minus those given back is the change in whether the
    element holds that state. *)
Theorem lifecycle_is_balanced (e : @Libde265Dec Ctx) (ops : list lifecycle_op) :
  live_contexts (snd (run e ops)) = has_context (fst (run e ops)) - has_context e /\
  forall s,
    held_references s (snd (run e ops))
      = holds_state (fst (run e ops)) s - holds_state e s.
Proof.
  revert e. induction ops as [|op ops IH]; intros e; cbn [run_ops].
  - cbn. split; [lia|intros; lia].
  - pose proof (run_op_balance e op) as Hop.
    destruct (run_op de265_start_worker_threads e op) as [e1 log1].
    destruct Hop as [Hlive Hheld].
    specialize (IH e1). destruct (run_ops de265_start_worker_threads e1 ops) as [e2 log2].
    cbn [fst snd] in *. destruct IH as [IHlive IHheld]. split.
    + rewrite live_contexts_app. lia.
    + intros s. rewrite held_references_app, Hheld, IHheld. lia.
Qed.

(** X17: stop always succeeds and releases what the element holds, once:
    stopping again, finalizing or clearing the format afterwards frees
    nothing, and a flush of the stopped element calls the engine on a null
    context. *)
Theorem stop_releases_once (e : @Libde265Dec Ctx) :
  let e1 := snd (fst (gst_libde265_dec_stop e)) in
  let log1 := snd (gst_libde265_dec_stop e) in
  fst (fst (gst_libde265_dec_stop e)) = true /\
  e1 = reset_decoder e /\
  live_contexts log1 = - has_context e /\
  (forall s, held_references s log1 = - holds_state e s) /\
  gst_libde265_dec_stop e1 = (true, e1, []) /\
  gst_libde265_dec_finalize e1 = (e1, [Parent_finalize]) /\
  gst_libde265_dec_set_format e1 None = (true, e1, []) /\
  forall fuel, gst_libde265_dec_flush fuel (decoder e1) = Undefined_behaviour Null_context.
Proof.
  unfold gst_libde265_dec_stop.
  pose proof (free_decoder_balance e) as Hfree. cbv zeta in Hfree.
  destruct (_gst_libde265_dec_free_decoder e) as [e1 log1] eqn:Hstop.
  cbn [fst snd] in *.
  destruct Hfree as (_ & _ & Hlive & Hheld & ->).
  repeat split; auto.
Qed.

(** X18: start fails exactly when no context is created, and then starts no
    thread.  Otherwise it starts the worker threads once, on the new
    context, with the number of online processors if that is positive and
    [DEFAULT_THREAD_COUNT] if it is not or is unknown: never fewer than 1. *)
Theorem start_gives_worker_threads (e : @Libde265Dec Ctx) (created : option Ctx)
    (online : option Z) :
  let ok := fst (fst (start e created online)) in
  let e1 := snd (fst (start e created online)) in
  let log := snd (start e created online) in
  (created = None ->
   ok = false /\ e1 = reset_decoder e /\
   log = snd (_gst_libde265_dec_free_decoder e) ++ [New_decoder false]) /\
  (forall c, created = Some c ->
   exists threads,
     1 <= threads <= CInt.INT_MAX /\
     ok = true /\
     log = snd (_gst_libde265_dec_free_decoder e)
           ++ [New_decoder true; Start_worker_threads threads] /\
     decoder e1 = set_ctx (decoder (reset_decoder e))
                    (Some (de265_start_worker_threads c threads)) /\
     input_state e1 = None /\
     (online = None -> threads = 2) /\
     (forall n, online = Some n -> 0 < n <= CInt.INT_MAX -> threads = n) /\
     (forall n, online = Some n -> - 2 ^ 31 <= n <= 0 -> threads = 2)).
Proof.
  unfold gst_libde265_dec_start.
  pose proof (free_decoder_balance e) as Hfree. cbv zeta in Hfree.
  destruct (_gst_libde265_dec_free_decoder e) as [e1 log1].
  cbn [fst snd] in *. destruct Hfree as (_ & _ & _ & _ & ->).
  split.
  - intros ->. cbn. auto.
  - intros c ->. cbn [fst snd].
    set (raw := match online with Some n => CInt.to_int n | None => DEFAULT_THREAD_COUNT end).
    exists (if raw <=? 0 then DEFAULT_THREAD_COUNT else raw).
    assert (Hraw : - 2 ^ 31 <= raw < 2 ^ 31).
    { subst raw. destruct online as [n|]; [|unfold DEFAULT_THREAD_COUNT; lia].
      unfold CInt.to_int. pose proof (Z.mod_pos_bound (n + 2 ^ 31) (2 ^ 32)). lia. }
    split.
    { unfold CInt.INT_MAX, DEFAULT_THREAD_COUNT.
      destruct (raw <=? 0) eqn:Hle; [lia|]. apply Z.leb_gt in Hle. lia. }
    split; [reflexivity|]. split; [reflexivity|]. split; [reflexivity|].
    split; [reflexivity|]. split; [|split].
    + intros ->. reflexivity.
    + intros n -> Hn. subst raw. unfold CInt.INT_MAX in Hn.
      rewrite to_int_small by lia.
      destruct (n <=? 0) eqn:Hle; [apply Z.leb_le in Hle; lia|reflexivity].
    + intros n -> Hn. subst raw. rewrite to_int_small by lia.
      destruct (n <=? 0) eqn:Hle; [reflexivity|apply Z.leb_gt in Hle; lia].
Qed.

(** X19: start forgets the geometry and keeps the properties: the first
    picture after a start is announced with a renegotiation, at the
    configured frame rate, even if the stream has the size it had before. *)
Theorem first_picture_after_start_renegotiates (e : @Libde265Dec Ctx) (c : Ctx)
    (online : option Z) (img : Image) :
  let dec := decoder (snd (fst (start e (Some c) online))) in
  let w := de265_get_image_width img 0 in
  let h := de265_get_image_height img 0 in
  w <> -1 \/ h <> -1 ->
  _gst_libde265_image_available dec img =
  (set_geometry dec w h,
   renegotiation w h (fps_n (decoder e)) (fps_d (decoder e)) ++ [Have_frame]) /\
  mode dec = mode (decoder e) /\ buffer_full dec = false.
Proof.
  intros dec w h Hnew.
  assert (Hdec : width dec = -1 /\ height dec = -1 /\
                 fps_n dec = fps_n (decoder e) /\ fps_d dec = fps_d (decoder e) /\
                 mode dec = mode (decoder e) /\ buffer_full dec = false).
  { subst dec. unfold gst_libde265_dec_start, _gst_libde265_dec_free_decoder.
    cbn. auto 8. }
  destruct Hdec as (Hw & Hh & Hn & Hd & Hm & Hb).
  split; [|auto]. rewrite image_available_changed.
  - rewrite Hn, Hd. reflexivity.
  - rewrite Hw, Hh. exact Hnew.
Qed.

(** X22: an element that has only been initialised holds no context and no
    input state; started from there, it frees nothing, is in packetized
    mode, and announces its first picture without a frame rate, the
    default 0/1 not being positive. *)
Theorem fresh_element_announces_no_framerate (e0 : @Libde265Dec Ctx) (c : Ctx)
    (online : option Z) (img : Image) :
  let e := fst (gst_libde265_dec_init e0) in
  let dec := decoder (snd (fst (start e (Some c) online))) in
  let w := de265_get_image_width img 0 in
  let h := de265_get_image_height img 0 in
  w <> -1 \/ h <> -1 ->
  snd (gst_libde265_dec_init e0) = [Set_packetized false] /\
  ctx (decoder e) = None /\ input_state e = None /\
  mode dec = GST_TYPE_LIBDE265_DEC_PACKETIZED /\
  (exists threads,
     snd (start e (Some c) online)
       = [New_decoder true; Start_worker_threads threads]) /\
  _gst_libde265_image_available dec img =
  (set_geometry dec w h, [Set_output_state w h; Negotiate; Have_frame]).
Proof.
  intros e dec w h Hnew.
  split; [reflexivity|]. split; [reflexivity|]. split; [reflexivity|].
  split; [reflexivity|]. split; [eexists; reflexivity|].
  rewrite image_available_changed by exact Hnew. reflexivity.
Qed.

(** X20: a frame rate set while the stream runs is not announced with the
    next picture of the same size; it is announced with the next change of
    geometry, and only if its numerator is positive. *)
Theorem framerate_waits_for_geometry (e : @Libde265Dec Ctx) (value : GValue) (img : Image) :
  let e' := gst_libde265_dec_set_property e PROP_FRAMERATE value in
  let w := de265_get_image_width img 0 in
  let h := de265_get_image_height img 0 in
  let n := gst_value_get_fraction_numerator value in
  let d := gst_value_get_fraction_denominator value in
  (w = width (decoder e) /\ h = height (decoder e) ->
   _gst_libde265_image_available (decoder e') img = (decoder e', [Have_frame])) /\
  (w <> width (decoder e) \/ h <> height (decoder e) ->
   snd (_gst_libde265_image_available (decoder e') img) =
   Set_output_state w h
     :: (if 0 <? n then [Set_framerate n d] else []) ++ [Negotiate; Have_frame]).
Proof.
  intros e' w h n d.
  assert (He : width (decoder e') = width (decoder e) /\
               height (decoder e') = height (decoder e) /\
               fps_n (decoder e') = n /\ fps_d (decoder e') = d).
  { subst e'. unfold gst_libde265_dec_set_property. cbn. auto. }
  destruct He as (Hw & Hh & Hn & Hd). split.
  - intros [Hsw Hsh]. apply image_available_same;
      [rewrite Hw; exact Hsw|rewrite Hh; exact Hsh].
  - intros Hnew. rewrite image_available_changed by (rewrite Hw, Hh; exact Hnew).
    cbn [snd]. rewrite Hn, Hd. unfold renegotiation. cbn [app].
    rewrite <- app_assoc. reflexivity.
Qed.

(** X21: a property that is set reads back as set; setting the mode leaves
    the frame rate alone and the other way round; other property ids are
    ignored by both functions; no property touches the context, the
    geometry, the backlog flag or the input state. *)
Theorem properties_round_trip (e : @Libde265Dec Ctx) (prop_id : Z) (value old : GValue) :
  let e' := gst_libde265_dec_set_property e prop_id value in
  let read := gst_libde265_dec_get_property e' prop_id old in
  (prop_id = PROP_MODE ->
   g_value_get_enum read = g_value_get_enum value /\
   fps_n (decoder e') = fps_n (decoder e) /\ fps_d (decoder e') = fps_d (decoder e)) /\
  (prop_id = PROP_FRAMERATE ->
   gst_value_get_fraction_numerator read = gst_value_get_fraction_numerator value /\
   gst_value_get_fraction_denominator read = gst_value_get_fraction_denominator value /\
   mode (decoder e') = mode (decoder e)) /\
  (prop_id <> PROP_MODE -> prop_id <> PROP_FRAMERATE -> e' = e /\ read = old) /\
  ctx (decoder e') = ctx (decoder e) /\
  width (decoder e') = width (decoder e) /\
  height (decoder e') = height (decoder e) /\
  buffer_full (decoder e') = buffer_full (decoder e) /\
  input_state e' = input_state e.
Proof.
  intros e' read. subst read e'.
  unfold gst_libde265_dec_set_property, gst_libde265_dec_get_property.
  destruct (prop_id =? PROP_MODE) eqn:Hm.
  { apply Z.eqb_eq in Hm. cbn. repeat split; try reflexivity; intros; try congruence.
    all: subst; discriminate. }
  destruct (prop_id =? PROP_FRAMERATE) eqn:Hf.
  { apply Z.eqb_eq in Hf. apply Z.eqb_neq in Hm. cbn.
    repeat split; try reflexivity; intros; try congruence. }
  apply Z.eqb_neq in Hm, Hf.
  repeat split; try reflexivity; intros; first [congruence|split; reflexivity].
Qed.

End LifecycleProperties.

Section VP8Properties.

Import VP8Dec.

Lemma count_calls_app (p : call -> bool) (l k : list call) :
  count_calls p (l ++ k) = (count_calls p l + count_calls p k)%nat.
Proof. unfold count_calls. rewrite filter_app, length_app. reflexivity. Qed.

Lemma count_calls_cons (p : call -> bool) (c : call) (l : list call) :
  count_calls p (c :: l) = ((if p c then 1 else 0) + count_calls p l)%nat.
Proof.
  unfold count_calls. rewrite filter_cons.
  destruct (p c); destruct (decide _); cbn; congruence.
Qed.

Lemma count_calls_nil (p : call -> bool) : count_calls p [] = 0%nat.
Proof. reflexivity. Qed.

Local Ltac counted :=
  rewrite ?count_calls_app, ?count_calls_cons, ?count_calls_nil;
  cbn [is_Send_tags is_Codec_decode is_Finish_frame].

Lemma copy_images_calls (p : call -> bool) (w h : Z) (imgs : list VP8.vpx_image_t) :
  p Codec_get_frame = false -> p Img_free = false ->
  forall out out' log,
    copy_images w h imgs out = Some (out', log) -> count_calls p log = 0%nat.
Proof.
  intros H1 H2. induction imgs as [|img imgs IH]; intros out out' log; cbn [copy_images].
  - intros [= <- <-]. rewrite count_calls_cons, H1. reflexivity.
  - destruct (VP8.copy_image w h img out) as [out1|]; [|discriminate].
    destruct (copy_images w h imgs out1) as [[out2 log2]|] eqn:Hrest; [|discriminate].
    intros [= <- <-]. rewrite !count_calls_cons, H1, H2. exact (IH _ _ _ Hrest).
Qed.

(** X23: [gst_vp8_dec_scan_for_sync] does not scan when fewer than 4 bytes
    lie past the offset: it reports that count at the end of the stream
    and 0 otherwise.  With at least 7 bytes it scans a window of at least
    one position that ends 6 bytes before the end of the adapter. *)
Theorem sync_scan_stays_inside (available : Z) (masked_scan : Z -> Z -> Z)
    (at_eos : bool) (offset n : Z) :
  0 <= available < 2 ^ 32 ->
  0 <= offset <= CInt.INT_MAX ->
  (- 2 ^ 31 <= available - offset < 4 ->
   gst_vp8_dec_scan_for_sync available masked_scan at_eos offset n
     = (if at_eos then available - offset else 0, [])) /\
  (7 <= available - offset <= CInt.INT_MAX -> 1 <= n <= CInt.INT_MAX ->
   let size := Z.min n (available - offset - 6) in
   gst_vp8_dec_scan_for_sync available masked_scan at_eos offset n
     = (CInt.to_int (masked_scan offset size), [Masked_scan offset size]) /\
   1 <= size <= n /\ offset + size + 6 <= available).
Proof.
  intros Havail Hoff. unfold CInt.INT_MAX in *. unfold gst_vp8_dec_scan_for_sync.
  assert (Hwrap : forall z, - 2 ^ 31 <= z < 2 ^ 31 ->
            CInt.to_int (CInt.to_uint32 z) = z).
  { intros z Hz. unfold CInt.to_int, CInt.to_uint32.
    rewrite Zplus_mod_idemp_l. rewrite Z.mod_small by lia. lia. }
  split.
  - intros Hshort. rewrite Hwrap by lia.
    destruct (available - offset <? 4) eqn:Hlt; [|apply Z.ltb_ge in Hlt; lia].
    destruct at_eos; reflexivity.
  - intros Hlong Hn. set (size := Z.min n (available - offset - 6)).
    rewrite Hwrap by lia.
    destruct (available - offset <? 4) eqn:Hlt; [apply Z.ltb_lt in Hlt; lia|].
    unfold CInt.add. rewrite (to_int_small (available - offset + -3)) by lia.
    rewrite (to_int_small (available - offset + -3 + -3)) by lia.
    replace (available - offset + -3 + -3) with (available - offset - 6) by lia.
    fold size.
    assert (Hsize : 1 <= size <= n /\ offset + size + 6 <= available) by (subst size; lia).
    unfold CInt.to_uint32. rewrite !Z.mod_small by lia. auto.
Qed.

Lemma size_of_packed_image (w h : Z) (img : VP8.vpx_image_t) :
  0 <= w -> 0 <= h -> readable w h img ->
  size_of (packed_image w h img) = w * h + 2 * (w / 2 * (h / 2)).
Proof.
  intros Hw Hh (H0 & H1 & H2 & _ & _ & _ & Hp0 & Hp1 & Hp2).
  assert (0 <= w / 2) by (apply Z.div_pos; lia).
  assert (0 <= h / 2) by (apply Z.div_pos; lia).
  unfold packed_image. rewrite !size_of_app, !size_of_packed_plane by lia. lia.
Qed.

Lemma copy_images_last (w h : Z) (imgs : list VP8.vpx_image_t) :
  0 <= w -> 0 <= h -> Z.even w = true -> Z.even h = true ->
  Forall (readable w h) imgs ->
  forall out,
    w * h + 2 * (w / 2 * (h / 2)) <= size_of out ->
    exists log,
      copy_images w h imgs out =
      Some (match last imgs with
            | Some img =>
                packed_image w h img
                ++ drop (Z.to_nat (w * h + 2 * (w / 2 * (h / 2)))) out
            | None => out
            end, log) /\
      length log = S (2 * length imgs).
Proof.
  intros Hw Hh Hwe Hhe Hall. induction Hall as [|img imgs Himg Hall IH]; intros out Hout.
  - eexists. split; reflexivity.
  - cbn [copy_images].
    pose proof Himg as (H0 & H1 & H2 & Hm0 & Hm1 & Hm2 & Hp0 & Hp1 & Hp2).
    rewrite (vp8_rows_are_packed w h img out) by assumption.
    set (total := w * h + 2 * (w / 2 * (h / 2))) in *.
    fold (packed_image w h img).
    change (packed_plane (VP8.planes img 0) (VP8.stride img 0) w h ++
            packed_plane (VP8.planes img 1) (VP8.stride img 1) (w / 2) (h / 2) ++
            packed_plane (VP8.planes img 2) (VP8.stride img 2) (w / 2) (h / 2) ++
            drop (Z.to_nat total) out)
      with (packed_plane (VP8.planes img 0) (VP8.stride img 0) w h ++
            (packed_plane (VP8.planes img 1) (VP8.stride img 1) (w / 2) (h / 2) ++
            (packed_plane (VP8.planes img 2) (VP8.stride img 2) (w / 2) (h / 2) ++
            drop (Z.to_nat total) out))).
    replace (packed_plane (VP8.planes img 0) (VP8.stride img 0) w h ++
            (packed_plane (VP8.planes img 1) (VP8.stride img 1) (w / 2) (h / 2) ++
            (packed_plane (VP8.planes img 2) (VP8.stride img 2) (w / 2) (h / 2) ++
            drop (Z.to_nat total) out)))
      with (packed_image w h img ++ drop (Z.to_nat total) out)
      by (unfold packed_image; rewrite <- !app_assoc; reflexivity).
    pose proof (size_of_packed_image w h img Hw Hh Himg) as Hsize. fold total in Hsize.
    assert (Hnn : 0 <= total).
    { subst total. assert (0 <= w / 2) by (apply Z.div_pos; lia).
      assert (0 <= h / 2) by (apply Z.div_pos; lia). nia. }
    assert (Hnext : total <= size_of (packed_image w h img ++ drop (Z.to_nat total) out)).
    { rewrite size_of_app, Hsize. pose proof (size_of_nonneg (drop (Z.to_nat total) out)).
      lia. }
    destruct (IH _ Hnext) as (log & -> & Hlog).
    exists (Codec_get_frame :: Img_free :: log).
    split; [|cbn [length]; rewrite Hlog; lia].
    f_equal. f_equal.
    destruct imgs as [|img' imgs']; cbn [last]; [reflexivity|].
    change (match imgs' with [] => Some img' | _ :: _ => last imgs' end)
      with (last (img' :: imgs')).
    destruct (last (img' :: imgs')) as [final|] eqn:Hlast.
    + f_equal. rewrite drop_app_length'; [reflexivity|].
      unfold size_of in Hsize. lia.
    + destruct (last_None (img' :: imgs')) as [Hnil _]. specialize (Hnil Hlast).
      discriminate.
Qed.

(** X24: every image the codec yields for one input is copied into the same
    output buffer, so the frame that is finished holds the packed planes of
    the last image, with the rows' padding dropped; with no image the
    buffer is finished as it was allocated. *)
Theorem vp8_last_image_wins (dec : GstVP8Dec) (frame : frame_input) (out : list byte) :
  let w := width (state dec) in
  let h := height (state dec) in
  let total := w * h + 2 * (w / 2 * (h / 2)) in
  0 <= w -> 0 <= h -> Z.even w = true -> Z.even h = true ->
  src_buffer frame = Some out ->
  status frame = 0 ->
  Forall (readable w h) (images frame) ->
  total <= size_of out ->
  exists res,
    gst_vp8_dec_handle_frame dec frame = Some res /\
    handle_flow res = GST_FLOW_OK /\
    last (handle_calls res)
      = Some (Finish_frame
                match last (images frame) with
                | Some img => packed_image w h img ++ drop (Z.to_nat total) out
                | None => out
                end) /\
    count_calls is_Finish_frame (handle_calls res) = 1%nat.
Proof.
  intros w h total Hw Hh Hwe Hhe Hbuf Hstatus Hall Hout.
  unfold gst_vp8_dec_handle_frame. rewrite Hbuf, Hstatus. cbn [Z.eqb negb].
  assert (Hstate : forall d,
            width (state (if negb (have_video_info d) then
              {| state := {| format := GST_VIDEO_FORMAT_I420;
                             width := width (state d); height := height (state d);
                             fps_n := 30; fps_d := 1; par_n := 1; par_d := 1 |};
                 decoder_inited := decoder_inited d; have_video_info := true |}
              else d)) = width (state d) /\
            height (state (if negb (have_video_info d) then
              {| state := {| format := GST_VIDEO_FORMAT_I420;
                             width := width (state d); height := height (state d);
                             fps_n := 30; fps_d := 1; par_n := 1; par_d := 1 |};
                 decoder_inited := decoder_inited d; have_video_info := true |}
              else d)) = height (state d)).
  { intros d. destruct (have_video_info d); split; reflexivity. }
  destruct (copy_images_last w h (images frame) Hw Hh Hwe Hhe Hall out Hout)
    as (log & Hcopy & _).
  destruct (negb (decoder_inited dec)).
  - destruct (Hstate {| state := state dec; decoder_inited := true;
                        have_video_info := have_video_info dec |}) as [-> ->].
    cbn [state]. fold w h. rewrite Hcopy. eexists. split; [reflexivity|].
    cbn [handle_flow handle_calls]. split; [reflexivity|].
    split; [rewrite !app_assoc; apply last_snoc|].
    rewrite !count_calls_app, (copy_images_calls is_Finish_frame _ _ _ eq_refl eq_refl
                                 _ _ _ Hcopy).
    destruct (pad_caps frame); reflexivity.
  - destruct (Hstate dec) as [-> ->]. fold w h. rewrite Hcopy.
    eexists. split; [reflexivity|].
    cbn [handle_flow handle_calls]. split; [reflexivity|].
    split; [rewrite !app_assoc; apply last_snoc|].
    rewrite !count_calls_app, (copy_images_calls is_Finish_frame _ _ _ eq_refl eq_refl
                                 _ _ _ Hcopy).
    destruct (pad_caps frame); reflexivity.
Qed.

(** What one call leaves and logs. *)
Lemma handle_frame_step (dec : GstVP8Dec) (frame : frame_input) (res : handled) :
  gst_vp8_dec_handle_frame dec frame = Some res ->
  decoder_inited (handle_dec res) = true /\
  have_video_info (handle_dec res) = true /\
  width (state (handle_dec res)) = width (state dec) /\
  height (state (handle_dec res)) = height (state dec) /\
  (have_video_info dec = false \/ state (handle_dec res) = state dec) /\
  (have_video_info dec = false ->
   state (handle_dec res) =
   {| format := GST_VIDEO_FORMAT_I420;
      width := width (state dec); height := height (state dec);
      fps_n := 30; fps_d := 1; par_n := 1; par_d := 1 |}) /\
  count_calls is_Send_tags (handle_calls res)
    = (if decoder_inited dec then 0 else 1)%nat /\
  count_calls is_Codec_decode (handle_calls res)
    = (match src_buffer frame with Some _ => 1 | None => 0 end)%nat /\
  count_calls is_Finish_frame (handle_calls res)
    = (match src_buffer frame with
       | Some _ => if (status frame =? 0)%Z then 1 else 0
       | None => 0
       end)%nat /\
  (handle_flow res = GST_FLOW_OK <->
   count_calls is_Finish_frame (handle_calls res) = 1%nat) /\
  Forall (fun c => match c with
                   | Pad_set_caps caps =>
                       pad_caps frame = None /\
                       caps = gst_video_format_new_caps (state (handle_dec res))
                   | _ => True
                   end) (handle_calls res).
Proof.
  unfold gst_vp8_dec_handle_frame.
  set (dec1 := if negb (decoder_inited dec)
               then {| state := state dec; decoder_inited := true;
                       have_video_info := have_video_info dec |}
               else dec).
  set (log1 := if negb (decoder_inited dec) then [Set_sync_point] ++ [Send_tags]
               else [Set_sync_point]).
  replace (if negb (decoder_inited dec)
           then ({| state := state dec; decoder_inited := true;
                    have_video_info := have_video_info dec |},
                 [Set_sync_point] ++ [Send_tags])
           else (dec, [Set_sync_point])) with (dec1, log1)
    by (subst dec1 log1; destruct (decoder_inited dec); reflexivity).
  set (dec2 := if negb (have_video_info dec1) then _ else dec1).
  set (log2 := match pad_caps frame with
               | Some _ => log1
               | None => log1 ++ [Pad_set_caps (gst_video_format_new_caps (state dec2))]
               end).
  assert (H1 : decoder_inited dec1 = true /\ state dec1 = state dec /\
               have_video_info dec1 = have_video_info dec).
  { subst dec1. destruct (decoder_inited dec) eqn:Hi; cbn; auto. }
  destruct H1 as (Hinit & Hstate1 & Hinfo1).
  assert (H2 : decoder_inited dec2 = true /\ have_video_info dec2 = true /\
               width (state dec2) = width (state dec) /\
               height (state dec2) = height (state dec) /\
               (have_video_info dec = false \/ state dec2 = state dec) /\
               (have_video_info dec = false ->
                state dec2 =
                {| format := GST_VIDEO_FORMAT_I420;
                   width := width (state dec); height := height (state dec);
                   fps_n := 30; fps_d := 1; par_n := 1; par_d := 1 |})).
  { subst dec2. rewrite Hinfo1. destruct (have_video_info dec) eqn:Hi; cbn [negb].
    - rewrite Hstate1. repeat split; auto. rewrite <- Hinfo1 in Hi. auto. discriminate.
    - cbn. rewrite Hstate1. repeat split; auto. }
  destruct H2 as (Hinit2 & Hinfo2 & Hw & Hh & Hsame & Hfixed).
  assert (Hl1 : count_calls is_Send_tags log1 = (if decoder_inited dec then 0 else 1)%nat /\
                count_calls is_Codec_decode log1 = 0%nat /\
                count_calls is_Finish_frame log1 = 0%nat /\
                Forall (fun c => match c with
                                 | Pad_set_caps caps =>
                                     pad_caps frame = None /\
                                     caps = gst_video_format_new_caps (state dec2)
                                 | _ => True
                                 end) log1).
  { subst log1. destruct (decoder_inited dec); repeat split; repeat constructor. }
  destruct Hl1 as (Ht1 & Hd1 & Hf1 & Hc1).
  assert (Hl2 : count_calls is_Send_tags log2 = (if decoder_inited dec then 0 else 1)%nat /\
                count_calls is_Codec_decode log2 = 0%nat /\
                count_calls is_Finish_frame log2 = 0%nat /\
                Forall (fun c => match c with
                                 | Pad_set_caps caps =>
                                     pad_caps frame = None /\
                                     caps = gst_video_format_new_caps (state dec2)
                                 | _ => True
                                 end) log2).
  { subst log2. destruct (pad_caps frame) eqn:Hcaps; [auto|].
    counted. rewrite Ht1, Hd1, Hf1.
    split; [lia|]. split; [lia|]. split; [lia|].
    apply Forall_app. split; [exact Hc1|]. repeat constructor. }
  destruct Hl2 as (Ht2 & Hd2 & Hf2 & Hc2).
  assert (Hcopied : forall w h imgs out out' log',
            copy_images w h imgs out = Some (out', log') ->
            Forall (fun c => match c with
                             | Pad_set_caps caps =>
                                 pad_caps frame = None /\
                                 caps = gst_video_format_new_caps (state dec2)
                             | _ => True
                             end) log').
  { intros w h imgs. induction imgs as [|img imgs IH]; intros out out' log';
      cbn [copy_images].
    - intros [= <- <-]. repeat constructor.
    - destruct (VP8.copy_image w h img out) as [out1|]; [|discriminate].
      destruct (copy_images w h imgs out1) as [[out2 log3]|] eqn:Hrest; [|discriminate].
      intros [= <- <-]. repeat constructor. exact (IH _ _ _ Hrest). }
  destruct (src_buffer frame) as [out|].
  2:{ intros [= <-]. cbn [handle_dec handle_calls handle_flow].
      counted. rewrite Ht2, Hd2, Hf2.
      repeat (split; [first [assumption|lia|discriminate]|]).
      split; [split; [discriminate|lia]|].
      apply Forall_app. split; [exact Hc2|]. repeat constructor. }
  destruct (status frame =? 0) eqn:Hstatus; cbn [negb].
  2:{ intros [= <-]. cbn [handle_dec handle_calls handle_flow].
      counted. rewrite Ht2, Hd2, Hf2.
      repeat (split; [first [assumption|lia|discriminate]|]).
      split; [split; [discriminate|lia]|].
      rewrite !Forall_app. split; [split; [exact Hc2|]|]; repeat constructor. }
  destruct (copy_images _ _ (images frame) out) as [[out' log']|] eqn:Hcopy; [|discriminate].
  intros [= <-]. cbn [handle_dec handle_calls handle_flow].
  counted. rewrite Ht2, Hd2, Hf2,
    (copy_images_calls is_Send_tags _ _ _ eq_refl eq_refl _ _ _ Hcopy),
    (copy_images_calls is_Codec_decode _ _ _ eq_refl eq_refl _ _ _ Hcopy),
    (copy_images_calls is_Finish_frame _ _ _ eq_refl eq_refl _ _ _ Hcopy).
  repeat (split; [first [assumption|lia|discriminate]|]).
  split; [split; auto|].
  rewrite !Forall_app. split; [split; [split; [exact Hc2|]|]|]; repeat constructor.
  exact (Hcopied _ _ _ _ _ _ Hcopy).
Qed.

(** X25: from a reset on, over any number of frames, the tags are sent with
    the first frame only, and every caps the element sets is I420 at 30/1
    with square pixels and the width and height the state had: the stream
    is not asked. *)
Theorem vp8_tags_once_and_fixed_caps (dec : GstVP8Dec) (frames : list frame_input)
    (dec' : GstVP8Dec) (log : list call) :
  handle_frames (snd (gst_vp8_dec_reset dec)) frames = Some (dec', log) ->
  count_calls is_Send_tags log = (match frames with [] => 0 | _ => 1 end)%nat /\
  Forall (fixed_caps (width (state dec)) (height (state dec))) log /\
  width (state dec') = width (state dec) /\ height (state dec') = height (state dec) /\
  (frames <> [] ->
   decoder_inited dec' = true /\ have_video_info dec' = true /\
   state dec' = {| format := GST_VIDEO_FORMAT_I420;
                   width := width (state dec); height := height (state dec);
                   fps_n := 30; fps_d := 1; par_n := 1; par_d := 1 |}).
Proof.
  set (fixed := {| format := GST_VIDEO_FORMAT_I420;
                   width := width (state dec); height := height (state dec);
                   fps_n := 30; fps_d := 1; par_n := 1; par_d := 1 |}).
  assert (Hrun : forall frames d d' l,
            decoder_inited d = true -> have_video_info d = true -> state d = fixed ->
            handle_frames d frames = Some (d', l) ->
            count_calls is_Send_tags l = 0%nat /\
            Forall (fixed_caps (width (state dec)) (height (state dec))) l /\
            decoder_inited d' = true /\ have_video_info d' = true /\ state d' = fixed).
  { clear frames dec' log.
    induction frames as [|frame frames IH]; intros d d' l Hi Hv Hs; cbn [handle_frames].
    - intros [= <- <-]. repeat split; auto.
    - destruct (gst_vp8_dec_handle_frame d frame) as [h|] eqn:Hstep; [|discriminate].
      destruct (handle_frames (handle_dec h) frames) as [[d2 l2]|] eqn:Hrest;
        [|discriminate].
      intros [= <- <-].
      destruct (handle_frame_step d frame h Hstep)
        as (Hi1 & Hv1 & _ & _ & Hsame & _ & Htags & _ & _ & _ & Hcaps).
      assert (Hs1 : state (handle_dec h) = fixed).
      { destruct Hsame as [Hno|Hkeep]; [congruence|]. rewrite Hkeep. exact Hs. }
      destruct (IH _ _ _ Hi1 Hv1 Hs1 Hrest) as (Ht & Hc & Hi2 & Hv2 & Hs2).
      counted. rewrite Htags, Hi, Ht. split; [reflexivity|].
      split; [|auto]. apply Forall_app. split; [|exact Hc].
      eapply Forall_impl; [exact Hcaps|]. intros [] Hcall; cbn; auto.
      destruct Hcall as [_ ->]. rewrite Hs1. reflexivity. }
  destruct frames as [|frame frames]; cbn [handle_frames].
  { intros [= <- <-]. cbn. repeat split; auto. contradiction. }
  destruct (gst_vp8_dec_handle_frame _ frame) as [h|] eqn:Hstep; [|discriminate].
  destruct (handle_frames (handle_dec h) frames) as [[d2 l2]|] eqn:Hrest; [|discriminate].
  intros [= <- <-].
  destruct (handle_frame_step _ frame h Hstep)
    as (Hi1 & Hv1 & _ & _ & _ & Hfixed & Htags & _ & _ & _ & Hcaps).
  specialize (Hfixed eq_refl). cbn [gst_vp8_dec_reset snd state decoder_inited] in *.
  fold fixed in Hfixed.
  destruct (Hrun _ _ _ _ Hi1 Hv1 Hfixed Hrest) as (Ht & Hc & Hi2 & Hv2 & Hs2).
  counted. rewrite Htags, Ht. split; [reflexivity|].
  split.
  { apply Forall_app. split; [|exact Hc].
    eapply Forall_impl; [exact Hcaps|]. intros [] Hcall; cbn; auto.
    destruct Hcall as [_ ->]. rewrite Hfixed. reflexivity. }
  rewrite Hs2. cbn. auto.
Qed.

(** X26: [gst_vp8_dec_handle_frame] decodes exactly when the output frame was
    allocated, and finishes a frame exactly when the decode then reports
    status 0, which is when it returns [GST_FLOW_OK]; both failures return
    without touching the images, and leave the tags marked as sent. *)
Theorem vp8_frame_is_finished_iff_decoded (dec : GstVP8Dec) (frame : frame_input) :
  (src_buffer frame = None \/ status frame <> 0 ->
   exists res, gst_vp8_dec_handle_frame dec frame = Some res) /\
  forall res,
    gst_vp8_dec_handle_frame dec frame = Some res ->
    count_calls is_Codec_decode (handle_calls res)
      = (match src_buffer frame with Some _ => 1 | None => 0 end)%nat /\
    count_calls is_Finish_frame (handle_calls res)
      = (match src_buffer frame with
         | Some _ => if (status frame =? 0)%Z then 1 else 0
         | None => 0
         end)%nat /\
    (handle_flow res = GST_FLOW_OK <->
     count_calls is_Finish_frame (handle_calls res) = 1%nat) /\
    (src_buffer frame = None -> handle_flow res = Return_allocate_output_frame) /\
    (src_buffer frame <> None -> status frame <> 0 ->
     handle_flow res = GST_FLOW_ERROR) /\
    decoder_inited (handle_dec res) = true /\
    have_video_info (handle_dec res) = true.
Proof.
  split.
  - intros Hfail. unfold gst_vp8_dec_handle_frame.
    destruct (negb (decoder_inited dec)); cbv zeta;
      (destruct (src_buffer frame) as [out|]; [|eauto]);
      (destruct Hfail as [Hnone|Hstatus]; [discriminate|]);
      apply Z.eqb_neq in Hstatus; rewrite Hstatus; cbn [negb]; eauto.
  - intros res Hstep.
    destruct (handle_frame_step dec frame res Hstep)
      as (Hi & Hv & _ & _ & _ & _ & _ & Hdec & Hfin & Hflow & _).
    split; [exact Hdec|]. split; [exact Hfin|]. split; [exact Hflow|].
    split; [|split; [|auto]].
    + intros Hnone. revert Hstep. unfold gst_vp8_dec_handle_frame. rewrite Hnone.
      destruct (negb (decoder_inited dec)); intros [= <-]; reflexivity.
    + intros Hsome Hstatus. revert Hstep. unfold gst_vp8_dec_handle_frame.
      destruct (src_buffer frame) as [out|]; [|contradiction].
      apply Z.eqb_neq in Hstatus. rewrite Hstatus. cbn [negb].
      destruct (negb (decoder_inited dec)); intros [= <-]; reflexivity.
Qed.

End VP8Properties.

(** ** The further properties on concrete inputs *)

Lemma overrun_is_reported_witness :
  mode (stub_dec Stub.empty) = GST_TYPE_LIBDE265_DEC_PACKETIZED /\
  buffer_full (stub_dec Stub.empty) = false /\
  Forall fits_int two_payloads /\
  0 <= 5 /\ 4 + 5 <= CInt.INT_MAX /\
  size_of [Byte.x42] < 5 /\
  let buf := packetized two_payloads ++ be32 5 ++ [Byte.x42] in
  gst_libde265_dec_parse true 1 (stub_dec Stub.empty) buf true =
  Returned {| flow := GST_FLOW_ERROR; dec_after := stub_dec Stub.empty;
              adapter_after := [];
              calls := [Take_buffer (size_of buf);
                        Element_error Overflow_in_input_data] |}.
Proof.
  assert (H1 : Forall fits_int two_payloads).
  { repeat constructor; unfold fits_int, CInt.INT_MAX, size_of; cbn [length]; lia. }
  assert (H2 : 4 + 5 <= CInt.INT_MAX) by (unfold CInt.INT_MAX; lia).
  assert (H3 : size_of [Byte.x42] < 5) by (unfold size_of; cbn [length]; lia).
  split; [reflexivity|]. split; [reflexivity|]. split; [exact H1|].
  split; [lia|]. split; [exact H2|]. split; [exact H3|].
  exact (overrun_is_reported true 1 (stub_dec Stub.empty) two_payloads 5 [Byte.x42]
           eq_refl eq_refl H1 ltac:(lia) H2 H3).
Defined.

Lemma one_frame_per_cycle_witness :
  exists out,
    gst_libde265_dec_parse true 3 (stub_dec warning_twice) one_record true
      = Returned out /\
    count is_frame (calls out)
      = (if is_Return_have_frame (flow out) then 1 else 0)%nat /\
    (count is_Negotiate (calls out) <= count is_frame (calls out))%nat /\
    (flow out = Return_have_frame -> last (calls out) = Some Have_frame).
Proof.
  eexists. split; [reflexivity|].
  apply (one_frame_per_cycle true 3 (stub_dec warning_twice) one_record true).
  reflexivity.
Defined.

Lemma chunk_is_kept_or_consumed_witness :
  exists out,
    gst_libde265_dec_parse true 1 (stub_backlogged two_pending) one_record true
      = Returned out /\
    ((adapter_after out = one_record /\
      count is_Take_buffer (calls out) = 0%nat /\
      count is_Push_data (calls out) = 0%nat /\
      (one_record = [] \/
       flow out = Return_have_frame /\
       buffer_full (stub_backlogged two_pending) = true /\
       buffer_full (dec_after out) = true))
     \/
     (one_record <> [] /\ adapter_after out = [] /\
      count is_Take_buffer (calls out) = 1%nat /\
      In (Take_buffer (size_of one_record)) (calls out))).
Proof.
  eexists. split; [reflexivity|].
  apply (chunk_is_kept_or_consumed true 1 (stub_backlogged two_pending) one_record true).
  reflexivity.
Defined.

Lemma engine_is_fed_at_most_once_witness :
  exists out,
    gst_libde265_dec_parse true 3 (stub_dec warning_twice) one_record true
      = Returned out /\
    (feeding_calls (calls out) = [] \/
     feeding_calls (calls out) = [Take_buffer (size_of one_record)] \/
     exists frame_data markers,
       reframe (mode (stub_dec warning_twice)) one_record
         = Reframed frame_data markers /\
       true = true /\
       (feeding_calls (calls out)
          = [Take_buffer (size_of one_record);
             Push_data frame_data (CInt.to_int (size_of one_record))]
        \/
        feeding_calls (calls out)
          = [Take_buffer (size_of one_record);
             Push_data frame_data (CInt.to_int (size_of one_record));
             Decode])).
Proof.
  eexists. split; [reflexivity|].
  apply (engine_is_fed_at_most_once true 3 (stub_dec warning_twice) one_record true).
  reflexivity.
Defined.

Lemma error_cycle_is_silent_witness :
  (exists out,
    gst_libde265_dec_parse true 1 (stub_backlogged two_pending) one_record true
      = Returned out /\
    returned_value GST_FLOW_ERROR (flow out) = GST_FLOW_ERROR /\
    ((flow out = GST_FLOW_ERROR /\
      one_record <> [] /\ adapter_after out = [] /\
      buffer_full (dec_after out) = false /\
      width (dec_after out) = width (stub_backlogged two_pending) /\
      height (dec_after out) = height (stub_backlogged two_pending) /\
      count is_frame (calls out) = 0%nat /\
      count is_Negotiate (calls out) = 0%nat /\
      count is_Get_warning (calls out) = 0%nat /\
      (count is_Push_data (calls out) = 0%nat /\
       ctx (dec_after out) = ctx (stub_backlogged two_pending)
       \/
       exists ret,
         last (calls out) = Some (Element_error (Error_while_decoding ret)) /\
         is_DE265_OK ret = false /\ is_IMAGE_BUFFER_FULL ret = false /\
         count is_Push_data (calls out) = 1%nat))
     \/
     (flow out = Return_have_frame /\ GST_FLOW_ERROR = GST_FLOW_ERROR /\
      count is_frame (calls out) = 1%nat /\
      last (calls out) = Some Have_frame))) /\
  exists out,
    gst_libde265_dec_parse false 1 (stub_dec Stub.empty) one_record true
      = Returned out /\
    returned_value GST_FLOW_OK (flow out) = GST_FLOW_ERROR /\
    ((flow out = GST_FLOW_ERROR /\
      one_record <> [] /\ adapter_after out = [] /\
      buffer_full (dec_after out) = false /\
      width (dec_after out) = width (stub_dec Stub.empty) /\
      height (dec_after out) = height (stub_dec Stub.empty) /\
      count is_frame (calls out) = 0%nat /\
      count is_Negotiate (calls out) = 0%nat /\
      count is_Get_warning (calls out) = 0%nat /\
      (count is_Push_data (calls out) = 0%nat /\
       ctx (dec_after out) = ctx (stub_dec Stub.empty)
       \/
       exists ret,
         last (calls out) = Some (Element_error (Error_while_decoding ret)) /\
         is_DE265_OK ret = false /\ is_IMAGE_BUFFER_FULL ret = false /\
         count is_Push_data (calls out) = 1%nat))
     \/
     (flow out = Return_have_frame /\ GST_FLOW_OK = GST_FLOW_ERROR /\
      count is_frame (calls out) = 1%nat /\
      last (calls out) = Some Have_frame)).
Proof.
  split.
  - eexists. split; [reflexivity|]. split; [reflexivity|].
    apply (error_cycle_is_silent true 1 (stub_backlogged two_pending) one_record true
             _ GST_FLOW_ERROR); reflexivity.
  - eexists. split; [reflexivity|]. split; [reflexivity|].
    apply (error_cycle_is_silent false 1 (stub_dec Stub.empty) one_record true
             _ GST_FLOW_OK); reflexivity.
Defined.

Lemma rejected_push_is_not_decoded_witness :
  ctx refused_dec = Some tt /\
  (buffer_full refused_dec = true -> @de265_peek_next_picture _ _ refusing tt = None) /\
  one_record <> [] /\
  reframe (mode refused_dec) one_record = Reframed one_record [] /\
  @de265_push_data _ _ refusing tt one_record (CInt.to_int (size_of one_record))
    = (DE265_CODE 7, tt) /\
  is_DE265_OK (DE265_CODE 7) = false /\
  exists out,
    @gst_libde265_dec_parse _ _ refusing true 1 refused_dec one_record true
      = Returned out /\
    count is_Decode (calls out) = 0%nat /\
    count is_Push_data (calls out) = 1%nat /\
    count is_Get_warning (calls out) = 0%nat /\
    ctx (dec_after out) = Some tt /\
    buffer_full (dec_after out) = is_IMAGE_BUFFER_FULL (DE265_CODE 7) /\
    (is_IMAGE_BUFFER_FULL (DE265_CODE 7) = false ->
     flow out = GST_FLOW_ERROR \/
     DE265_CODE 7 = DE265_ERROR_WAITING_FOR_INPUT_DATA /\
     true = true /\
     flow out = GST_VIDEO_DECODER_FLOW_NEED_DATA).
Proof.
  split; [reflexivity|]. split; [reflexivity|]. split; [discriminate|].
  split; [reflexivity|]. split; [reflexivity|]. split; [reflexivity|].
  eexists. split; [reflexivity|].
  apply (@rejected_push_is_not_decoded _ _ refusing true 1 refused_dec tt tt
           one_record one_record [] (DE265_CODE 7)); try reflexivity. discriminate.
Defined.

Lemma backlog_flag_records_full_buffer_witness :
  exists out,
    gst_libde265_dec_parse true 1 (stub_dec backlogging) one_record true
      = Returned out /\
    buffer_full (dec_after out) = true /\
    (buffer_full (dec_after out) = true ->
     count is_Get_warning (calls out) = 0%nat /\
     (flow out = Return_have_frame \/ flow out = GST_VIDEO_DECODER_FLOW_NEED_DATA) /\
     (forall base,
        returned_value base (flow out) = GST_FLOW_ERROR ->
        flow out = Return_have_frame /\ base = GST_FLOW_ERROR /\
        last (calls out) = Some Have_frame) /\
     (count is_Push_data (calls out) = 0%nat ->
      buffer_full (stub_dec backlogging) = true /\ flow out = Return_have_frame /\
      adapter_after out = one_record)) /\
    (forall c frame_data markers ret c2 log2,
       ctx (stub_dec backlogging) = Some c ->
       (buffer_full (stub_dec backlogging) = true -> de265_peek_next_picture c = None) ->
       one_record <> [] -> true = true ->
       reframe (mode (stub_dec backlogging)) one_record = Reframed frame_data markers ->
       push_and_decode c frame_data (size_of one_record) = (ret, c2, log2) ->
       buffer_full (dec_after out) = is_IMAGE_BUFFER_FULL ret).
Proof.
  eexists. split; [reflexivity|]. split; [reflexivity|].
  apply (backlog_flag_records_full_buffer true 1 (stub_dec backlogging) one_record true).
  reflexivity.
Defined.

Lemma cycle_returns_or_leaves_the_buffer_witness :
  ctx (stub_dec Stub.empty) = Some Stub.empty /\
  exists fuel0, forall fuel, (fuel0 <= fuel)%nat ->
    (exists out,
       gst_libde265_dec_parse true fuel (stub_dec Stub.empty) negative_length_buffer true
         = Returned out) \/
    (exists offset,
       gst_libde265_dec_parse true fuel (stub_dec Stub.empty) negative_length_buffer true
         = Undefined_behaviour (Out_of_bounds offset) /\
       reframe (mode (stub_dec Stub.empty)) negative_length_buffer
         = Reframe_undefined offset /\
       mode (stub_dec Stub.empty) = GST_TYPE_LIBDE265_DEC_PACKETIZED /\
       offset < 0 /\ negative_length_buffer <> [] /\ true = true).
Proof.
  split; [reflexivity|].
  apply (cycle_returns_or_leaves_the_buffer true (stub_dec Stub.empty) Stub.empty
           negative_length_buffer true).
  reflexivity.
Defined.

Lemma raw_chunk_is_pushed_unchanged_witness :
  mode (stub_raw Stub.empty) = GST_TYPE_LIBDE265_DEC_RAW /\
  ctx (stub_raw Stub.empty) = Some Stub.empty /\
  (buffer_full (stub_raw Stub.empty) = true ->
   de265_peek_next_picture Stub.empty = None) /\
  one_record <> [] /\
  (forall fuel out,
     gst_libde265_dec_parse true fuel (stub_raw Stub.empty) one_record true
       = Returned out ->
     count is_overflow_error (calls out) = 0%nat /\
     exists after,
       calls out =
         (if buffer_full (stub_raw Stub.empty) then [Peek_next_picture] else [])
         ++ Take_buffer (size_of one_record)
            :: Push_data one_record (CInt.to_int (size_of one_record)) :: after /\
       count is_Push_data after = 0%nat) /\
  (size_of one_record <= CInt.INT_MAX ->
   CInt.to_int (size_of one_record) = size_of one_record) /\
  (exists fuel0, forall fuel, (fuel0 <= fuel)%nat ->
     exists out,
       gst_libde265_dec_parse true fuel (stub_raw Stub.empty) one_record true
         = Returned out).
Proof.
  split; [reflexivity|]. split; [reflexivity|]. split; [reflexivity|].
  split; [discriminate|].
  apply (raw_chunk_is_pushed_unchanged true (stub_raw Stub.empty) Stub.empty one_record);
    try reflexivity. discriminate.
Defined.

Lemma handed_frame_is_the_one_pulled_witness :
  exists out,
    gst_libde265_dec_parse true 1 (stub_backlogged two_pending) one_record true
      = Returned out /\
    flow out = Return_have_frame /\
    exists c img rest,
      ctx (dec_after out) = Some c /\
      pending c = img :: rest /\
      width (dec_after out) = de265_get_image_width img 0 /\
      height (dec_after out) = de265_get_image_height img 0 /\
      fst (de265_get_next_picture c) = Some img /\
      forall output_buffer map_ok' h,
        gst_libde265_dec_handle_frame (dec_after out) output_buffer map_ok' = Returned h ->
        hd_error (handle_calls h) = Some Get_next_picture /\
        (exists c', ctx (handle_dec h) = Some c' /\ pending c' = rest) /\
        width (handle_dec h) = de265_get_image_width img 0 /\
        height (handle_dec h) = de265_get_image_height img 0.
Proof.
  eexists. split; [reflexivity|]. split; [reflexivity|].
  apply (handed_frame_is_the_one_pulled true 1 (stub_backlogged two_pending)
           one_record true); reflexivity.
Defined.

Lemma pulled_picture_is_dropped_on_failure_witness :
  ctx (stub_dec two_pending) = Some two_pending /\
  exists h,
    gst_libde265_dec_handle_frame (stub_dec two_pending) None true = Returned h /\
    (exists c', ctx (handle_dec h) = Some c' /\ pending c' = tail (pending two_pending)) /\
    count is_frame (handle_calls h)
      = (if is_Return_finish_frame (handle_flow h) then 1 else 0)%nat /\
    (pending two_pending = [] ->
     handle_flow h = GST_FLOW_OK /\ handle_calls h = [Get_next_picture]) /\
    (pending two_pending <> [] ->
     (@None (list byte) = None ->
      handle_flow h = Return_allocate_output_frame /\
      handle_calls h = [Get_next_picture; Allocate_output_frame]) /\
     (@None (list byte) <> None -> true = false ->
      handle_flow h = GST_FLOW_ERROR /\
      handle_calls h = [Get_next_picture; Allocate_output_frame]) /\
     (@None (list byte) <> None -> true = true ->
      handle_flow h = Return_finish_frame)).
Proof.
  split; [reflexivity|]. eexists. split; [reflexivity|].
  apply (pulled_picture_is_dropped_on_failure (stub_dec two_pending) two_pending
           None true); reflexivity.
Defined.

Lemma flushed_element_feeds_at_once_witness :
  ctx (stub_backlogged two_pending) = Some two_pending /\
  (length (pending two_pending) < 3)%nat /\
  exists dec' c',
    gst_libde265_dec_flush 3 (stub_backlogged two_pending)
      = Returned (dec', replicate (S (length (pending two_pending))) Get_next_picture) /\
    ctx dec' = Some c' /\ pending c' = [] /\
    width dec' = width (stub_backlogged two_pending) /\
    height dec' = height (stub_backlogged two_pending) /\
    forall fuel' adapter map_ok out,
      gst_libde265_dec_parse true fuel' dec' adapter map_ok = Returned out ->
      hd_error (calls out)
        = match adapter with
          | [] => None
          | _ => Some (Take_buffer (size_of adapter))
          end /\
      (adapter = [] -> out = {| flow := GST_VIDEO_DECODER_FLOW_NEED_DATA;
                                dec_after := dec'; adapter_after := [];
                                calls := [] |}).
Proof.
  assert (H2 : (length (pending two_pending) < 3)%nat) by (cbn; lia).
  split; [reflexivity|]. split; [exact H2|].
  exact (flushed_element_feeds_at_once true 3 (stub_backlogged two_pending) two_pending
           eq_refl H2).
Defined.

Lemma small_output_buffer_overflows_witness :
  let img := Stub.make_image 2 2 2 in
  ctx (stub_dec two_pending) = Some two_pending /\
  de265_get_next_picture two_pending = (Some img, one_pending) /\
  size_of [Byte.x00] < plane_bytes img 0 + plane_bytes img 1 + plane_bytes img 2 /\
  exists plane,
    In plane [0; 1; 2] /\
    gst_libde265_dec_handle_frame (stub_dec two_pending) (Some [Byte.x00]) true
      = Undefined_behaviour (Bad_memcpy plane).
Proof.
  intros img.
  assert (H3 : size_of [Byte.x00]
               < plane_bytes img 0 + plane_bytes img 1 + plane_bytes img 2)
    by (vm_compute; reflexivity).
  split; [reflexivity|]. split; [reflexivity|]. split; [exact H3|].
  exact (small_output_buffer_overflows (stub_dec two_pending) two_pending one_pending
           img [Byte.x00] eq_refl eq_refl H3).
Defined.

Lemma first_picture_after_start_renegotiates_witness :
  let dec := decoder (snd (fst (gst_libde265_dec_start stub_start_worker_threads
                                  streaming (Some Stub.empty) (Some 4)))) in
  let img := Stub.make_image 2 2 2 in
  let w := de265_get_image_width img 0 in
  let h := de265_get_image_height img 0 in
  (w <> -1 \/ h <> -1) /\
  _gst_libde265_image_available dec img =
  (set_geometry dec w h,
   renegotiation w h (fps_n (decoder streaming)) (fps_d (decoder streaming))
   ++ [Have_frame]) /\
  mode dec = mode (decoder streaming) /\ buffer_full dec = false.
Proof.
  intros dec img w h.
  assert (H1 : w <> -1 \/ h <> -1) by (left; discriminate).
  split; [exact H1|].
  exact (first_picture_after_start_renegotiates stub_start_worker_threads streaming
           Stub.empty (Some 4) img H1).
Defined.

Lemma fresh_element_announces_no_framerate_witness :
  let e := fst (gst_libde265_dec_init streaming) in
  let dec := decoder (snd (fst (gst_libde265_dec_start stub_start_worker_threads
                                  e (Some Stub.empty) None))) in
  let img := Stub.make_image 2 2 2 in
  let w := de265_get_image_width img 0 in
  let h := de265_get_image_height img 0 in
  (w <> -1 \/ h <> -1) /\
  snd (gst_libde265_dec_init streaming) = [Set_packetized false] /\
  ctx (decoder e) = None /\ input_state e = None /\
  mode dec = GST_TYPE_LIBDE265_DEC_PACKETIZED /\
  (exists threads,
     snd (gst_libde265_dec_start stub_start_worker_threads e (Some Stub.empty) None)
       = [New_decoder true; Start_worker_threads threads]) /\
  _gst_libde265_image_available dec img =
  (set_geometry dec w h, [Set_output_state w h; Negotiate; Have_frame]).
Proof.
  intros e dec img w h.
  assert (H1 : w <> -1 \/ h <> -1) by (left; discriminate).
  split; [exact H1|].
  exact (fresh_element_announces_no_framerate stub_start_worker_threads streaming
           Stub.empty None img H1).
Defined.

Lemma sync_scan_stays_inside_witness :
  0 <= 20 < 2 ^ 32 /\
  0 <= 2 <= CInt.INT_MAX /\
  (- 2 ^ 31 <= 20 - 2 < 4 ->
   VP8Dec.gst_vp8_dec_scan_for_sync 20 (fun _ _ => 3) false 2 100
     = (if false then 20 - 2 else 0, [])) /\
  (7 <= 20 - 2 <= CInt.INT_MAX -> 1 <= 100 <= CInt.INT_MAX ->
   let size := Z.min 100 (20 - 2 - 6) in
   VP8Dec.gst_vp8_dec_scan_for_sync 20 (fun _ _ => 3) false 2 100
     = (CInt.to_int ((fun _ _ => 3) 2 size), [VP8Dec.Masked_scan 2 size]) /\
   1 <= size <= 100 /\ 2 + size + 6 <= 20).
Proof.
  assert (H1 : 0 <= 20 < 2 ^ 32) by lia.
  assert (H2 : 0 <= 2 <= CInt.INT_MAX) by (unfold CInt.INT_MAX; lia).
  split; [exact H1|]. split; [exact H2|].
  exact (sync_scan_stays_inside 20 (fun _ _ => 3) false 2 100 H1 H2).
Defined.

Lemma vp8_last_image_wins_witness :
  let w := VP8Dec.width (VP8Dec.state vp8_dec) in
  let h := VP8Dec.height (VP8Dec.state vp8_dec) in
  let total := w * h + 2 * (w / 2 * (h / 2)) in
  let out := replicate 8 Byte.x00 in
  0 <= w /\ 0 <= h /\ Z.even w = true /\ Z.even h = true /\
  VP8Dec.src_buffer vp8_frame = Some out /\
  VP8Dec.status vp8_frame = 0 /\
  Forall (VP8Dec.readable w h) (VP8Dec.images vp8_frame) /\
  total <= size_of out /\
  exists res,
    VP8Dec.gst_vp8_dec_handle_frame vp8_dec vp8_frame = Some res /\
    VP8Dec.handle_flow res = GST_FLOW_OK /\
    last (VP8Dec.handle_calls res)
      = Some (VP8Dec.Finish_frame
                match last (VP8Dec.images vp8_frame) with
                | Some img => VP8Dec.packed_image w h img ++ drop (Z.to_nat total) out
                | None => out
                end) /\
    count_calls VP8Dec.is_Finish_frame (VP8Dec.handle_calls res) = 1%nat.
Proof.
  intros w h total out.
  assert (H7 : Forall (VP8Dec.readable w h) (VP8Dec.images vp8_frame)).
  { repeat constructor; vm_compute; discriminate. }
  assert (H8 : total <= size_of out) by (vm_compute; discriminate).
  split; [vm_compute; discriminate|]. split; [vm_compute; discriminate|].
  split; [reflexivity|]. split; [reflexivity|]. split; [reflexivity|].
  split; [reflexivity|]. split; [exact H7|]. split; [exact H8|].
  apply (vp8_last_image_wins vp8_dec vp8_frame out); try reflexivity; try assumption;
    vm_compute; discriminate.
Defined.

Lemma vp8_tags_once_and_fixed_caps_witness :
  exists dec' log,
    VP8Dec.handle_frames (snd (VP8Dec.gst_vp8_dec_reset vp8_dec))
      [vp8_bad_frame; vp8_frame] = Some (dec', log) /\
    count_calls VP8Dec.is_Send_tags log = 1%nat /\
    Forall (VP8Dec.fixed_caps (VP8Dec.width (VP8Dec.state vp8_dec))
              (VP8Dec.height (VP8Dec.state vp8_dec))) log /\
    VP8Dec.width (VP8Dec.state dec') = VP8Dec.width (VP8Dec.state vp8_dec) /\
    VP8Dec.height (VP8Dec.state dec') = VP8Dec.height (VP8Dec.state vp8_dec) /\
    ([vp8_bad_frame; vp8_frame] <> [] ->
     VP8Dec.decoder_inited dec' = true /\ VP8Dec.have_video_info dec' = true /\
     VP8Dec.state dec' =
       {| VP8Dec.format := VP8Dec.GST_VIDEO_FORMAT_I420;
          VP8Dec.width := VP8Dec.width (VP8Dec.state vp8_dec);
          VP8Dec.height := VP8Dec.height (VP8Dec.state vp8_dec);
          VP8Dec.fps_n := 30; VP8Dec.fps_d := 1;
          VP8Dec.par_n := 1; VP8Dec.par_d := 1 |}).
Proof.
  eexists. eexists. split; [vm_compute; reflexivity|].
  apply (vp8_tags_once_and_fixed_caps vp8_dec [vp8_bad_frame; vp8_frame]).
  vm_compute. reflexivity.
Defined.

Lemma backlog_is_drained_first_witness :
  (ctx (stub_backlogged two_pending) = Some two_pending /\
   buffer_full (stub_backlogged two_pending) = true /\
   de265_peek_next_picture two_pending = Some (Stub.make_image 2 2 2) /\
   exists out,
     gst_libde265_dec_parse true 1 (stub_backlogged two_pending) one_record true
       = Returned out /\
     flow out = Return_have_frame /\
     calls out =
       Peek_next_picture
         :: snd (_gst_libde265_image_available (stub_backlogged two_pending)
                   (Stub.make_image 2 2 2)) /\
     last (calls out) = Some Have_frame /\
     count is_frame (calls out) = 1%nat /\
     count is_Push_data (calls out) = 0%nat /\
     count is_Take_buffer (calls out) = 0%nat /\
     adapter_after out = one_record /\
     buffer_full (dec_after out) = true /\
     ctx (dec_after out) = Some two_pending) /\
  (ctx (stub_backlogged warning_twice) = Some warning_twice /\
   buffer_full (stub_backlogged warning_twice) = true /\
   de265_peek_next_picture warning_twice = None /\
   one_record <> [] /\
   reframe (mode (stub_backlogged warning_twice)) one_record
     = Reframed one_record [0] /\
   let length := CInt.to_int (size_of one_record) in
   let pushed := de265_push_data warning_twice one_record length in
   let accepted := is_DE265_OK (fst pushed) in
   let decoded := de265_decode (snd pushed) in
   let ret := if accepted then fst decoded else fst pushed in
   let c2 := if accepted then snd decoded else snd pushed in
   (exists fuel0, forall fuel', (fuel0 <= fuel')%nat ->
      exists out,
        gst_libde265_dec_parse true fuel' (stub_backlogged warning_twice) one_record true
          = Returned out) /\
   forall fuel' out,
     gst_libde265_dec_parse true fuel' (stub_backlogged warning_twice) one_record true
       = Returned out ->
     adapter_after out = [] /\
     buffer_full (dec_after out) = is_IMAGE_BUFFER_FULL ret /\
     (is_DE265_OK ret = false -> ctx (dec_after out) = Some c2) /\
     (is_DE265_OK ret = true ->
      exists c3 log3,
        get_warnings fuel' c2 = Some (c3, log3) /\
        ctx (dec_after out) = Some c3) /\
     exists rest,
       calls out =
         [Peek_next_picture; Take_buffer (size_of one_record);
          Push_data one_record length]
         ++ (if accepted then [Decode] else []) ++ rest /\
       feeding_calls rest = []).
Proof.
  split.
  - split; [reflexivity|]. split; [reflexivity|]. split; [reflexivity|].
    exact (proj1 (backlog_is_drained_first true 1 (stub_backlogged two_pending)
                    two_pending one_record true eq_refl eq_refl)
             (Stub.make_image 2 2 2) eq_refl).
  - assert (H4 : one_record <> []) by discriminate.
    split; [reflexivity|]. split; [reflexivity|]. split; [reflexivity|].
    split; [exact H4|]. split; [reflexivity|].
    exact (proj2 (proj2 (proj1 (proj2
             (backlog_is_drained_first true 1 (stub_backlogged warning_twice)
                warning_twice one_record true eq_refl eq_refl)) eq_refl))
             one_record [0] H4 eq_refl eq_refl).
Defined.
